(** * Architecture guard for Go projects: a shallow embedding

    This development embeds [scripts/makefile/arch_guard.py] in Rocq and
    proves properties of its layer-dependency rules, of its import
    extractor, of its go.mod check, of its report and of its exit code.

    Conventions of the embedding.
    - A Python [str] is a [string]; in the text that is read, a character
      is a code point below 256.  The symbols of the printed messages are
      kept as the bytes of their UTF-8 encoding.
    - A [pathlib.Path] is the list of its parts.
    - A Python [set] of layer names is a duplicate-free [list string];
      the order in which a loop visits it is given by the environment.
    - The file system is a record of functions, read-only.  Reading a
      file gives its lines, or the lines that were read before an
      exception was raised.
    - Methods of [ArchitectureGuard] run in a state monad over the fields
      of the object and the lines printed so far.
    - The project root, which [main] derives from the place of the script,
      is an argument of [main]. *)

From Stdlib Require Import List Bool Arith NArith Lia String Ascii.
From Stdlib Require Import Permutation Sorted.
From Stdlib Require Import DecimalString.
Import ListNotations.

Open Scope string_scope.
Open Scope list_scope.
Open Scope nat_scope.

(** ** Text primitives *)

Module Text.

(** [str.isspace] and the regex class [\s] agree on code points below 256. *)
Definition is_space (c : ascii) : bool :=
  let n := nat_of_ascii c in
  ((9 <=? n) && (n <=? 13)) || ((28 <=? n) && (n <=? 32))
  || (n =? 133) || (n =? 160).

(** The regex class [\w] on code points below 256. *)
Definition is_word (c : ascii) : bool :=
  let n := nat_of_ascii c in
  ((48 <=? n) && (n <=? 57)) || ((65 <=? n) && (n <=? 90)) || (n =? 95)
  || ((97 <=? n) && (n <=? 122))
  || (n =? 170) || (n =? 178) || (n =? 179) || (n =? 181)
  || (n =? 185) || (n =? 186) || ((188 <=? n) && (n <=? 190))
  || ((192 <=? n) && (n <=? 214)) || ((216 <=? n) && (n <=? 246))
  || ((248 <=? n) && (n <=? 255)).

Definition newline : ascii := ascii_of_nat 10.
Definition dquote : ascii := ascii_of_nat 34.

(** The regex class [.]: anything but a newline. *)
Definition is_dot (c : ascii) : bool := negb (Ascii.eqb c newline).
(** The regex class of every character but the double quote. *)
Definition not_dquote (c : ascii) : bool := negb (Ascii.eqb c dquote).
(** The regex class [[^\s]]. *)
Definition not_space (c : ascii) : bool := negb (is_space c).

Fixpoint lstrip_by (p : ascii -> bool) (s : string) : string :=
  match s with
  | String c s' => if p c then lstrip_by p s' else s
  | EmptyString => EmptyString
  end.

Fixpoint rstrip_by (p : ascii -> bool) (s : string) : string :=
  match s with
  | String c s' =>
      match rstrip_by p s' with
      | EmptyString => if p c then EmptyString else String c EmptyString
      | r => String c r
      end
  | EmptyString => EmptyString
  end.

(** [s.strip()] *)
Definition strip (s : string) : string := rstrip_by is_space (lstrip_by is_space s).

(** [s.lstrip('/')] *)
Definition lstrip_slash (s : string) : string := lstrip_by (Ascii.eqb "/") s.

(** [s.split(sep)] for a one-character separator. *)
Fixpoint split (sep : ascii) (s : string) : list string :=
  match s with
  | EmptyString => [EmptyString]
  | String c s' =>
      if Ascii.eqb c sep then EmptyString :: split sep s'
      else match split sep s' with
           | p :: ps => String c p :: ps
           | [] => [String c EmptyString]
           end
  end.

(** [s.startswith(p)] *)
Definition startswith (s p : string) : bool := String.prefix p s.

(** [s[n:]] *)
Fixpoint drop (n : nat) (s : string) : string :=
  match n, s with
  | S n', String _ s' => drop n' s'
  | _, _ => s
  end.

(** [s[:n]] *)
Fixpoint take (n : nat) (s : string) : string :=
  match n, s with
  | S n', String c s' => String c (take n' s')
  | _, _ => EmptyString
  end.

(** [s.endswith(suf)] *)
Definition endswith (s suf : string) : bool :=
  (String.length suf <=? String.length s)
  && String.eqb (drop (String.length s - String.length suf) s) suf.

(** [str(n)] for a non-negative integer. *)
Definition str_of_nat (n : nat) : string := NilEmpty.string_of_uint (Nat.to_uint n).

Fixpoint spaces (n : nat) : string :=
  match n with
  | O => EmptyString
  | S n' => String " " (spaces n')
  end.

(** The format spec [{s:15}]: left-justified in a field of 15. *)
Definition ljust15 (s : string) : string := s ++ spaces (15 - String.length s).

(** [sep.join(l)] *)
Definition join (sep : string) (l : list string) : string := String.concat sep l.

(** ['=' * 70] *)
Fixpoint repeat_char (c : ascii) (n : nat) : string :=
  match n with
  | O => EmptyString
  | S n' => String c (repeat_char c n')
  end.

Definition rule70 : string := repeat_char "=" 70.

(** [sorted(l)] on strings, by code point order.  Equal strings cannot be
    told apart, so any sorting algorithm gives this list; the model uses
    insertion. *)
Fixpoint insert_sorted (x : string) (l : list string) : list string :=
  match l with
  | [] => [x]
  | y :: l' => if String.ltb x y then x :: l else y :: insert_sorted x l'
  end.

Definition sorted (l : list string) : list string :=
  fold_right insert_sorted [] l.

End Text.

(** ** The regular expressions of the tool

    The four patterns of the source use literals, character classes under
    [*] and [+], one optional non-capturing group, one capture group and
    [$].  The matcher is a backtracking matcher in continuation-passing
    style: greedy choices first, as Python's [re] does. *)

Module Regex.
Import Text.

Inductive regex : Type :=
| RLit (s : string)              (* a literal text *)
| RStar (p : ascii -> bool)      (* [class*], greedy *)
| RPlus (p : ascii -> bool)      (* [class+], greedy *)
| RSeq (r1 r2 : regex)
| ROpt (r : regex)               (* [(?:r)?], greedy *)
| RGroup (r : regex)             (* [(r)], group 1 *)
| REnd.                          (* [$] *)

Fixpoint strip_prefix (p s : string) : option string :=
  match p, s with
  | EmptyString, _ => Some s
  | String a p', String b s' => if Ascii.eqb a b then strip_prefix p' s' else None
  | String _ _, EmptyString => None
  end.

Section Matcher.
Context {A : Type}.

Fixpoint star (p : ascii -> bool) (s : string) (k : string -> option A) : option A :=
  match s with
  | String c s' =>
      if p c then
        match star p s' k with
        | Some r => Some r
        | None => k s
        end
      else k s
  | EmptyString => k EmptyString
  end.

Definition plus (p : ascii -> bool) (s : string) (k : string -> option A) : option A :=
  match s with
  | String c s' => if p c then star p s' k else None
  | EmptyString => None
  end.

(** [$] without [re.MULTILINE]: at the end, or before a final newline. *)
Definition at_end (s : string) : bool :=
  String.eqb s EmptyString || String.eqb s (String newline EmptyString).

Fixpoint rx (r : regex) (s : string) (cap : option string)
    (k : string -> option string -> option A) : option A :=
  match r with
  | RLit l =>
      match strip_prefix l s with
      | Some s' => k s' cap
      | None => None
      end
  | RStar p => star p s (fun s' => k s' cap)
  | RPlus p => plus p s (fun s' => k s' cap)
  | RSeq r1 r2 => rx r1 s cap (fun s' cap' => rx r2 s' cap' k)
  | ROpt r1 =>
      match rx r1 s cap k with
      | Some x => Some x
      | None => k s cap
      end
  | RGroup r1 =>
      rx r1 s cap
         (fun s' _ => k s' (Some (take (String.length s - String.length s') s)))
  | REnd => if at_end s then k s cap else None
  end.

End Matcher.

(** [re.match(r, s)]: group 1 and the unmatched rest, when [r] matches at
    the start of [s]. *)
Definition re_match (r : regex) (s : string) : option (option string * string) :=
  rx r s None (fun s' cap => Some (cap, s')).

(** [match.group(1)] of [re.match(r, s)]. *)
Definition match_group1 (r : regex) (s : string) : option string :=
  match re_match r s with
  | Some (Some g, _) => Some g
  | _ => None
  end.

(** [re.finditer(r, s)], as the list of group 1 of the successive
    non-overlapping matches, leftmost first.  [skip] counts the characters
    of the previous match still to pass. *)
Fixpoint finditer_from (r : regex) (s : string) (skip : nat) : list string :=
  match s with
  | EmptyString => []
  | String _ s' =>
      match skip with
      | S n => finditer_from r s' n
      | O =>
          match re_match r s with
          | Some (cap, rest) =>
              match cap with Some g => [g] | None => [] end
              ++ finditer_from r s' (String.length s - String.length rest - 1)
          | None => finditer_from r s' 0
          end
      end
  end.

Definition finditer (r : regex) (s : string) : list string := finditer_from r s 0.

Fixpoint seq_of (l : list regex) : regex :=
  match l with
  | [] => RLit EmptyString
  | [r] => r
  | r :: l' => RSeq r (seq_of l')
  end.

Definition rquote : regex := RLit (String dquote EmptyString).

(** The pattern of a line inside an import block,
    [^\s*(?:\w+\s+)?Q([^Q]+)Q\s*$] where [Q] is the double quote. *)
Definition block_line_re : regex :=
  seq_of [RStar is_space; ROpt (RSeq (RPlus is_word) (RPlus is_space));
          rquote; RGroup (RPlus not_dquote); rquote; RStar is_space; REnd].

(** The pattern of a single-line import,
    [^\s*import\s+(?:\w+\s+)?Q([^Q]+)Q\s*$] where [Q] is the double quote. *)
Definition import_line_re : regex :=
  seq_of [RStar is_space; RLit "import"; RPlus is_space;
          ROpt (RSeq (RPlus is_word) (RPlus is_space));
          rquote; RGroup (RPlus not_dquote); rquote; RStar is_space; REnd].

(** [require\s+([^\s]+)] *)
Definition require_re : regex :=
  seq_of [RLit "require"; RPlus is_space; RGroup (RPlus not_space)].

(** [^\s*module\s+(.+)\s*$] *)
Definition module_re : regex :=
  seq_of [RStar is_space; RLit "module"; RPlus is_space;
          RGroup (RPlus is_dot); RStar is_space; REnd].

End Regex.

(** ** Paths, files and the file system *)

Module FS.
Import Text.

(** A [pathlib.Path], as the list of its parts. *)
Definition Path : Type := list string.

(** [p / name] *)
Definition child (p : Path) (name : string) : Path := p ++ [name].

(** [p.name] *)
Definition name (p : Path) : string := last p EmptyString.

(** [str(p)]; the root of an absolute path is the part ["/"]. *)
Definition path_str (p : Path) : string :=
  match p with
  | "/" :: rest => "/" ++ join "/" rest
  | _ => join "/" p
  end.

(** [p.relative_to(root)]: [None] stands for the [ValueError] raised when
    [p] is not below [root]. *)
Fixpoint relative_to (p root : Path) : option Path :=
  match root, p with
  | [], _ => Some p
  | r :: root', x :: p' => if String.eqb r x then relative_to p' root' else None
  | _ :: _, [] => None
  end.

(** What opening a file in text mode and reading it gives: all its lines,
    or the lines read before an exception (on [open], on an I/O error, on
    bytes that do not decode) together with the exception's text. *)
Inductive ReadResult : Type :=
| ReadOk (lines : list string)
| ReadError (lines_before : list string) (err : string).

Record FileSystem : Type := {
  (** [p.exists()] *)
  path_exists : Path -> bool;
  (** [p.is_dir()] *)
  is_dir : Path -> bool;
  (** [open(p, 'r', encoding='utf-8')] and the reading that follows *)
  open_read : Path -> ReadResult;
  (** [dir.rglob('*.go')], as paths relative to [dir], in the order the
      directory walk yields them *)
  rglob_go : Path -> list Path;
  (** the position of a string in the iteration order of a Python set *)
  set_rank : string -> nat
}.

Fixpoint insert_by_rank (rank : string -> nat) (x : string) (l : list string) : list string :=
  match l with
  | [] => [x]
  | y :: l' => if rank x <? rank y then x :: l else y :: insert_by_rank rank x l'
  end.

(** The order in which [for x in s] visits a set [s] of strings. *)
Definition set_iter (fs : FileSystem) (s : list string) : list string :=
  fold_right (insert_by_rank (set_rank fs)) [] s.

End FS.

(** ** The guard *)

Module Guard.
Import Text Regex FS.

Record ArchitectureViolation : Type := {
  file_path : string;
  line_number : nat;
  violation_type : string;
  details : string
}.

(** The fields of an [ArchitectureGuard] object. *)
Record ArchitectureGuard : Type := {
  project_root : Path;
  violations : list ArchitectureViolation;
  layers_present : list string;
  gomod_config_valid : bool;
  module_path : string
}.

(** The object and the lines printed so far, one entry per [print]. *)
Record St : Type := {
  self : ArchitectureGuard;
  stdout : list string
}.

Definition M (A : Type) : Type := St -> A * St.

Definition ret {A : Type} (a : A) : M A := fun st => (a, st).

Definition bind {A B : Type} (c : M A) (k : A -> M B) : M B :=
  fun st => let (a, st') := c st in k a st'.

Notation "x <- c ;; k" := (bind c (fun x => k))
  (at level 61, c at next level, right associativity).
Notation "c ;; k" := (bind c (fun _ => k))
  (at level 61, right associativity).

Definition get_self : M ArchitectureGuard := fun st => (self st, st).

Definition print (line : string) : M unit :=
  fun st => (tt, {| self := self st; stdout := stdout st ++ [line] |}).

Definition modify_self (f : ArchitectureGuard -> ArchitectureGuard) : M unit :=
  fun st => (tt, {| self := f (self st); stdout := stdout st |}).

(** [self.violations.append(v)] *)
Definition append_violation (v : ArchitectureViolation) : M unit :=
  modify_self (fun g =>
    {| project_root := project_root g;
       violations := violations g ++ [v];
       layers_present := layers_present g;
       gomod_config_valid := gomod_config_valid g;
       module_path := module_path g |}).

(** A loop body that appends at most one violation and goes on. *)
Definition record (o : option ArchitectureViolation) : M unit :=
  match o with
  | Some v => append_violation v
  | None => ret tt
  end.

Definition set_layers_present (l : list string) : M unit :=
  modify_self (fun g =>
    {| project_root := project_root g;
       violations := violations g;
       layers_present := l;
       gomod_config_valid := gomod_config_valid g;
       module_path := module_path g |}).

Definition set_gomod_config_valid (b : bool) : M unit :=
  modify_self (fun g =>
    {| project_root := project_root g;
       violations := violations g;
       layers_present := layers_present g;
       gomod_config_valid := b;
       module_path := module_path g |}).

Definition set_module_path (m : string) : M unit :=
  modify_self (fun g =>
    {| project_root := project_root g;
       violations := violations g;
       layers_present := layers_present g;
       gomod_config_valid := gomod_config_valid g;
       module_path := m |}).

(** [for x in l: body(x)] *)
Fixpoint for_each {A : Type} (l : list A) (body : A -> M unit) : M unit :=
  match l with
  | [] => ret tt
  | x :: l' => body x ;; for_each l' body
  end.

(** A loop that carries a local variable. *)
Fixpoint fold_each {A B : Type} (l : list A) (acc : B) (body : A -> B -> M B) : M B :=
  match l with
  | [] => ret acc
  | x :: l' => acc' <- body x acc ;; fold_each l' acc' body
  end.

Definition nl : string := String newline EmptyString.
Definition dq : string := String dquote EmptyString.

(** *** Class constants *)

Definition LAYER_RULES : list (string * list string) :=
  [ ("domain", []);
    ("application", ["domain"]);
    ("infrastructure", ["application"; "domain"]);
    ("presentation", ["application"]);
    ("bootstrap", ["domain"; "application"; "infrastructure"; "presentation"]) ].

Definition FORBIDDEN_TEST_IMPORTS : list string :=
  ["testing"; "testify"; "assert"; "require"; "mock"].

Definition FORBIDDEN_DEPENDENCY : string := "bootstrap".

(** [x in s] for a set or a list of strings. *)
Definition mem (x : string) (s : list string) : bool := existsb (String.eqb x) s.

(** [name in self.LAYER_RULES] *)
Definition is_layer (name : string) : bool := mem name (map fst LAYER_RULES).

(** [self.LAYER_RULES[layer]]; the source only looks up keys of the table. *)
Definition allowed_deps_of (layer : string) : list string :=
  match find (fun kv => String.eqb (fst kv) layer) LAYER_RULES with
  | Some (_, deps) => deps
  | None => []
  end.

(** [s.add(x)] *)
Definition set_add (x : string) (s : list string) : list string :=
  if mem x s then s else s ++ [x].

(** [a - b] *)
Definition set_diff (a b : list string) : list string :=
  filter (fun x => negb (mem x b)) a.

Section WithFileSystem.
Variable fs : FileSystem.

(** *** [_get_module_path] *)

Definition default_module_path : string := "github.com/abitofhelp/hybrid_app_go".

Fixpoint first_module_line (lines : list string) : option string :=
  match lines with
  | [] => None
  | line :: rest =>
      match match_group1 module_re line with
      | Some g => Some (strip g)
      | None => first_module_line rest
      end
  end.

Definition _get_module_path : M string :=
  g <- get_self ;;
  let root_gomod := child (project_root g) "go.mod" in
  if path_exists fs root_gomod then
    match open_read fs root_gomod with
    | ReadOk lines =>
        match first_module_line lines with
        | Some m => ret m
        | None => ret default_module_path
        end
    | ReadError lines e =>
        match first_module_line lines with
        | Some m => ret m
        | None =>
            print ("Warning: Could not read root go.mod: " ++ e) ;;
            ret default_module_path
        end
    end
  else ret default_module_path.

(** *** [_detect_layers] *)

Definition _detect_layers : M (list string) :=
  g <- get_self ;;
  if negb (path_exists fs (project_root g)) then
    print ("Warning: Project root " ++ path_str (project_root g) ++ " does not exist") ;;
    ret []
  else
    print "Layer Detection:" ;;
    fold_each (sorted (map fst LAYER_RULES)) []
      (fun layer layers =>
         let layer_dir := child (project_root g) layer in
         if path_exists fs layer_dir && is_dir fs layer_dir then
           print ("  ✓ " ++ ljust15 layer ++ " - present") ;;
           ret (set_add layer layers)
         else
           print ("  ○ " ++ ljust15 layer ++ " - not present (skipped)") ;;
           ret layers).

(** *** [__init__] *)

Definition __init__ (root : Path) : M unit :=
  modify_self (fun _ =>
    {| project_root := root; violations := []; layers_present := [];
       gomod_config_valid := false; module_path := EmptyString |}) ;;
  layers <- _detect_layers ;;
  set_layers_present layers ;;
  set_gomod_config_valid false ;;
  m <- _get_module_path ;;
  set_module_path m.

(** *** [_extract_imports] *)

(** The loop over [enumerate(f, start=1)], with its local variable
    [in_import_block]. *)
Fixpoint scan_lines (lines : list string) (line_num : nat) (in_import_block : bool)
    : list (nat * string) :=
  match lines with
  | [] => []
  | line :: rest =>
      let stripped := strip line in
      if startswith stripped "import (" then scan_lines rest (S line_num) true
      else if in_import_block then
        if String.eqb stripped ")" then scan_lines rest (S line_num) false
        else
          match match_group1 block_line_re stripped with
          | Some p => (line_num, p) :: scan_lines rest (S line_num) true
          | None => scan_lines rest (S line_num) true
          end
      else
        match match_group1 import_line_re stripped with
        | Some p => (line_num, p) :: scan_lines rest (S line_num) false
        | None => scan_lines rest (S line_num) false
        end
  end.

Definition _extract_imports (file : Path) : M (list (nat * string)) :=
  match open_read fs file with
  | ReadOk lines => ret (scan_lines lines 1 false)
  | ReadError lines e =>
      print ("Warning: Could not read " ++ path_str file ++ ": " ++ e) ;;
      ret (scan_lines lines 1 false)
  end.

(** *** [_get_layer_from_import] and [_get_file_layer] *)

Definition _get_layer_from_import (g : ArchitectureGuard) (import_path : string)
    : option string :=
  if negb (startswith import_path (module_path g)) then None
  else
    let relative := lstrip_slash (drop (String.length (module_path g)) import_path) in
    match split "/" relative with
    | p0 :: _ => if is_layer p0 then Some p0 else None
    | [] => None
    end.

Definition _get_file_layer (g : ArchitectureGuard) (file : Path) : option string :=
  match relative_to file (project_root g) with
  | Some (p0 :: _) => if is_layer p0 then Some p0 else None
  | Some [] => None
  | None => None
  end.

(** *** [_validate_gomod_config] *)

(** The loop over [re.finditer] that fills [layer_deps]. *)
Definition gomod_layer_deps (g : ArchitectureGuard) (content : string) : list string :=
  fold_left
    (fun layer_deps dep =>
       match _get_layer_from_import g dep with
       | Some dep_layer => set_add dep_layer layer_deps
       | None => layer_deps
       end)
    (finditer require_re content) [].

(** One iteration of the loop over the present layers; [valid] is the
    local variable of the method. *)
Definition gomod_check_layer (g : ArchitectureGuard) (layer : string) (valid : bool)
    : M bool :=
  let gomod_path := child (child (project_root g) layer) "go.mod" in
  if negb (path_exists fs gomod_path) then
    print ("  ⚠ " ++ ljust15 layer ++ " - no go.mod file") ;;
    ret valid
  else
    match open_read fs gomod_path with
    | ReadError _ e =>
        print ("  ❌ " ++ ljust15 layer ++ " - error reading go.mod: " ++ e) ;;
        ret false
    | ReadOk lines =>
        let content := String.concat EmptyString lines in
        let layer_deps := gomod_layer_deps g content in
        let allowed_deps := allowed_deps_of layer in
        let forbidden := set_diff layer_deps allowed_deps in
        match forbidden with
        | _ :: _ =>
            print ("  ❌ " ++ ljust15 layer ++ " - forbidden dependencies: "
                   ++ join ", " (sorted forbidden)) ;;
            ret false
        | [] =>
            let deps_str :=
              match layer_deps with
              | _ :: _ => join ", " (sorted layer_deps)
              | [] => "none"
              end in
            print ("  ✓ " ++ ljust15 layer ++ " - dependencies: " ++ deps_str) ;;
            ret valid
        end
    end.

Definition _validate_gomod_config : M bool :=
  g <- get_self ;;
  print (nl ++ "Validating go.mod configurations:") ;;
  fold_each (sorted (layers_present g)) true (gomod_check_layer g).

(** *** [_validate_no_test_imports] *)

(** What the body of the loop over the imports appends for one import. *)
Definition test_import_violation (file : Path) (imp : nat * string)
    : option ArchitectureViolation :=
  let '(line_num, import_path) := imp in
  if String.eqb import_path "testing" then
    Some {| file_path := path_str file;
            line_number := line_num;
            violation_type := "TEST_CODE_IN_PRODUCTION";
            details := "Production code cannot import testing package: "
                       ++ import_path |}
  else None.

Definition _validate_no_test_imports (file : Path) : M unit :=
  if endswith (name file) "_test.go" then ret tt
  else
    imports <- _extract_imports file ;;
    for_each imports (fun imp => record (test_import_violation file imp)).

(** *** [validate_file] *)

(** The body of the loop over the imports of a file of [current_layer]:
    the violation it appends, if any, before it goes on to the next import. *)
Definition check_import (g : ArchitectureGuard) (file : Path) (current_layer : string)
    (allowed_deps : list string) (imp : nat * string)
    : option ArchitectureViolation :=
  let '(line_num, import_path) := imp in
  match _get_layer_from_import g import_path with
  | None => None
  | Some dependency_layer =>
      if negb (mem dependency_layer (layers_present g)) then None
      else if String.eqb dependency_layer current_layer then None
      else if String.eqb dependency_layer FORBIDDEN_DEPENDENCY then
        Some
          {| file_path := path_str file;
             line_number := line_num;
             violation_type := "FORBIDDEN_BOOTSTRAP_DEPENDENCY";
             details := "Layer '" ++ current_layer ++ "' cannot depend on '"
                        ++ FORBIDDEN_DEPENDENCY ++ "' (import: " ++ import_path ++ ")" |}
      else if String.eqb current_layer "presentation"
              && String.eqb dependency_layer "infrastructure" then
        Some
          {| file_path := path_str file;
             line_number := line_num;
             violation_type := "FORBIDDEN_LATERAL_DEPENDENCY";
             details := "Presentation cannot depend on Infrastructure (import: "
                        ++ import_path ++ ")" |}
      else if String.eqb current_layer "infrastructure"
              && String.eqb dependency_layer "presentation" then
        Some
          {| file_path := path_str file;
             line_number := line_num;
             violation_type := "FORBIDDEN_LATERAL_DEPENDENCY";
             details := "Infrastructure cannot depend on Presentation (import: "
                        ++ import_path ++ ")" |}
      else if String.eqb current_layer "presentation"
              && String.eqb dependency_layer "domain" then
        Some
          {| file_path := path_str file;
             line_number := line_num;
             violation_type := "PRESENTATION_IMPORTS_DOMAIN";
             details := "Presentation MUST NOT import Domain directly (import: "
                        ++ import_path ++ ")" ++ nl
                        ++ "      → Use application/error re-exports instead (e.g., apperr.Result[T])" |}
      else if negb (mem dependency_layer allowed_deps) then
        Some
          {| file_path := path_str file;
             line_number := line_num;
             violation_type := "ILLEGAL_LAYER_DEPENDENCY";
             details := "Layer '" ++ current_layer ++ "' cannot depend on '"
                        ++ dependency_layer ++ "' (import: " ++ import_path ++ ")" |}
      else None
  end.

Definition validate_file (file : Path) : M unit :=
  _validate_no_test_imports file ;;
  g <- get_self ;;
  match _get_file_layer g file with
  | None => ret tt
  | Some current_layer =>
      if negb (mem current_layer (layers_present g)) then ret tt
      else
        let allowed_deps := allowed_deps_of current_layer in
        imports <- _extract_imports file ;;
        for_each imports
          (fun imp => record (check_import g file current_layer allowed_deps imp))
  end.

(** *** [validate_all] *)

(** The loops that fill [go_files]. *)
Definition collect_go_files (g : ArchitectureGuard) : list Path :=
  flat_map
    (fun layer =>
       let layer_path := child (project_root g) layer in
       filter (fun go_file => negb (mem "vendor" go_file))
              (map (fun rel => layer_path ++ rel) (rglob_go fs layer_path)))
    (set_iter fs (layers_present g)).

Definition validate_all : M bool :=
  g <- get_self ;;
  match layers_present g with
  | [] =>
      print "⚠ No architecture layers detected - skipping validation" ;;
      ret true
  | _ :: _ =>
      print (nl ++ "Validating architecture rules for layers: "
             ++ join ", " (sorted (layers_present g)) ++ nl) ;;
      print rule70 ;;
      print "Step 1: Validate go.mod Configuration" ;;
      print rule70 ;;
      valid <- _validate_gomod_config ;;
      set_gomod_config_valid valid ;;
      print EmptyString ;;
      print rule70 ;;
      print "Step 2: Validate Go Source File Dependencies" ;;
      print rule70 ;;
      let go_files := collect_go_files g in
      print ("Scanning " ++ str_of_nat (List.length go_files) ++ " Go files..." ++ nl) ;;
      for_each go_files validate_file ;;
      g' <- get_self ;;
      ret (gomod_config_valid g' && (List.length (violations g') =? 0))
  end.

(** *** [report_violations] *)

(** [by_type.setdefault(v.violation_type, []).append(v)] on a dictionary
    kept as the list of its items in insertion order. *)
Fixpoint group_add (v : ArchitectureViolation)
    (by_type : list (string * list ArchitectureViolation))
    : list (string * list ArchitectureViolation) :=
  match by_type with
  | [] => [(violation_type v, [v])]
  | (k, vs) :: rest =>
      if String.eqb k (violation_type v) then (k, vs ++ [v]) :: rest
      else (k, vs) :: group_add v rest
  end.

Definition group_by_type (vs : list ArchitectureViolation)
    : list (string * list ArchitectureViolation) :=
  fold_left (fun by_type v => group_add v by_type) vs [].

Fixpoint insert_item (x : string * list ArchitectureViolation)
    (l : list (string * list ArchitectureViolation))
    : list (string * list ArchitectureViolation) :=
  match l with
  | [] => [x]
  | y :: l' => if String.ltb (fst x) (fst y) then x :: l else y :: insert_item x l'
  end.

(** [sorted(by_type.items())]: the keys of a dictionary are distinct, so
    the items are ordered by their keys alone. *)
Definition sorted_items (items : list (string * list ArchitectureViolation))
    : list (string * list ArchitectureViolation) :=
  fold_right insert_item [] items.

Definition print_group (item : string * list ArchitectureViolation) : M unit :=
  let '(vtype, vs) := item in
  print ("  [" ++ vtype ++ "] (" ++ str_of_nat (List.length vs) ++ " violations)") ;;
  for_each vs
    (fun v =>
       print ("    " ++ file_path v ++ ":" ++ str_of_nat (line_number v)) ;;
       print ("      → " ++ details v)) ;;
  print EmptyString.

Definition report_violations : M unit :=
  g <- get_self ;;
  print (nl ++ rule70) ;;
  print "FINAL RESULTS" ;;
  print rule70 ;;
  (if gomod_config_valid g then print "✅ go.mod Configuration: VALID"
   else print "❌ go.mod Configuration: INVALID") ;;
  (match violations g with
   | [] => print "✅ Source File Dependencies: VALID"
   | _ :: _ =>
       print ("❌ Source File Dependencies: "
              ++ str_of_nat (List.length (violations g)) ++ " violation(s)")
   end) ;;
  if gomod_config_valid g && (List.length (violations g) =? 0) then
    print (nl ++ "✅ Architecture validation PASSED - All rules satisfied!")
  else
    print (nl ++ "❌ Architecture validation FAILED") ;;
    (match violations g with
     | [] => ret tt
     | _ :: _ =>
         print (nl ++ "Source Dependency Violations ("
                ++ str_of_nat (List.length (violations g)) ++ "):" ++ nl)
     end) ;;
    for_each (sorted_items (group_by_type (violations g))) print_group.

(** *** [main] *)

Definition main (project_root : Path) : M nat :=
  print rule70 ;;
  print "Hexagonal Architecture Guard for Go" ;;
  print rule70 ;;
  print ("Project root: " ++ path_str project_root) ;;
  print EmptyString ;;
  if negb (path_exists fs project_root) then
    print ("ERROR: Project directory not found: " ++ path_str project_root) ;;
    ret 2
  else
    __init__ project_root ;;
    guard <- get_self ;;
    match layers_present guard with
    | [] =>
        print "No architecture layers to validate - exiting" ;;
        ret 2
    | _ :: _ =>
        is_valid <- validate_all ;;
        report_violations ;;
        ret (if is_valid then 0 else 1)
    end.

End WithFileSystem.
End Guard.

(** ** Running the tool *)

Module Run.
Import Text Regex FS Guard.

(** The state before [main] runs: nothing printed, no object yet. *)
Definition start : St :=
  {| self := {| project_root := []; violations := []; layers_present := [];
                gomod_config_valid := false; module_path := EmptyString |};
     stdout := [] |}.

(** The process exit code of a run on the tree [fs] rooted at [root]. *)
Definition exit_code (fs : FileSystem) (root : Path) : nat :=
  fst (main fs root start).

(** The guard object at the end of a run. *)
Definition final_guard (fs : FileSystem) (root : Path) : ArchitectureGuard :=
  self (snd (main fs root start)).

(** What a run prints. *)
Definition output (fs : FileSystem) (root : Path) : list string :=
  stdout (snd (main fs root start)).

(** The guard as [ArchitectureGuard(project_root)] constructs it. *)
Definition new_guard (fs : FileSystem) (root : Path) : ArchitectureGuard :=
  self (snd (__init__ fs root start)).

(** A state that holds the guard [g] and has printed nothing. *)
Definition state_of (g : ArchitectureGuard) : St := {| self := g; stdout := [] |}.

End Run.

(** ** Views of the state

    What each method adds to the violations and to the output, written as
    functions of the file system and of the guard; the lemmas of [Effects]
    below prove that the methods do exactly this. *)

Module Views.
Import Text Regex FS Guard Run.

(** The guard [g] with the violations [vs] appended. *)
Definition add_violations (g : ArchitectureGuard) (vs : list ArchitectureViolation)
    : ArchitectureGuard :=
  {| project_root := project_root g;
     violations := violations g ++ vs;
     layers_present := layers_present g;
     gomod_config_valid := gomod_config_valid g;
     module_path := module_path g |}.

(** The state [st] after appending the violations [vs] and printing [out]. *)
Definition push (st : St) (vs : list ArchitectureViolation) (out : list string) : St :=
  {| self := add_violations (self st) vs; stdout := stdout st ++ out |}.

Definition opt_list {A : Type} (o : option A) : list A :=
  match o with
  | Some a => [a]
  | None => []
  end.

(** The lines a read yields before it ends or fails. *)
Definition lines_read (r : ReadResult) : list string :=
  match r with
  | ReadOk lines => lines
  | ReadError lines _ => lines
  end.

(** The import records [_extract_imports] returns for a file. *)
Definition imports_of (fs : FileSystem) (file : Path) : list (nat * string) :=
  scan_lines (lines_read (open_read fs file)) 1 false.

(** The warning [_extract_imports] prints for a file, if any. *)
Definition read_warning (fs : FileSystem) (file : Path) : list string :=
  match open_read fs file with
  | ReadOk _ => []
  | ReadError _ e => [("Warning: Could not read " ++ path_str file ++ ": " ++ e)%string]
  end.

(** The violations [_validate_no_test_imports] appends for a file. *)
Definition test_violations (fs : FileSystem) (file : Path) : list ArchitectureViolation :=
  if endswith (name file) "_test.go" then []
  else flat_map (fun imp => opt_list (test_import_violation file imp)) (imports_of fs file).

(** The violations the loop of [validate_file] appends for a list of
    imports of a file of [current_layer]. *)
Definition layer_violations (g : ArchitectureGuard) (file : Path) (current_layer : string)
    (imports : list (nat * string)) : list ArchitectureViolation :=
  flat_map
    (fun imp => opt_list (check_import g file current_layer (allowed_deps_of current_layer) imp))
    imports.

(** The layer of a file when [validate_file] goes on to check its imports. *)
Definition checked_layer (g : ArchitectureGuard) (file : Path) : option string :=
  match _get_file_layer g file with
  | Some current_layer =>
      if mem current_layer (layers_present g) then Some current_layer else None
  | None => None
  end.

(** All the violations [validate_file] appends for a file. *)
Definition file_violations (fs : FileSystem) (g : ArchitectureGuard) (file : Path)
    : list ArchitectureViolation :=
  test_violations fs file
  ++ match checked_layer g file with
     | Some current_layer => layer_violations g file current_layer (imports_of fs file)
     | None => []
     end.

(** All the lines [validate_file] prints for a file. *)
Definition file_warnings (fs : FileSystem) (g : ArchitectureGuard) (file : Path) : list string :=
  (if endswith (name file) "_test.go" then [] else read_warning fs file)
  ++ match checked_layer g file with
     | Some _ => read_warning fs file
     | None => []
     end.



(** The order of [sorted] on strings: [a] is not after [b]. *)
Definition str_le (a b : string) : Prop := String.ltb b a = false.

(** Whether a violation is of kind [k]. *)
Definition kind_is (k : string) (v : ArchitectureViolation) : bool :=
  String.eqb (violation_type v) k.

(** The groups of the report, in the order [report_violations] prints
    them. *)
Definition report_groups (vs : list ArchitectureViolation)
    : list (string * list ArchitectureViolation) :=
  sorted_items (group_by_type vs).

(** What holds of the dictionary once the violations [vs] went in. *)
Definition grouped (vs : list ArchitectureViolation)
    (d : list (string * list ArchitectureViolation)) : Prop :=
  NoDup (map fst d)
  /\ (forall k, In k (map fst d) <-> exists v, In v vs /\ violation_type v = k)
  /\ (forall k g, In (k, g) d -> g = filter (kind_is k) vs).

(** The lines [print_group] prints for one group of the report. *)
Definition render_group (item : string * list ArchitectureViolation) : list string :=
  [("  [" ++ fst item ++ "] (" ++ str_of_nat (List.length (snd item)) ++ " violations)")%string]
  ++ flat_map
       (fun v =>
          [("    " ++ file_path v ++ ":" ++ str_of_nat (line_number v))%string;
           ("      → " ++ details v)%string])
       (snd item)
  ++ [EmptyString].

(** Every character of [s] is in the class [p]. *)
Fixpoint all_chars (p : ascii -> bool) (s : string) : bool :=
  match s with
  | EmptyString => true
  | String c s' => p c && all_chars p s'
  end.

(** [s] does not begin with a character of the class [p]. *)
Definition stops (p : ascii -> bool) (s : string) : Prop :=
  match s with
  | EmptyString => True
  | String c _ => p c = false
  end.

(** Some whitespace: at least one character, all of them white. *)
Definition blank (ws : string) : Prop := ws <> EmptyString /\ all_chars is_space ws = true.

(** A local alias: word characters, at least one. *)
Definition word (a : string) : Prop := a <> EmptyString /\ all_chars is_word a = true.

(** The text of an import path between its quotes: at least one character,
    none of them a double quote. *)
Definition quotable (path : string) : Prop :=
  path <> EmptyString /\ all_chars not_dquote path = true.

(** An optional alias with the whitespace after it. *)
Definition alias_ok (alias : option (string * string)) : Prop :=
  match alias with
  | Some (a, ws) => word a /\ blank ws
  | None => True
  end.

(** The text [alias Q path Q], the alias being optional and [Q] the double
    quote. *)
Definition import_spec (alias : option (string * string)) (path : string) : string :=
  match alias with
  | Some (a, ws) => a ++ ws ++ dq ++ path ++ dq
  | None => dq ++ path ++ dq
  end.

(** A single-line import, between the whitespace [lead] and [trail]. *)
Definition single_line_import (lead ws : string) (alias : option (string * string))
    (path trail : string) : string :=
  lead ++ "import" ++ ws ++ import_spec alias path ++ trail.

(** A line of an import block, between the whitespace [lead] and [trail]. *)
Definition block_import (lead : string) (alias : option (string * string))
    (path trail : string) : string :=
  lead ++ import_spec alias path ++ trail.

(** The value of the variable [in_import_block] of [_extract_imports] once
    the lines [lines] were scanned, [b] being its value before them. *)
Fixpoint block_state (lines : list string) (b : bool) : bool :=
  match lines with
  | [] => b
  | line :: rest =>
      let stripped := strip line in
      if startswith stripped "import (" then block_state rest true
      else if b then
        if String.eqb stripped ")" then block_state rest false
        else block_state rest true
      else block_state rest false
  end.

(** What both patterns have after their beginning: the optional alias, the
    quoted path, optional whitespace and the end. *)
Definition spec_re : regex :=
  seq_of [ROpt (RSeq (RPlus is_word) (RPlus is_space));
          rquote; RGroup (RPlus not_dquote); rquote; RStar is_space; REnd].

(** The class of the characters of an alias and of whitespace. *)
Definition word_or_space (c : ascii) : bool := is_word c || is_space c.

(** The class of every character but [d]. *)
Definition other_than (d : ascii) (c : ascii) : bool := negb (Ascii.eqb c d).

(** The go.mod of a layer. *)
Definition gomod_path (g : ArchitectureGuard) (layer : string) : Path :=
  child (child (project_root g) layer) "go.mod".

(** The value of the variable [layer_deps] of [_validate_gomod_config] when
    the check of a layer ends: nothing when the go.mod is missing, nothing
    when it cannot be read, and otherwise the layers its require
    directives name. *)
Definition declared_deps (fs : FileSystem) (g : ArchitectureGuard) (layer : string)
    : list string :=
  if negb (path_exists fs (gomod_path g layer)) then []
  else match open_read fs (gomod_path g layer) with
       | ReadOk lines => gomod_layer_deps g (String.concat EmptyString lines)
       | ReadError _ _ => []
       end.

(** [forbidden = declared - allowed] for a layer. *)
Definition forbidden_deps (fs : FileSystem) (g : ArchitectureGuard) (layer : string)
    : list string :=
  set_diff (declared_deps fs g layer) (allowed_deps_of layer).

(** Whether the check of one layer leaves the verdict as it is. *)
Definition gomod_layer_ok (fs : FileSystem) (g : ArchitectureGuard) (layer : string) : bool :=
  if negb (path_exists fs (gomod_path g layer)) then true
  else match open_read fs (gomod_path g layer) with
       | ReadOk lines =>
           match set_diff (gomod_layer_deps g (String.concat EmptyString lines))
                          (allowed_deps_of layer) with
           | [] => true
           | _ :: _ => false
           end
       | ReadError _ _ => false
       end.

(** The guard [g] with its go.mod verdict set to [b]. *)
Definition with_gomod (g : ArchitectureGuard) (b : bool) : ArchitectureGuard :=
  {| project_root := project_root g;
     violations := violations g;
     layers_present := layers_present g;
     gomod_config_valid := b;
     module_path := module_path g |}.

(** The state of [main] once it has printed its banner. *)
Definition banner (root : Path) : St :=
  snd ((print rule70 ;;
        print "Hexagonal Architecture Guard for Go" ;;
        print rule70 ;;
        print ("Project root: " ++ path_str root) ;;
        print EmptyString) start).

(** The state of [main] once it has constructed the guard. *)
Definition ready (fs : FileSystem) (root : Path) : St :=
  snd (__init__ fs root (banner root)).

(** A computation that leaves the guard object as it is: it only prints. *)
Definition keeps_self {A : Type} (c : M A) : Prop :=
  forall st, self (snd (c st)) = self st.

(** A computation whose result and whose effect on the guard object do not
    depend on what was printed before. *)
Definition blind {A : Type} (c : M A) : Prop :=
  forall st1 st2, self st1 = self st2 ->
    fst (c st1) = fst (c st2) /\ self (snd (c st1)) = self (snd (c st2)).

(** The kinds of violation the layer rules give. *)
Definition layer_kinds : list string :=
  ["FORBIDDEN_BOOTSTRAP_DEPENDENCY"; "FORBIDDEN_LATERAL_DEPENDENCY";
   "PRESENTATION_IMPORTS_DOMAIN"; "ILLEGAL_LAYER_DEPENDENCY"].


(** Whether the directory of a layer is present below the project root. *)
Definition layer_dir_present (fs : FileSystem) (root : Path) (layer : string) : bool :=
  path_exists fs (child root layer) && is_dir fs (child root layer).

(** The layer names in the order of [sorted(self.LAYER_RULES.keys())]. *)
Definition sorted_layers : list string :=
  ["application"; "bootstrap"; "domain"; "infrastructure"; "presentation"].


(** A module line of a go.mod: the keyword, whitespace, the module path
    [name], then whitespace [sp] and the end of the line [e]. *)
Definition module_line (lead ws name sp e : string) : string :=
  lead ++ "module" ++ ws ++ name ++ sp ++ e.


(** The last line of a report that passes, and the line that announces a
    failure. *)
Definition passed_line : string :=
  nl ++ "✅ Architecture validation PASSED - All rules satisfied!".

Definition failed_line : string := nl ++ "❌ Architecture validation FAILED".

End Views.

(** ** Sample trees

    Small project trees on which the statements below are exercised. *)

Module Samples.
Import Text Regex FS Guard Run Views.

Definition path_eqb (a b : Path) : bool :=
  if list_eq_dec string_dec a b then true else false.

Definition lookup_file (files : list (Path * ReadResult)) (p : Path) : option ReadResult :=
  match find (fun kv => path_eqb (fst kv) p) files with
  | Some (_, r) => Some r
  | None => None
  end.

(** The Go files below [dir], in the order [files] lists them. *)
Definition go_files_below (files : list (Path * ReadResult)) (dir : Path) : list Path :=
  flat_map
    (fun kv =>
       match relative_to (fst kv) dir with
       | Some rel => if endswith (name (fst kv)) ".go" then [rel] else []
       | None => []
       end)
    files.

(** A tree given by its directories and its files; the order of [files] is
    the order in which a directory walk meets them. *)
Definition tree (dirs : list Path) (files : list (Path * ReadResult)) : FileSystem :=
  {| path_exists := fun p =>
       existsb (path_eqb p) dirs
       || match lookup_file files p with Some _ => true | None => false end;
     is_dir := fun p => existsb (path_eqb p) dirs;
     open_read := fun p =>
       match lookup_file files p with
       | Some r => r
       | None => ReadError [] "[Errno 2] No such file or directory"
       end;
     rglob_go := go_files_below files;
     set_rank := String.length |}.

Definition root : Path := ["/"; "proj"].

Definition under (parts : list string) : Path := root ++ parts.

(** A line of text with its newline. *)
Definition ln (s : string) : string := s ++ nl.

(** A line [import Q path Q] with its newline, [Q] the double quote. *)
Definition import_line (path : string) : string :=
  "import " ++ dq ++ path ++ dq ++ nl.

(** A line [alias Q path Q] of an import block, with its newline. *)
Definition block_line (path : string) : string :=
  String (ascii_of_nat 9) (dq ++ path ++ dq ++ nl).

Definition root_gomod : Path * ReadResult :=
  (under ["go.mod"], ReadOk [ln "module example.com/app"; nl; ln "go 1.23"]).

Definition handler_go : Path * ReadResult :=
  (under ["presentation"; "handler.go"],
   ReadOk [ln "package handler"; nl;
           ln "import (";
           block_line "fmt";
           block_line "example.com/app/application/usecase";
           block_line "example.com/app/domain/entity";
           block_line "example.com/app/presentation/view";
           ln ")"]).

Definition db_go : Path * ReadResult :=
  (under ["infrastructure"; "db.go"],
   ReadOk [ln "package db";
           import_line "example.com/app/bootstrap/wire";
           import_line "example.com/app/domain/entity"]).

Definition service_go : Path * ReadResult :=
  (under ["application"; "service.go"],
   ReadOk [ln "package service";
           import_line "testing";
           import_line "testing/quick";
           import_line "github.com/stretchr/testify/assert";
           import_line "example.com/app/domain/entity"]).

Definition service_test_go : Path * ReadResult :=
  (under ["application"; "service_test.go"],
   ReadOk [ln "package service"; import_line "testing"]).

Definition tool_go : Path * ReadResult :=
  (under ["tools"; "gen.go"],
   ReadOk [ln "package main"; import_line "testing"]).

Definition all_layer_dirs : list Path :=
  [root; under ["domain"]; under ["application"]; under ["infrastructure"];
   under ["presentation"]; under ["bootstrap"]].

(** A project with the five layers and no per-layer go.mod. *)
Definition project : FileSystem :=
  tree all_layer_dirs
       [root_gomod; handler_go; db_go; service_go; service_test_go; tool_go].

(** The guard constructed on [project]. *)
Definition project_guard : ArchitectureGuard := new_guard project root.

(** A project root without any layer directory. *)
Definition no_layers : FileSystem := tree [root] [root_gomod].

(** Two files of one layer that each import the testing package. *)
Definition a_go : Path * ReadResult :=
  (under ["domain"; "a.go"], ReadOk [import_line "testing"]).
Definition b_go : Path * ReadResult :=
  (under ["domain"; "b.go"], ReadOk [import_line "testing"]).

(** The same tree, walked in two orders. *)
Definition walk_ab : FileSystem := tree [root; under ["domain"]] [root_gomod; a_go; b_go].
Definition walk_ba : FileSystem := tree [root; under ["domain"]] [root_gomod; b_go; a_go].

(** A file whose first line is an import and whose second line, a comment
    longer than the buffer of the reader, holds a byte that is not UTF-8:
    the first line is read, then the decoder raises. *)
Definition decode_error : string :=
  "'utf-8' codec can't decode byte 0xff in position 828: invalid start byte".

Definition broken_go : Path * ReadResult :=
  (under ["domain"; "broken.go"], ReadError [import_line "testing"] decode_error).

Definition broken_tree : FileSystem :=
  tree [root; under ["domain"]] [root_gomod; broken_go].

(** A layer whose go.mod exists and cannot be read. *)
Definition unreadable_gomod : FileSystem :=
  tree [root; under ["domain"]]
       [root_gomod;
        (under ["domain"; "go.mod"], ReadError [] "[Errno 13] Permission denied")].

(** A layer without go.mod, and a layer whose go.mod declares too much. *)
Definition domain_gomod : Path * ReadResult :=
  (under ["domain"; "go.mod"],
   ReadOk [ln "module example.com/app/domain";
           ln "require example.com/app/application v0.0.0"]).

Definition missing_gomod : FileSystem :=
  tree [root; under ["domain"]; under ["application"]] [root_gomod].

Definition overbroad_gomod : FileSystem :=
  tree [root; under ["domain"]] [root_gomod; domain_gomod].

(** Import declarations that Go accepts and the patterns do not. *)
Definition tab : string := String (ascii_of_nat 9) EmptyString.

(** A dot import. *)
Definition dot_import : string := ln ("import . " ++ dq ++ "fmt" ++ dq).

(** An import followed by a comment. *)
Definition commented_import : string :=
  ln ("import " ++ dq ++ "fmt" ++ dq ++ " // formatting").

(** An import followed by a semicolon. *)
Definition semicolon_import : string := ln ("import " ++ dq ++ "fmt" ++ dq ++ ";").

(** A block on one line. *)
Definition one_line_block : string := ln ("import (" ++ dq ++ "fmt" ++ dq ++ ")").

(** A block whose opening parenthesis follows the keyword at once. *)
Definition tight_block : list string :=
  [ln "import("; ln (tab ++ dq ++ "fmt" ++ dq); ln ")"].

(** A block whose line carries a comment. *)
Definition commented_block : list string :=
  [ln "import ("; ln (tab ++ dq ++ "fmt" ++ dq ++ " // formatting"); ln ")"].

(** A presentation file that imports the domain layer with a dot import. *)
Definition dot_handler_go : Path * ReadResult :=
  (under ["presentation"; "handler.go"],
   ReadOk [ln "package handler";
           ln ("import . " ++ dq ++ "example.com/app/domain/entity" ++ dq)]).

Definition dot_tree : FileSystem :=
  tree [root; under ["presentation"]; under ["domain"]] [root_gomod; dot_handler_go].


(** A tree with the presentation and infrastructure layers only; the
    presentation file imports infrastructure, the absent bootstrap layer
    and a third-party package. *)
Definition view_go : Path * ReadResult :=
  (under ["presentation"; "view.go"],
   ReadOk [ln "package view";
           import_line "example.com/app/infrastructure/db";
           import_line "example.com/app/bootstrap/wire";
           import_line "github.com/spf13/cobra"]).

Definition lateral_tree : FileSystem :=
  tree [root; under ["presentation"]; under ["infrastructure"]] [root_gomod; view_go].


(** The project [project], checked out below a directory named vendor. *)
Definition vendored_root : Path := ["/"; "src"; "vendor"; "proj"].

Definition vendored_project : FileSystem :=
  tree [vendored_root; vendored_root ++ ["presentation"]; vendored_root ++ ["domain"]]
       [(vendored_root ++ ["go.mod"], snd root_gomod);
        (vendored_root ++ ["presentation"; "handler.go"], snd handler_go)].


(** The guard of [lateral_tree], written out. *)
Definition lateral_guard : ArchitectureGuard :=
  {| project_root := root;
     violations := [];
     layers_present := ["infrastructure"; "presentation"];
     gomod_config_valid := false;
     module_path := "example.com/app" |}.

(** A guard whose module path is example.com/app, with every layer
    present. *)
Definition app_guard : ArchitectureGuard :=
  {| project_root := root;
     violations := [];
     layers_present := sorted_layers;
     gomod_config_valid := false;
     module_path := "example.com/app" |}.


(** Two recorded violations of different kinds. *)
Definition testing_in_service : ArchitectureViolation :=
  {| file_path := "/proj/application/service.go";
     line_number := 2;
     violation_type := "TEST_CODE_IN_PRODUCTION";
     details := "Production code cannot import testing package: testing" |}.

Definition bootstrap_in_db : ArchitectureViolation :=
  {| file_path := "/proj/infrastructure/db.go";
     line_number := 2;
     violation_type := "FORBIDDEN_BOOTSTRAP_DEPENDENCY";
     details := "Layer 'infrastructure' cannot depend on 'bootstrap' (import: example.com/app/bootstrap/wire)" |}.

Definition two_violations : list ArchitectureViolation :=
  [testing_in_service; bootstrap_in_db].


(** A domain layer whose go.mod requires a module of the domain layer
    itself. *)
Definition self_gomod_lines : list string :=
  [ln "module example.com/app/domain"; nl;
   ln "require example.com/app/domain/util v0.1.0"].

Definition self_gomod : FileSystem :=
  tree [root; under ["domain"]]
       [root_gomod; (under ["domain"; "go.mod"], ReadOk self_gomod_lines)].

(** The guard of a tree whose only layer is domain, written out. *)
Definition domain_guard : ArchitectureGuard :=
  {| project_root := root;
     violations := [];
     layers_present := ["domain"];
     gomod_config_valid := false;
     module_path := "example.com/app" |}.




End Samples.

(** * Properties *)

(** ** How the methods act on the state *)

Module Effects.
Import Text Regex FS Guard Run Views.

Lemma add_violations_nil g : add_violations g [] = g.
Proof. destruct g; unfold add_violations; simpl; now rewrite app_nil_r. Qed.

Lemma add_violations_app g vs ws :
  add_violations (add_violations g vs) ws = add_violations g (vs ++ ws).
Proof. unfold add_violations; simpl; now rewrite app_assoc. Qed.

Lemma push_nil st : push st [] [] = st.
Proof. destruct st; unfold push; simpl. now rewrite add_violations_nil, app_nil_r. Qed.

Lemma push_push st vs ws o1 o2 :
  push (push st vs o1) ws o2 = push st (vs ++ ws) (o1 ++ o2).
Proof. unfold push; simpl. now rewrite add_violations_app, app_assoc. Qed.

Lemma record_push o st : record o st = (tt, push st (opt_list o) []).
Proof.
  destruct o; simpl.
  - unfold append_violation, modify_self, push; simpl. now rewrite app_nil_r.
  - unfold ret. now rewrite push_nil.
Qed.

Lemma print_push line st : print line st = (tt, push st [] [line]).
Proof. unfold print, push. now rewrite add_violations_nil. Qed.

Lemma for_each_record {A : Type} (f : A -> option ArchitectureViolation) (l : list A) st :
  for_each l (fun x => record (f x)) st
  = (tt, push st (flat_map (fun x => opt_list (f x)) l) []).
Proof.
  revert st; induction l as [|x l IH]; intros st; simpl.
  - unfold ret. now rewrite push_nil.
  - unfold bind. rewrite record_push, IH, push_push. reflexivity.
Qed.

Lemma extract_imports_push fs file st :
  _extract_imports fs file st = (imports_of fs file, push st [] (read_warning fs file)).
Proof.
  unfold _extract_imports, imports_of, read_warning.
  destruct (open_read fs file) as [lines|lines e]; simpl.
  - unfold ret. now rewrite push_nil.
  - unfold bind. rewrite print_push. reflexivity.
Qed.

Lemma validate_no_test_imports_push fs file st :
  _validate_no_test_imports fs file st
  = (tt, push st (test_violations fs file)
           (if endswith (name file) "_test.go" then [] else read_warning fs file)).
Proof.
  unfold _validate_no_test_imports, test_violations.
  destruct (endswith (name file) "_test.go").
  - unfold ret. now rewrite push_nil.
  - unfold bind. rewrite extract_imports_push, for_each_record, push_push.
    now rewrite app_nil_r.
Qed.

Lemma get_layer_from_import_add g vs p :
  _get_layer_from_import (add_violations g vs) p = _get_layer_from_import g p.
Proof. reflexivity. Qed.

Lemma check_import_add g vs file cur allowed imp :
  check_import (add_violations g vs) file cur allowed imp = check_import g file cur allowed imp.
Proof. reflexivity. Qed.

Lemma checked_layer_add g vs file :
  checked_layer (add_violations g vs) file = checked_layer g file.
Proof. reflexivity. Qed.

Lemma file_violations_add fs g vs file :
  file_violations fs (add_violations g vs) file = file_violations fs g file.
Proof. reflexivity. Qed.

Lemma file_warnings_add fs g vs file :
  file_warnings fs (add_violations g vs) file = file_warnings fs g file.
Proof. reflexivity. Qed.

(** [validate_file] appends the violations of the file and prints its
    warnings; nothing else changes. *)
Lemma validate_file_push fs file st :
  validate_file fs file st
  = (tt, push st (file_violations fs (self st) file) (file_warnings fs (self st) file)).
Proof.
  unfold validate_file, bind at 1.
  rewrite validate_no_test_imports_push.
  unfold bind, get_self, file_violations, file_warnings, checked_layer.
  cbn [self push].
  change (_get_file_layer (add_violations (self st) (test_violations fs file)) file)
    with (_get_file_layer (self st) file).
  destruct (_get_file_layer (self st) file) as [cur|].
  - cbn [layers_present add_violations].
    destruct (mem cur (layers_present (self st))); cbn [negb].
    + rewrite extract_imports_push, for_each_record, !push_push.
      rewrite !app_nil_r, app_nil_l. reflexivity.
    + unfold ret. now rewrite !app_nil_r.
  - unfold ret. now rewrite !app_nil_r.
Qed.

(** The loop of [validate_all] over the files appends the violations of
    each file in turn. *)
Lemma validate_files_push fs files st :
  for_each files (validate_file fs) st
  = (tt, push st (flat_map (file_violations fs (self st)) files)
           (flat_map (file_warnings fs (self st)) files)).
Proof.
  revert st; induction files as [|f files IH]; intros st; simpl.
  - unfold ret. now rewrite push_nil.
  - unfold bind. rewrite validate_file_push, IH, push_push. cbn [self push].
    reflexivity.
Qed.

(** *** Computations that only print *)

Lemma keeps_ret {A : Type} (a : A) : keeps_self (ret a).
Proof. intros st. reflexivity. Qed.

Lemma keeps_print line : keeps_self (print line).
Proof. intros st. reflexivity. Qed.

Lemma keeps_get_self : keeps_self get_self.
Proof. intros st. reflexivity. Qed.

Lemma keeps_bind {A B : Type} (c : M A) (k : A -> M B) :
  keeps_self c -> (forall a, keeps_self (k a)) -> keeps_self (bind c k).
Proof.
  intros Hc Hk st. unfold bind. specialize (Hc st).
  destruct (c st) as [a st']. simpl in Hc. rewrite Hk. exact Hc.
Qed.

Lemma keeps_for_each {A : Type} (l : list A) (body : A -> M unit) :
  (forall x, keeps_self (body x)) -> keeps_self (for_each l body).
Proof.
  intros Hb. induction l as [|x l IH]; simpl.
  - apply keeps_ret.
  - apply keeps_bind; [apply Hb | intros _; exact IH].
Qed.

Lemma keeps_fold_each {A B : Type} (l : list A) (body : A -> B -> M B) :
  (forall x acc, keeps_self (body x acc)) -> forall acc, keeps_self (fold_each l acc body).
Proof.
  intros Hb. induction l as [|x l IH]; intros acc; simpl.
  - apply keeps_ret.
  - apply keeps_bind; [apply Hb | intros acc'; apply IH].
Qed.

Ltac keeps :=
  repeat first
    [ apply keeps_ret | apply keeps_print | apply keeps_get_self
    | apply keeps_bind; [|intros]
    | apply keeps_for_each; intros
    | apply keeps_fold_each; intros
    | match goal with
      | |- keeps_self (if ?b then _ else _) => destruct b
      | |- keeps_self (match ?x with _ => _ end) => destruct x
      | |- keeps_self (let '(_, _) := ?x in _) => destruct x
      end ].

Lemma keeps_gomod_check_layer fs g layer valid : keeps_self (gomod_check_layer fs g layer valid).
Proof. unfold gomod_check_layer. keeps. Qed.

Lemma keeps_validate_gomod_config fs : keeps_self (_validate_gomod_config fs).
Proof.
  unfold _validate_gomod_config. keeps. apply keeps_gomod_check_layer.
Qed.

Lemma keeps_print_group item : keeps_self (print_group item).
Proof. unfold print_group. keeps. Qed.

Lemma keeps_report_violations : keeps_self report_violations.
Proof. unfold report_violations. keeps. apply keeps_print_group. Qed.

Lemma keeps_detect_layers fs : keeps_self (_detect_layers fs).
Proof. unfold _detect_layers. keeps. Qed.

Lemma keeps_get_module_path fs : keeps_self (_get_module_path fs).
Proof. unfold _get_module_path. keeps. Qed.

Lemma keeps_extract_imports fs file : keeps_self (_extract_imports fs file).
Proof. unfold _extract_imports. keeps. Qed.

(** *** What was printed never steers the run *)

Lemma blind_ret {A : Type} (a : A) : blind (ret a).
Proof. intros st1 st2 H. auto. Qed.

Lemma blind_print line : blind (print line).
Proof. intros st1 st2 H. auto. Qed.

Lemma blind_get_self : blind get_self.
Proof. intros st1 st2 H. auto. Qed.

Lemma blind_modify_self f : blind (modify_self f).
Proof. intros st1 st2 H. simpl. rewrite H. auto. Qed.

Lemma blind_bind {A B : Type} (c : M A) (k : A -> M B) :
  blind c -> (forall a, blind (k a)) -> blind (bind c k).
Proof.
  intros Hc Hk st1 st2 H. unfold bind. specialize (Hc st1 st2 H).
  destruct (c st1) as [a1 s1], (c st2) as [a2 s2]. simpl in Hc.
  destruct Hc as [-> Hs]. now apply Hk.
Qed.

Lemma blind_for_each {A : Type} (l : list A) (body : A -> M unit) :
  (forall x, blind (body x)) -> blind (for_each l body).
Proof.
  intros Hb. induction l as [|x l IH]; simpl.
  - apply blind_ret.
  - apply blind_bind; [apply Hb | intros _; exact IH].
Qed.

Lemma blind_fold_each {A B : Type} (l : list A) (body : A -> B -> M B) :
  (forall x acc, blind (body x acc)) -> forall acc, blind (fold_each l acc body).
Proof.
  intros Hb. induction l as [|x l IH]; intros acc; simpl.
  - apply blind_ret.
  - apply blind_bind; [apply Hb | intros acc'; apply IH].
Qed.

Ltac blind_tac :=
  repeat first
    [ apply blind_ret | apply blind_print | apply blind_get_self | apply blind_modify_self
    | apply blind_bind; [|intros]
    | apply blind_for_each; intros
    | apply blind_fold_each; intros
    | match goal with
      | |- blind (if ?b then _ else _) => destruct b
      | |- blind (match ?x with _ => _ end) => destruct x
      end ].

Lemma blind_init fs root : blind (__init__ fs root).
Proof.
  unfold __init__, set_layers_present, set_gomod_config_valid, set_module_path,
    _detect_layers, _get_module_path.
  blind_tac.
Qed.

End Effects.

(** ** Facts about the import records and the rule cascade *)

Module Rules.
Import Text Regex FS Guard Run Views Effects.

(** Line numbers of the records only grow. *)
Lemma scan_lines_ge lines : forall k b n p,
  In (n, p) (scan_lines lines k b) -> k <= n.
Proof.
  induction lines as [|line rest IH]; intros k b n p; simpl; [tauto|].
  destruct (startswith (strip line) "import (").
  - intros H. apply IH in H. lia.
  - destruct b.
    + destruct (String.eqb (strip line) ")").
      * intros H. apply IH in H. lia.
      * destruct (match_group1 block_line_re (strip line)); simpl.
        -- intros [H|H]; [inversion H; lia | apply IH in H; lia].
        -- intros H. apply IH in H. lia.
    + destruct (match_group1 import_line_re (strip line)); simpl.
      * intros [H|H]; [inversion H; lia | apply IH in H; lia].
      * intros H. apply IH in H. lia.
Qed.

(** A line gives at most one record. *)
Lemma scan_lines_unique lines : forall k b n p q,
  In (n, p) (scan_lines lines k b) -> In (n, q) (scan_lines lines k b) -> p = q.
Proof.
  induction lines as [|line rest IH]; intros k b n p q; simpl; [tauto|].
  destruct (startswith (strip line) "import ("); [apply IH|].
  destruct b.
  - destruct (String.eqb (strip line) ")"); [apply IH|].
    destruct (match_group1 block_line_re (strip line)); [|apply IH].
    simpl. intros [H1|H1] [H2|H2].
    + congruence.
    + inversion H1; subst. apply scan_lines_ge in H2. lia.
    + inversion H2; subst. apply scan_lines_ge in H1. lia.
    + eapply IH; eauto.
  - destruct (match_group1 import_line_re (strip line)); [|apply IH].
    simpl. intros [H1|H1] [H2|H2].
    + congruence.
    + inversion H1; subst. apply scan_lines_ge in H2. lia.
    + inversion H2; subst. apply scan_lines_ge in H1. lia.
    + eapply IH; eauto.
Qed.

Lemma imports_unique fs file n p q :
  In (n, p) (imports_of fs file) -> In (n, q) (imports_of fs file) -> p = q.
Proof. apply scan_lines_unique. Qed.

Lemma in_flat_map_opt {A B : Type} (f : A -> option B) (l : list A) (b : B) :
  In b (flat_map (fun x => opt_list (f x)) l) <-> exists x, In x l /\ f x = Some b.
Proof.
  rewrite in_flat_map. split; intros [x [Hx H]]; exists x; split; auto.
  - destruct (f x); simpl in H; [destruct H as [H|[]]; now subst | contradiction].
  - rewrite H. now left.
Qed.

(** What a violation of the test-import check looks like. *)
Lemma test_import_violation_inv file n p v :
  test_import_violation file (n, p) = Some v ->
  p = "testing" /\ line_number v = n /\ file_path v = path_str file
  /\ violation_type v = "TEST_CODE_IN_PRODUCTION".
Proof.
  unfold test_import_violation.
  destruct (String.eqb p "testing") eqn:E; [|discriminate].
  apply String.eqb_eq in E. intros H; inversion H; subst; simpl. auto.
Qed.

(** What a violation of the layer rules looks like. *)
Lemma check_import_inv g file cur allowed n p v :
  check_import g file cur allowed (n, p) = Some v ->
  line_number v = n /\ file_path v = path_str file
  /\ In (violation_type v) layer_kinds
  /\ exists dep, _get_layer_from_import g p = Some dep
                 /\ mem dep (layers_present g) = true
                 /\ String.eqb dep cur = false.
Proof.
  unfold check_import, layer_kinds.
  destruct (_get_layer_from_import g p) as [dep|]; [|discriminate].
  destruct (mem dep (layers_present g)) eqn:Hm; cbn [negb]; [|discriminate].
  destruct (String.eqb dep cur) eqn:Hc; [discriminate|].
  repeat match goal with
         | |- context [if ?b then _ else _] => destruct b
         end;
    intros H; inversion H; subst; cbn [line_number file_path violation_type];
    (repeat split; [simpl; tauto | exists dep; auto]).
Qed.

Ltac prefix_step E m :=
  destruct m as [|?c m];
  [ vm_compute; reflexivity
  | simpl in E;
    match type of E with
    | (if ?d then _ else _) = true => destruct d; [subst | discriminate E]
    | false = true => discriminate E
    end ].

(** The path of the built-in testing package never names a layer, whatever
    the module path is. *)
Lemma testing_not_layer g : _get_layer_from_import g "testing" = None.
Proof.
  unfold _get_layer_from_import, startswith.
  destruct g as [root vs lp valid m]; cbn [module_path].
  destruct (String.prefix m "testing") eqn:E; [|reflexivity].
  cbn [negb].
  do 7 (prefix_step E m).
  destruct m; [vm_compute; reflexivity | simpl in E; discriminate E].
Qed.

Lemma layer_import_not_testing g p dep :
  _get_layer_from_import g p = Some dep -> p <> "testing".
Proof. intros H ->. rewrite testing_not_layer in H. discriminate. Qed.

(** Where the violations of a file come from. *)
Lemma file_violations_inv fs g file w :
  In w (file_violations fs g file) ->
  (endswith (name file) "_test.go" = false
   /\ exists imp, In imp (imports_of fs file) /\ test_import_violation file imp = Some w)
  \/ (exists cur imp, checked_layer g file = Some cur /\ In imp (imports_of fs file)
        /\ check_import g file cur (allowed_deps_of cur) imp = Some w).
Proof.
  unfold file_violations, test_violations, layer_violations.
  rewrite in_app_iff. intros [H|H].
  - left. destruct (endswith (name file) "_test.go"); [contradiction|].
    split; [reflexivity|]. now apply in_flat_map_opt.
  - right. destruct (checked_layer g file) as [cur|]; [|contradiction].
    apply in_flat_map_opt in H. destruct H as [imp [Hi Hc]]. eauto.
Qed.

Lemma checked_layer_some g file cur :
  _get_file_layer g file = Some cur -> mem cur (layers_present g) = true ->
  checked_layer g file = Some cur.
Proof. unfold checked_layer. intros -> ->. reflexivity. Qed.

Lemma checked_layer_inv g file cur :
  checked_layer g file = Some cur -> _get_file_layer g file = Some cur.
Proof.
  unfold checked_layer. destruct (_get_file_layer g file) as [c|]; [|discriminate].
  destruct (mem c (layers_present g)); congruence.
Qed.

(** A violation of the layer rules is in the violations of the file. *)
Lemma layer_violation_recorded fs g file cur imp v :
  checked_layer g file = Some cur ->
  In imp (imports_of fs file) ->
  check_import g file cur (allowed_deps_of cur) imp = Some v ->
  In v (file_violations fs g file).
Proof.
  intros Hc Hi Hv. unfold file_violations. rewrite Hc.
  apply in_or_app. right. apply in_flat_map_opt. eauto.
Qed.

(** The violations of a file that carry the line number of a record which
    names a layer all come from the rule cascade applied to that record. *)
Lemma violations_at_layer_import fs g file cur n p dep w :
  checked_layer g file = Some cur ->
  In (n, p) (imports_of fs file) ->
  _get_layer_from_import g p = Some dep ->
  In w (file_violations fs g file) -> line_number w = n ->
  check_import g file cur (allowed_deps_of cur) (n, p) = Some w.
Proof.
  intros Hc Hi Hd Hw Hl.
  apply file_violations_inv in Hw.
  destruct Hw as [[_ [[n' p'] [Hi' Ht]]] | [cur' [[n' p'] [Hc' [Hi' Hv]]]]].
  - apply test_import_violation_inv in Ht. destruct Ht as [Hp [Hn _]].
    assert (E : n' = n) by congruence. rewrite E in Hi'.
    pose proof (imports_unique _ _ _ _ _ Hi' Hi) as Ep. rewrite Ep in Hp.
    exfalso. eapply layer_import_not_testing; eauto.
  - assert (Ec : cur' = cur) by congruence. rewrite Ec in Hv.
    pose proof (check_import_inv _ _ _ _ _ _ _ Hv) as [Hn _].
    assert (E : n' = n) by congruence. rewrite E in Hi', Hv.
    pose proof (imports_unique _ _ _ _ _ Hi' Hi) as Ep. now rewrite Ep in Hv.
Qed.

End Rules.

(** ** The layer rules *)

Module LayerRules.
Import Text Regex FS Guard Run Views Effects Rules.

Lemma scan_lines_nodup lines : forall k b, NoDup (map fst (scan_lines lines k b)).
Proof.
  induction lines as [|line rest IH]; intros k b; simpl; [constructor|].
  assert (Hfresh : forall b', ~ In k (map fst (scan_lines rest (S k) b'))).
  { intros b' Hin. apply in_map_iff in Hin. destruct Hin as [[n p] [E Hin]].
    simpl in E. subst n. apply scan_lines_ge in Hin. lia. }
  destruct (startswith (strip line) "import ("); [apply IH|].
  destruct b.
  - destruct (String.eqb (strip line) ")"); [apply IH|].
    destruct (match_group1 block_line_re (strip line)); [|apply IH].
    simpl. constructor; [apply Hfresh | apply IH].
  - destruct (match_group1 import_line_re (strip line)); [|apply IH].
    simpl. constructor; [apply Hfresh | apply IH].
Qed.

(** Among the violations a loop body gives for the records of a file,
    those that carry the line number of one record are the ones given for
    that record. *)
Lemma filter_line_flat_map (f : nat * string -> option ArchitectureViolation)
    (imports : list (nat * string)) (n : nat) (p : string) :
  (forall m q v, f (m, q) = Some v -> line_number v = m) ->
  NoDup (map fst imports) -> In (n, p) imports ->
  filter (fun w => line_number w =? n) (flat_map (fun imp => opt_list (f imp)) imports)
  = opt_list (f (n, p)).
Proof.
  intros Hf. induction imports as [|[m q] imports IH]; simpl; [tauto|].
  intros Hnd Hin. inversion Hnd as [|x l Hnot Hnd']; subst.
  rewrite filter_app.
  assert (Hrest : forall l', ~ In n (map fst l') ->
            filter (fun w => line_number w =? n) (flat_map (fun imp => opt_list (f imp)) l') = []).
  { induction l' as [|[m' q'] l' IHl]; simpl; [reflexivity|].
    intros Hn. rewrite filter_app, IHl by tauto. rewrite app_nil_r.
    destruct (f (m', q')) eqn:E; simpl; [|reflexivity].
    apply Hf in E. destruct (Nat.eqb_spec (line_number a) n); [|reflexivity].
    exfalso. apply Hn. left. congruence. }
  destruct Hin as [Hin|Hin].
  - inversion Hin; subst. rewrite Hrest by assumption. rewrite app_nil_r.
    destruct (f (n, p)) eqn:E; simpl; [|reflexivity].
    apply Hf in E. now rewrite E, Nat.eqb_refl.
  - rewrite IH by assumption.
    assert (m <> n).
    { intros ->. apply Hnot. apply in_map_iff. exists (n, p). auto. }
    destruct (f (m, q)) eqn:E; simpl; [|reflexivity].
    apply Hf in E. destruct (Nat.eqb_spec (line_number a) m); [|congruence].
    destruct (Nat.eqb_spec (line_number a) n); [congruence|reflexivity].
Qed.

Lemma imports_nodup fs file : NoDup (map fst (imports_of fs file)).
Proof. apply scan_lines_nodup. Qed.

Lemma check_import_line g file cur allowed m q v :
  check_import g file cur allowed (m, q) = Some v -> line_number v = m.
Proof. intros H. now apply check_import_inv in H. Qed.

Lemma test_import_line file m q v :
  test_import_violation file (m, q) = Some v -> line_number v = m.
Proof. intros H. now apply test_import_violation_inv in H. Qed.

(** The violations of a file at the line of a record that names a layer:
    exactly what the rule cascade gives for the record. *)
Lemma file_violations_at_line fs g file cur n p dep :
  checked_layer g file = Some cur ->
  In (n, p) (imports_of fs file) ->
  _get_layer_from_import g p = Some dep ->
  filter (fun w => line_number w =? n) (file_violations fs g file)
  = opt_list (check_import g file cur (allowed_deps_of cur) (n, p)).
Proof.
  intros Hc Hi Hd. unfold file_violations, test_violations, layer_violations.
  rewrite Hc, filter_app.
  rewrite (filter_line_flat_map _ _ n p (check_import_line g file cur _))
    by (auto using imports_nodup).
  destruct (endswith (name file) "_test.go"); [reflexivity|].
  rewrite (filter_line_flat_map _ _ n p (test_import_line file))
    by (auto using imports_nodup).
  unfold test_import_violation.
  destruct (String.eqb_spec p "testing") as [E|E]; [|reflexivity].
  apply layer_import_not_testing in Hd. contradiction.
Qed.

(** C2.  In a file of the presentation layer, an import record whose target
    is the domain layer (present in the tree) is recorded as
    PRESENTATION_IMPORTS_DOMAIN: [validate_file] appends that violation for
    the record, and every violation it appends at the record's line is
    that one, so none is the generic ILLEGAL_LAYER_DEPENDENCY, although
    domain is not among the allowed dependencies of presentation. *)
Theorem presentation_domain_priority (fs : FileSystem) (st : St) (file : Path)
    (line : nat) (import_path : string) :
  _get_file_layer (self st) file = Some "presentation" ->
  mem "presentation" (layers_present (self st)) = true ->
  mem "domain" (layers_present (self st)) = true ->
  In (line, import_path) (fst (_extract_imports fs file st)) ->
  _get_layer_from_import (self st) import_path = Some "domain" ->
  mem "domain" (allowed_deps_of "presentation") = false
  /\ exists v new,
       violations (self (snd (validate_file fs file st))) = violations (self st) ++ new
       /\ check_import (self st) file "presentation" (allowed_deps_of "presentation")
            (line, import_path) = Some v
       /\ In v new
       /\ violation_type v = "PRESENTATION_IMPORTS_DOMAIN"
       /\ file_path v = path_str file
       /\ line_number v = line
       /\ (forall w, In w new -> line_number w = line ->
             w = v /\ violation_type w <> "ILLEGAL_LAYER_DEPENDENCY").
Proof.
  intros Hcur Hpres Hdom Hin Hdep.
  rewrite extract_imports_push in Hin. cbn [fst] in Hin.
  split; [reflexivity|].
  pose proof (checked_layer_some _ _ _ Hcur Hpres) as Hc.
  assert (Hv : exists v,
             check_import (self st) file "presentation" (allowed_deps_of "presentation")
               (line, import_path) = Some v
             /\ violation_type v = "PRESENTATION_IMPORTS_DOMAIN"
             /\ file_path v = path_str file /\ line_number v = line).
  { unfold check_import. rewrite Hdep, Hdom. eexists. split; [reflexivity|].
    repeat split. }
  destruct Hv as [v [Hv [Hk [Hf Hl]]]].
  exists v, (file_violations fs (self st) file).
  rewrite validate_file_push. cbn [snd self push add_violations violations].
  split; [reflexivity|]. split; [exact Hv|].
  split; [eapply layer_violation_recorded; eauto|].
  repeat (split; [assumption|]).
  intros w Hw Hwl.
  pose proof (violations_at_layer_import _ _ _ _ _ _ _ _ Hc Hin Hdep Hw Hwl) as E.
  rewrite Hv in E. inversion E; subst w. split; [reflexivity|].
  rewrite Hk. discriminate.
Qed.

(** C3.  In a file of a layer other than bootstrap, an import record whose
    target is the bootstrap layer (present in the tree) gives exactly one
    violation, of kind FORBIDDEN_BOOTSTRAP_DEPENDENCY, whatever the table
    of allowed dependencies says; the scan goes on, and the violations of
    the other records of the file are recorded as well. *)
Theorem bootstrap_dependency_forbidden (fs : FileSystem) (st : St) (file : Path)
    (L : string) (line : nat) (import_path : string) :
  L <> "bootstrap" ->
  _get_file_layer (self st) file = Some L ->
  mem L (layers_present (self st)) = true ->
  mem "bootstrap" (layers_present (self st)) = true ->
  In (line, import_path) (fst (_extract_imports fs file st)) ->
  _get_layer_from_import (self st) import_path = Some "bootstrap" ->
  exists v new,
    violations (self (snd (validate_file fs file st))) = violations (self st) ++ new
    /\ (forall allowed, check_import (self st) file L allowed (line, import_path) = Some v)
    /\ violation_type v = "FORBIDDEN_BOOTSTRAP_DEPENDENCY"
    /\ file_path v = path_str file
    /\ line_number v = line
    /\ filter (fun w => line_number w =? line) new = [v]
    /\ (forall imp w,
          In imp (fst (_extract_imports fs file st)) ->
          check_import (self st) file L (allowed_deps_of L) imp = Some w ->
          In w new).
Proof.
  intros HL Hcur Hpres Hboot Hin Hdep.
  rewrite extract_imports_push in *. cbn [fst] in *.
  pose proof (checked_layer_some _ _ _ Hcur Hpres) as Hc.
  assert (HLb : String.eqb "bootstrap" L = false).
  { apply String.eqb_neq. congruence. }
  assert (Hv : exists v,
             (forall allowed,
                 check_import (self st) file L allowed (line, import_path) = Some v)
             /\ violation_type v = "FORBIDDEN_BOOTSTRAP_DEPENDENCY"
             /\ file_path v = path_str file /\ line_number v = line).
  { unfold check_import. rewrite Hdep, Hboot, HLb. eexists.
    split; [intros allowed; reflexivity|]. repeat split. }
  destruct Hv as [v [Hv [Hk [Hf Hl]]]].
  exists v, (file_violations fs (self st) file).
  rewrite validate_file_push. cbn [snd self push add_violations violations].
  split; [reflexivity|]. split; [exact Hv|].
  repeat (split; [assumption|]).
  split.
  - rewrite (file_violations_at_line _ _ _ _ _ _ _ Hc Hin Hdep), Hv. reflexivity.
  - intros imp w Hi Hw. eapply layer_violation_recorded; eauto.
Qed.

(** C4.  The table of allowed dependencies is the one of the design:
    domain may depend on nothing, application on domain, infrastructure
    on application and domain, presentation on application, bootstrap on
    the four other layers.  An import whose target is the layer of the
    file itself is flagged by no rule: neither the rule cascade nor the
    test-import check gives a violation for it, and [validate_file]
    appends no violation at its line. *)
Theorem layer_table_and_self_imports :
  LAYER_RULES
  = [ ("domain", []);
      ("application", ["domain"]);
      ("infrastructure", ["application"; "domain"]);
      ("presentation", ["application"]);
      ("bootstrap", ["domain"; "application"; "infrastructure"; "presentation"]) ]
  /\ allowed_deps_of "domain" = []
  /\ allowed_deps_of "application" = ["domain"]
  /\ allowed_deps_of "infrastructure" = ["application"; "domain"]
  /\ allowed_deps_of "presentation" = ["application"]
  /\ allowed_deps_of "bootstrap" = ["domain"; "application"; "infrastructure"; "presentation"]
  /\ (forall name, is_layer name = true <->
        In name ["domain"; "application"; "infrastructure"; "presentation"; "bootstrap"])
  /\ (forall g file cur allowed line import_path,
        _get_layer_from_import g import_path = Some cur ->
        check_import g file cur allowed (line, import_path) = None
        /\ test_import_violation file (line, import_path) = None)
  /\ (forall fs st file cur line import_path,
        _get_file_layer (self st) file = Some cur ->
        In (line, import_path) (fst (_extract_imports fs file st)) ->
        _get_layer_from_import (self st) import_path = Some cur ->
        exists new,
          violations (self (snd (validate_file fs file st))) = violations (self st) ++ new
          /\ forall w, In w new -> line_number w <> line).
Proof.
  assert (Hself : forall g file cur allowed line import_path,
             _get_layer_from_import g import_path = Some cur ->
             check_import g file cur allowed (line, import_path) = None
             /\ test_import_violation file (line, import_path) = None).
  { intros g file cur allowed line p Hd. split.
    - unfold check_import. rewrite Hd, String.eqb_refl.
      destruct (mem cur (layers_present g)); reflexivity.
    - unfold test_import_violation.
      destruct (String.eqb_spec p "testing") as [E|E]; [|reflexivity].
      apply layer_import_not_testing in Hd. contradiction. }
  repeat (split; [reflexivity|]).
  split.
  { intros name. unfold is_layer, mem. rewrite existsb_exists. simpl. split.
    - intros [x [Hx E]]. apply String.eqb_eq in E. subst x. tauto.
    - intros H. exists name. rewrite String.eqb_refl. tauto. }
  split; [exact Hself|].
  intros fs st file cur line p Hcur Hin Hd.
  rewrite extract_imports_push in Hin. cbn [fst] in Hin.
  exists (file_violations fs (self st) file).
  rewrite validate_file_push. cbn [snd self push add_violations violations].
  split; [reflexivity|].
  intros w Hw Hl.
  destruct (Hself (self st) file cur (allowed_deps_of cur) line p Hd) as [Hc Ht].
  apply file_violations_inv in Hw.
  destruct Hw as [[_ [[n' p'] [Hi' Hw]]] | [cur' [[n' p'] [Hc' [Hi' Hw]]]]].
  - pose proof (test_import_line _ _ _ _ Hw) as Hn.
    assert (E : n' = line) by congruence. rewrite E in Hi', Hw.
    pose proof (imports_unique _ _ _ _ _ Hi' Hin) as Ep. rewrite Ep in Hw. congruence.
  - apply checked_layer_inv in Hc'.
    assert (Ec : cur' = cur) by congruence. rewrite Ec in Hw.
    pose proof (check_import_line _ _ _ _ _ _ _ Hw) as Hn.
    assert (E : n' = line) by congruence. rewrite E in Hi', Hw.
    pose proof (imports_unique _ _ _ _ _ Hi' Hin) as Ep. rewrite Ep in Hw. congruence.
Qed.


Lemma presentation_domain_priority_witness :
  exists v,
    In v (violations (self (snd (validate_file Samples.project (fst Samples.handler_go)
                                   (state_of Samples.project_guard)))))
    /\ violation_type v = "PRESENTATION_IMPORTS_DOMAIN"
    /\ line_number v = 6.
Proof.
  destruct (presentation_domain_priority Samples.project (state_of Samples.project_guard)
              (fst Samples.handler_go) 6 "example.com/app/domain/entity")
    as [_ [v [new [E [_ [Hin [Hk [_ [Hl _]]]]]]]]];
    try (vm_compute; auto 10; fail).
  exists v. rewrite E. split; [apply in_or_app; right; exact Hin | split; assumption].
Defined.

Lemma bootstrap_dependency_forbidden_witness :
  exists v,
    filter (fun w => line_number w =? 2)
      (violations (self (snd (validate_file Samples.project (fst Samples.db_go)
                                (state_of Samples.project_guard))))) = [v]
    /\ violation_type v = "FORBIDDEN_BOOTSTRAP_DEPENDENCY".
Proof.
  destruct (bootstrap_dependency_forbidden Samples.project (state_of Samples.project_guard)
              (fst Samples.db_go) "infrastructure" 2 "example.com/app/bootstrap/wire")
    as [v [new [E [_ [Hk [_ [_ [Hone _]]]]]]]];
    try (vm_compute; auto 10; fail).
  - discriminate.
  - exists v. rewrite E. split; [exact Hone | exact Hk].
Defined.

Lemma layer_table_and_self_imports_witness :
  check_import Samples.project_guard (fst Samples.handler_go) "presentation"
    (allowed_deps_of "presentation") (7, "example.com/app/presentation/view") = None
  /\ exists new,
       violations (self (snd (validate_file Samples.project (fst Samples.handler_go)
                                (state_of Samples.project_guard)))) = [] ++ new
       /\ forall w, In w new -> line_number w <> 7.
Proof.
  destruct layer_table_and_self_imports as [_ [_ [_ [_ [_ [_ [_ [Hrec Hfile]]]]]]]].
  split.
  - apply (Hrec Samples.project_guard (fst Samples.handler_go) "presentation"
             (allowed_deps_of "presentation") 7 "example.com/app/presentation/view").
    vm_compute. reflexivity.
  - apply (Hfile Samples.project (state_of Samples.project_guard) (fst Samples.handler_go)
             "presentation" 7 "example.com/app/presentation/view");
      vm_compute; auto 10.
Defined.

End LayerRules.

(** ** The test-import check *)

Module TestImports.
Import Text Regex FS Guard Run Views Effects Rules.

Lemma filter_none {A : Type} (f : A -> bool) (l : list A) :
  (forall x, In x l -> f x = false) -> filter f l = [].
Proof.
  induction l as [|x l IH]; simpl; intros H; [reflexivity|].
  rewrite (H x) by tauto. apply IH. intros y Hy. apply H. tauto.
Qed.



Lemma layer_kind_not_test k : In k layer_kinds -> String.eqb k "TEST_CODE_IN_PRODUCTION" = false.
Proof.
  unfold layer_kinds. simpl.
  intros [H|[H|[H|[H|[]]]]]; subst k; reflexivity.
Qed.


(** C10.  A TEST_CODE_IN_PRODUCTION violation only ever comes from an
    import record whose path is exactly the string testing.  A record with
    any other path gets no such violation at its line, and this holds in
    particular for the other entries of FORBIDDEN_TEST_IMPORTS (testify,
    assert, require, mock), which the check never consults, and for the
    subpackage testing/quick. *)
Theorem only_testing_path_flagged (fs : FileSystem) (st : St) (file : Path) :
  FORBIDDEN_TEST_IMPORTS = ["testing"; "testify"; "assert"; "require"; "mock"]
  /\ (forall p line,
        In p ["testify"; "assert"; "require"; "mock"; "testing/quick"] ->
        p <> "testing" /\ test_import_violation file (line, p) = None)
  /\ exists new,
       violations (self (snd (validate_file fs file st))) = violations (self st) ++ new
       /\ (forall w, In w new -> violation_type w = "TEST_CODE_IN_PRODUCTION" ->
             In (line_number w, "testing") (fst (_extract_imports fs file st)))
       /\ (forall line p w,
             In (line, p) (fst (_extract_imports fs file st)) -> p <> "testing" ->
             In w new -> line_number w = line ->
             violation_type w <> "TEST_CODE_IN_PRODUCTION").
Proof.
  split; [reflexivity|]. split.
  { intros p line Hp. simpl in Hp.
    destruct Hp as [H|[H|[H|[H|[H|[]]]]]]; subst p; split;
      solve [discriminate | reflexivity]. }
  exists (file_violations fs (self st) file).
  rewrite validate_file_push, extract_imports_push.
  cbn [fst snd self push add_violations violations].
  split; [reflexivity|].
  assert (Horigin : forall w, In w (file_violations fs (self st) file) ->
            violation_type w = "TEST_CODE_IN_PRODUCTION" ->
            In (line_number w, "testing") (imports_of fs file)).
  { intros w Hw Hk. apply file_violations_inv in Hw.
    destruct Hw as [[_ [[n p] [Hi Hw]]] | [cur [[n p] [_ [_ Hw]]]]].
    - apply test_import_violation_inv in Hw. destruct Hw as [-> [-> _]]. exact Hi.
    - apply check_import_inv in Hw. destruct Hw as [_ [_ [Hin _]]].
      apply layer_kind_not_test in Hin. rewrite Hk in Hin. discriminate. }
  split; [exact Horigin|].
  intros line p w Hi Hp Hw Hl Hk.
  pose proof (Horigin w Hw Hk) as Ht. rewrite Hl in Ht.
  apply Hp. eapply imports_unique; eauto.
Qed.

Lemma only_testing_path_flagged_witness :
  test_import_violation (fst Samples.service_go) (3, "testing/quick") = None
  /\ forall w,
       In w (violations (self (snd (validate_file Samples.project (fst Samples.service_go)
                                      (state_of Samples.project_guard))))) ->
       line_number w = 4 -> violation_type w <> "TEST_CODE_IN_PRODUCTION".
Proof.
  destruct (only_testing_path_flagged Samples.project (state_of Samples.project_guard)
              (fst Samples.service_go)) as [_ [Hlist [new [E [_ Hother]]]]].
  split.
  - apply (Hlist "testing/quick" 3). simpl. tauto.
  - intros w Hw. rewrite E in Hw. simpl in Hw.
    apply (Hother 4 "github.com/stretchr/testify/assert" w);
      [vm_compute; auto 10 | discriminate | exact Hw].
Defined.


End TestImports.

(** ** The exit code *)

Module ExitCode.
Import Text Regex FS Guard Run Views Effects Rules.

Lemma validate_all_result fs st :
  layers_present (self st) <> [] ->
  fst (validate_all fs st)
  = gomod_config_valid (self (snd (validate_all fs st)))
    && (List.length (violations (self (snd (validate_all fs st)))) =? 0).
Proof.
  intros Hl. unfold validate_all, bind, get_self.
  destruct (layers_present (self st)) as [|l ls]; [congruence|].
  cbn [print set_gomod_config_valid modify_self].
  destruct (_validate_gomod_config fs _) as [valid s1].
  cbn [print set_gomod_config_valid modify_self].
  destruct (for_each _ _ _) as [u s2].
  reflexivity.
Qed.

Lemma self_ready fs root : self (ready fs root) = new_guard fs root.
Proof.
  unfold ready, new_guard. apply (blind_init fs root). reflexivity.
Qed.

Lemma main_ready fs root :
  path_exists fs root = true ->
  main fs root start
  = match layers_present (self (ready fs root)) with
    | [] => (print "No architecture layers to validate - exiting" ;; ret 2) (ready fs root)
    | _ :: _ =>
        (is_valid <- validate_all fs ;;
         report_violations ;;
         ret (if is_valid then 0 else 1)) (ready fs root)
    end.
Proof.
  intros He. unfold main, ready, banner, bind at 1 2 3 4 5.
  cbn [print snd]. rewrite He. cbn [negb].
  unfold bind at 1. destruct (__init__ fs root _) as [u sti]. cbn [snd].
  unfold bind at 1. cbn [get_self].
  destruct (layers_present (self sti)); reflexivity.
Qed.

Lemma exit_code_missing_root fs root :
  path_exists fs root = false -> exit_code fs root = 2.
Proof.
  intros He. unfold exit_code, main, bind. cbn [print]. rewrite He. reflexivity.
Qed.

Lemma exit_code_no_layers fs root :
  path_exists fs root = true -> layers_present (new_guard fs root) = [] ->
  exit_code fs root = 2.
Proof.
  intros He Hl. unfold exit_code. rewrite (main_ready _ _ He), self_ready, Hl.
  reflexivity.
Qed.

Lemma run_with_layers fs root :
  path_exists fs root = true -> layers_present (new_guard fs root) <> [] ->
  exit_code fs root = (if fst (validate_all fs (ready fs root)) then 0 else 1)
  /\ final_guard fs root = self (snd (validate_all fs (ready fs root))).
Proof.
  intros He Hl. unfold exit_code, final_guard.
  rewrite (main_ready _ _ He), self_ready.
  destruct (layers_present (new_guard fs root)) as [|l ls]; [congruence|].
  unfold bind. destruct (validate_all fs (ready fs root)) as [is_valid s1]. cbn [fst snd].
  pose proof (keeps_report_violations s1) as Hk.
  destruct (report_violations s1) as [u s2]. cbn [fst snd] in *. auto.
Qed.

Lemma blind_validate_gomod_config fs : blind (_validate_gomod_config fs).
Proof.
  unfold _validate_gomod_config. blind_tac. unfold gomod_check_layer. blind_tac.
Qed.

(** What [validate_all] leaves in the guard when some layer is present:
    the verdict of the go.mod check, and the violations of the files of
    the present layers, in scan order. *)
Lemma validate_all_effect fs st :
  layers_present (self st) <> [] ->
  self (snd (validate_all fs st))
  = add_violations
      (with_gomod (self st) (fst (_validate_gomod_config fs (state_of (self st)))))
      (flat_map (file_violations fs (self st)) (collect_go_files fs (self st))).
Proof.
  intros Hl. unfold validate_all, bind, get_self.
  destruct (layers_present (self st)) as [|l ls] eqn:El; [congruence|].
  cbn [print set_gomod_config_valid modify_self].
  match goal with
  | |- context [_validate_gomod_config fs ?s] =>
      pose proof (keeps_validate_gomod_config fs s) as Hk;
      pose proof (blind_validate_gomod_config fs s (state_of (self st)) eq_refl) as [Hb _];
      destruct (_validate_gomod_config fs s) as [valid s1]
  end.
  cbn [fst snd self] in Hk, Hb. subst valid.
  cbn [print set_gomod_config_valid modify_self].
  rewrite validate_files_push. cbn [snd self push]. rewrite Hk.
  reflexivity.
Qed.

(** The guard at the end of a run that found some layer. *)
Lemma final_guard_with_layers fs root :
  path_exists fs root = true -> layers_present (new_guard fs root) <> [] ->
  final_guard fs root
  = add_violations
      (with_gomod (new_guard fs root)
         (fst (_validate_gomod_config fs (state_of (new_guard fs root)))))
      (flat_map (file_violations fs (new_guard fs root))
         (collect_go_files fs (new_guard fs root))).
Proof.
  intros He Hl. destruct (run_with_layers fs root He Hl) as [_ ->].
  rewrite validate_all_effect by (rewrite self_ready; exact Hl).
  now rewrite self_ready.
Qed.

Lemma new_guard_violations fs root : violations (new_guard fs root) = [].
Proof.
  unfold new_guard, __init__, bind at 1.
  cbn [modify_self].
  unfold bind at 1.
  match goal with
  | |- context [_detect_layers fs ?s] =>
      pose proof (keeps_detect_layers fs s) as Hk;
      destruct (_detect_layers fs s) as [layers s1]
  end.
  cbn [snd self] in Hk.
  unfold bind at 1. cbn [set_layers_present modify_self].
  unfold bind at 1. cbn [set_gomod_config_valid modify_self].
  unfold bind at 1.
  match goal with
  | |- context [_get_module_path fs ?s] =>
      pose proof (keeps_get_module_path fs s) as Hm;
      destruct (_get_module_path fs s) as [m s2]
  end.
  cbn [snd self] in Hm. cbn [set_module_path modify_self snd self violations].
  rewrite Hm. cbn [violations]. rewrite Hk. reflexivity.
Qed.

(** C1 as the claim states it fails: on a project root without any layer
    directory nothing is recorded and yet the exit code is 2, not 0. *)
Lemma no_layers_exit_code_not_zero :
  path_exists Samples.no_layers Samples.root = true
  /\ layers_present (new_guard Samples.no_layers Samples.root) = []
  /\ violations (final_guard Samples.no_layers Samples.root) = []
  /\ exit_code Samples.no_layers Samples.root = 2
  /\ exit_code Samples.no_layers Samples.root <> 0.
Proof. vm_compute. repeat split; discriminate. Qed.

End ExitCode.

(** ** Files that cannot be read *)

Module ReadFailures.
Import Text Regex FS Guard Run Views Effects Rules.

(** C6, as the code has it.  When the read of a file fails, the extractor
    prints a warning and returns the import records of the lines that were
    read before the failure, none when the failure came before any line;
    nothing is raised, and the loop over the files goes on with the next
    file. *)
Theorem read_failure_recovered (fs : FileSystem) (file : Path) (st : St)
    (lines : list string) (err : string) :
  open_read fs file = ReadError lines err ->
  _extract_imports fs file st
  = (scan_lines lines 1 false,
     {| self := self st;
        stdout := stdout st
                  ++ [("Warning: Could not read " ++ path_str file ++ ": " ++ err)%string] |})
  /\ (lines = [] -> fst (_extract_imports fs file st) = [])
  /\ (forall rest,
        for_each (file :: rest) (validate_file fs) st
        = for_each rest (validate_file fs) (snd (validate_file fs file st))).
Proof.
  intros Hr. split; [|split].
  - unfold _extract_imports. rewrite Hr. reflexivity.
  - intros ->. unfold _extract_imports. rewrite Hr. reflexivity.
  - intros rest. simpl. unfold bind.
    destruct (validate_file fs file st) as [u st']. reflexivity.
Qed.

Lemma read_failure_recovered_witness :
  fst (_extract_imports Samples.broken_tree (fst Samples.broken_go) start)
  = scan_lines [Samples.import_line "testing"] 1 false.
Proof.
  destruct (read_failure_recovered Samples.broken_tree (fst Samples.broken_go) start
              [Samples.import_line "testing"] Samples.decode_error)
    as [H _].
  - vm_compute. reflexivity.
  - rewrite H. reflexivity.
Defined.

(** C6 as the claim states it fails: a file whose read fails after its
    first line was read contributes the import record of that line, and
    the run records a violation for it. *)
Lemma partial_read_contributes_records :
  open_read Samples.broken_tree (fst Samples.broken_go)
  = ReadError [Samples.import_line "testing"] Samples.decode_error
  /\ fst (_extract_imports Samples.broken_tree (fst Samples.broken_go) start)
     = [(1, "testing")]
  /\ map violation_type (violations (final_guard Samples.broken_tree Samples.root))
     = ["TEST_CODE_IN_PRODUCTION"].
Proof. vm_compute. repeat split. Qed.

End ReadFailures.

(** ** The go.mod check *)

Module GoMod.
Import Text Regex FS Guard Run Views Effects Rules.

Lemma insert_sorted_in x y l : In x (insert_sorted y l) <-> x = y \/ In x l.
Proof.
  induction l as [|z l IH]; simpl.
  - intuition.
  - destruct (String.ltb y z); simpl; rewrite ?IH; intuition.
Qed.

Lemma sorted_in x l : In x (sorted l) <-> In x l.
Proof.
  unfold sorted. induction l as [|y l IH]; simpl; [tauto|].
  rewrite insert_sorted_in, IH. intuition.
Qed.

(** One iteration of the go.mod loop: its effect on the local [valid]. *)
Lemma gomod_check_layer_result fs g layer valid st :
  fst (gomod_check_layer fs g layer valid st) = valid && gomod_layer_ok fs g layer.
Proof.
  unfold gomod_check_layer, gomod_layer_ok, gomod_path.
  destruct (negb (path_exists fs _)).
  - unfold bind. cbn [print fst ret]. now rewrite andb_true_r.
  - destruct (open_read fs _) as [lines|lines e].
    + destruct (set_diff _ _); unfold bind; cbn [print fst ret].
      * now rewrite andb_true_r.
      * now rewrite andb_false_r.
    + unfold bind. cbn [print fst ret]. now rewrite andb_false_r.
Qed.

Lemma gomod_loop_result fs g layers : forall valid st,
  fst (fold_each layers valid (gomod_check_layer fs g) st)
  = valid && forallb (gomod_layer_ok fs g) layers.
Proof.
  induction layers as [|layer layers IH]; intros valid st; simpl.
  - unfold ret. simpl. now rewrite andb_true_r.
  - unfold bind. pose proof (gomod_check_layer_result fs g layer valid st) as H.
    destruct (gomod_check_layer fs g layer valid st) as [v st']. simpl in H.
    rewrite IH, H. now rewrite andb_assoc.
Qed.

Lemma validate_gomod_config_result fs st :
  fst (_validate_gomod_config fs st)
  = forallb (gomod_layer_ok fs (self st)) (sorted (layers_present (self st))).
Proof.
  unfold _validate_gomod_config, bind. cbn [get_self print].
  now rewrite gomod_loop_result.
Qed.

(** C8, as the code has it.  For a layer whose go.mod is missing the check
    prints a warning and leaves the verdict as it was, so that a missing
    go.mod never makes the configuration invalid; its set of declared
    dependencies is empty, and so is its forbidden set.  The configuration
    is valid exactly when every present layer either has no go.mod, or has
    a go.mod that can be read and whose forbidden set, declared minus
    allowed, is empty.  A go.mod that exists and cannot be read makes the
    configuration invalid.  The statement is for a guard whose present
    layers are keys of the table, as those of every constructed guard are
    ([new_guard_layers_known]): the lookup of the allowed set then cannot
    fail. *)
Theorem gomod_validity (fs : FileSystem) (st : St) :
  (forall layer, In layer (layers_present (self st)) -> is_layer layer = true) ->
  (forall layer valid st',
      path_exists fs (gomod_path (self st) layer) = false ->
      gomod_check_layer fs (self st) layer valid st'
      = (valid,
         {| self := self st';
            stdout := stdout st' ++ [("  ⚠ " ++ ljust15 layer ++ " - no go.mod file")%string] |})
      /\ declared_deps fs (self st) layer = []
      /\ forbidden_deps fs (self st) layer = [])
  /\ (fst (_validate_gomod_config fs st) = true <->
      forall layer, In layer (layers_present (self st)) ->
        path_exists fs (gomod_path (self st) layer) = false
        \/ exists lines,
             open_read fs (gomod_path (self st) layer) = ReadOk lines
             /\ forbidden_deps fs (self st) layer = [])
  /\ (forall layer lines err,
        In layer (layers_present (self st)) ->
        path_exists fs (gomod_path (self st) layer) = true ->
        open_read fs (gomod_path (self st) layer) = ReadError lines err ->
        fst (_validate_gomod_config fs st) = false).
Proof.
  intros _.
  assert (Hok : forall layer,
             gomod_layer_ok fs (self st) layer = true <->
             path_exists fs (gomod_path (self st) layer) = false
             \/ exists lines,
                  open_read fs (gomod_path (self st) layer) = ReadOk lines
                  /\ forbidden_deps fs (self st) layer = []).
  { intros layer. unfold gomod_layer_ok, forbidden_deps, declared_deps.
    destruct (path_exists fs (gomod_path (self st) layer)); cbn [negb].
    - destruct (open_read fs (gomod_path (self st) layer)) as [lines|lines e].
      + destruct (set_diff _ _) eqn:E; split.
        * intros _. right. exists lines. auto.
        * reflexivity.
        * discriminate.
        * intros [H|[l' [H1 H2]]]; discriminate.
      + split; [discriminate|]. intros [H|[l' [H1 H2]]]; discriminate.
    - split; [auto | reflexivity]. }
  split; [|split].
  - intros layer valid st' He. split; [|split].
    + unfold gomod_check_layer. fold (gomod_path (self st) layer). rewrite He.
      reflexivity.
    + unfold declared_deps. rewrite He. reflexivity.
    + unfold forbidden_deps, declared_deps. rewrite He. reflexivity.
  - rewrite validate_gomod_config_result, forallb_forall. split.
    + intros H layer Hin. apply Hok, H, sorted_in, Hin.
    + intros H layer Hin. apply Hok, H, sorted_in, Hin.
  - intros layer lines err Hin He Hr.
    rewrite validate_gomod_config_result.
    apply not_true_is_false. rewrite forallb_forall. intros H.
    specialize (H layer (proj2 (sorted_in _ _) Hin)).
    unfold gomod_layer_ok in H. rewrite He, Hr in H. discriminate.
Qed.

Lemma fold_each_invariant {A B : Type} (P : B -> Prop) (l : list A) (body : A -> B -> M B) :
  (forall x acc st, In x l -> P acc -> P (fst (body x acc st))) ->
  forall acc st, P acc -> P (fst (fold_each l acc body st)).
Proof.
  induction l as [|x l IH]; intros Hb acc st Hacc; simpl.
  - exact Hacc.
  - unfold bind. pose proof (Hb x acc st (or_introl eq_refl) Hacc) as Hx.
    destruct (body x acc st) as [acc' st']. simpl in Hx.
    apply IH; [|exact Hx]. intros y acc0 st0 Hy. apply Hb. now right.
Qed.

Lemma is_layer_key layer : In layer (map fst LAYER_RULES) -> is_layer layer = true.
Proof.
  intros H. unfold is_layer, mem. apply existsb_exists.
  exists layer. now rewrite String.eqb_refl.
Qed.

(** The layers [_detect_layers] returns are keys of the table. *)
Lemma detect_layers_known fs st layer :
  In layer (fst (_detect_layers fs st)) -> is_layer layer = true.
Proof.
  unfold _detect_layers, bind. cbn [get_self].
  destruct (negb (path_exists fs (project_root (self st)))).
  - cbn [print ret fst]. contradiction.
  - cbn [print]. revert layer.
    apply (fold_each_invariant (fun acc => forall layer, In layer acc -> is_layer layer = true)).
    + intros x acc st' Hx Hacc layer.
      destruct (path_exists fs _ && is_dir fs _); unfold bind; cbn [print ret fst].
      * unfold set_add. destruct (mem x acc) eqn:Hm; [apply Hacc|].
        rewrite in_app_iff. intros [H|[H|[]]]; [now apply Hacc|]. subst layer.
        apply is_layer_key, sorted_in, Hx.
      * apply Hacc.
    + intros layer [].
Qed.

Lemma new_guard_layers fs root :
  exists st, layers_present (new_guard fs root) = fst (_detect_layers fs st).
Proof.
  unfold new_guard, __init__, bind at 1.
  cbn [modify_self].
  unfold bind at 1.
  match goal with
  | |- context [_detect_layers fs ?s] =>
      exists s; destruct (_detect_layers fs s) as [layers s1]
  end.
  unfold bind at 1. cbn [set_layers_present modify_self].
  unfold bind at 1. cbn [set_gomod_config_valid modify_self].
  unfold bind at 1.
  match goal with
  | |- context [_get_module_path fs ?s] =>
      pose proof (keeps_get_module_path fs s) as Hm;
      destruct (_get_module_path fs s) as [m s2]
  end.
  cbn [snd self] in Hm. cbn [set_module_path modify_self snd self layers_present fst].
  rewrite Hm. reflexivity.
Qed.

(** Every guard that is constructed has its present layers among the keys
    of the table, so that the lookups of the go.mod check cannot fail. *)
Lemma new_guard_layers_known fs root layer :
  In layer (layers_present (new_guard fs root)) -> is_layer layer = true.
Proof.
  destruct (new_guard_layers fs root) as [st ->]. apply detect_layers_known.
Qed.

Lemma gomod_validity_witness :
  fst (_validate_gomod_config Samples.missing_gomod
         (state_of (new_guard Samples.missing_gomod Samples.root))) = true.
Proof.
  destruct (gomod_validity Samples.missing_gomod
              (state_of (new_guard Samples.missing_gomod Samples.root)))
    as [_ [H _]].
  - intros layer. apply new_guard_layers_known.
  - apply H. intros layer Hin. left. vm_compute in Hin.
    destruct Hin as [<-|[<-|[]]]; vm_compute; reflexivity.
Defined.

(** C8 as the claim states it fails in its last part: with a go.mod that
    exists and cannot be read, the declared set of every present layer is
    empty, so every forbidden set is empty, and yet the configuration is
    reported invalid and the run exits with 1. *)
Lemma unreadable_gomod_invalid :
  layers_present (new_guard Samples.unreadable_gomod Samples.root) = ["domain"]
  /\ forbidden_deps Samples.unreadable_gomod
       (new_guard Samples.unreadable_gomod Samples.root) "domain" = []
  /\ fst (_validate_gomod_config Samples.unreadable_gomod
            (state_of (new_guard Samples.unreadable_gomod Samples.root))) = false
  /\ violations (final_guard Samples.unreadable_gomod Samples.root) = []
  /\ exit_code Samples.unreadable_gomod Samples.root = 1.
Proof. vm_compute. repeat split. Qed.

End GoMod.

(** ** The report *)

Module Report.
Import Text Regex FS Guard Run Views Effects Rules.

(** *** The order of strings *)

Lemma ascii_compare_spec (c d : ascii) :
  CompareSpec (c = d) (N_of_ascii c < N_of_ascii d)%N (N_of_ascii d < N_of_ascii c)%N
    (Ascii.compare c d).
Proof.
  unfold Ascii.compare.
  destruct (N.compare_spec (N_of_ascii c) (N_of_ascii d)) as [E|E|E]; constructor; auto.
  rewrite <- (ascii_N_embedding c), <- (ascii_N_embedding d). now rewrite E.
Qed.

Lemma compare_refl (s : string) : String.compare s s = Eq.
Proof.
  induction s as [|c s IH]; simpl; [reflexivity|].
  destruct (ascii_compare_spec c c) as [E|E|E]; [exact IH | | ];
    exfalso; revert E; apply N.lt_irrefl.
Qed.

Lemma compare_not_gt_trans (a : string) : forall b c,
  String.compare a b <> Gt -> String.compare b c <> Gt -> String.compare a c <> Gt.
Proof.
  induction a as [|x a IH]; intros [|y b] [|z c]; simpl; try congruence.
  destruct (ascii_compare_spec x y) as [E1|E1|E1];
    destruct (ascii_compare_spec y z) as [E2|E2|E2];
    destruct (ascii_compare_spec x z) as [E3|E3|E3];
    subst; try congruence; try (intros; apply (IH b c); assumption);
    try (exfalso; revert E3; apply N.lt_irrefl);
    try (exfalso; apply (N.lt_irrefl (N_of_ascii z));
         first [ eapply N.lt_trans; eassumption ]);
    try (exfalso; apply (N.lt_irrefl (N_of_ascii x));
         first [ eapply N.lt_trans; eassumption
               | eapply N.lt_trans; [eassumption|eapply N.lt_trans; eassumption] ]);
    try (exfalso; apply (N.lt_irrefl (N_of_ascii y));
         first [ eapply N.lt_trans; eassumption
               | eapply N.lt_trans; [eassumption|eapply N.lt_trans; eassumption] ]).
Qed.


Lemma ltb_lt a b : String.ltb a b = true <-> String.compare a b = Lt.
Proof. unfold String.ltb. destruct (String.compare a b); split; congruence. Qed.

Lemma str_le_compare a b : str_le a b <-> String.compare a b <> Gt.
Proof.
  unfold str_le, String.ltb. rewrite (String.compare_antisym a b).
  destruct (String.compare b a); simpl; split; congruence.
Qed.

Lemma str_le_refl a : str_le a a.
Proof. apply str_le_compare. rewrite compare_refl. discriminate. Qed.

Lemma str_le_trans a b c : str_le a b -> str_le b c -> str_le a c.
Proof. rewrite !str_le_compare. apply compare_not_gt_trans. Qed.

Lemma str_le_antisym a b : str_le a b -> str_le b a -> a = b.
Proof.
  rewrite !str_le_compare. rewrite (String.compare_antisym a b).
  destruct (String.compare b a) eqn:E; simpl; try congruence.
  intros _ _. symmetry. now apply String.compare_eq_iff.
Qed.

Lemma ltb_true_le a b : String.ltb a b = true -> str_le a b.
Proof.
  rewrite ltb_lt, str_le_compare. intros H. rewrite H. discriminate.
Qed.

(** *** [sorted] sorts, and its result depends on the elements only *)

Lemma insert_sorted_perm x l : Permutation (insert_sorted x l) (x :: l).
Proof.
  induction l as [|y l IH]; simpl; [reflexivity|].
  destruct (String.ltb x y); [reflexivity|].
  rewrite IH. apply perm_swap.
Qed.

Lemma sorted_perm l : Permutation (sorted l) l.
Proof.
  unfold sorted. induction l as [|x l IH]; simpl; [reflexivity|].
  rewrite insert_sorted_perm. now constructor.
Qed.

Lemma insert_sorted_sorted x l :
  Sorted str_le l -> Sorted str_le (insert_sorted x l).
Proof.
  induction l as [|y l IH]; simpl; intros Hs.
  - repeat constructor.
  - destruct (String.ltb x y) eqn:E.
    + constructor; [exact Hs|]. constructor. now apply ltb_true_le.
    + inversion Hs as [|? ? Hs' Hhd]; subst. constructor; [now apply IH|].
      destruct l as [|z l]; simpl.
      * constructor. exact E.
      * destruct (String.ltb x z); constructor; [exact E|].
        inversion Hhd; assumption.
Qed.

Lemma sorted_sorted l : StronglySorted str_le (sorted l).
Proof.
  apply Sorted_StronglySorted.
  - intros a b c. apply str_le_trans.
  - unfold sorted. induction l as [|x l IH]; simpl; [constructor|].
    now apply insert_sorted_sorted.
Qed.

Lemma strongly_sorted_unique l1 : forall l2,
  StronglySorted str_le l1 -> StronglySorted str_le l2 -> Permutation l1 l2 -> l1 = l2.
Proof.
  induction l1 as [|a l1 IH]; intros l2 H1 H2 Hp.
  - apply Permutation_nil in Hp. now subst.
  - destruct l2 as [|b l2]; [apply Permutation_sym, Permutation_nil in Hp; discriminate|].
    inversion H1 as [|? ? H1' Ha]; subst. inversion H2 as [|? ? H2' Hb]; subst.
    assert (E : a = b).
    { assert (Hab : In a (b :: l2)) by (eapply Permutation_in; [exact Hp|now left]).
      assert (Hba : In b (a :: l1))
        by (eapply Permutation_in; [apply Permutation_sym; exact Hp|now left]).
      destruct Hab as [Hab|Hab]; [now subst|].
      destruct Hba as [Hba|Hba]; [now subst|].
      rewrite Forall_forall in Ha, Hb.
      apply str_le_antisym; [now apply Ha | now apply Hb]. }
    subst b. f_equal. apply IH; auto. eapply Permutation_cons_inv; eauto.
Qed.

Lemma sorted_permutation l1 l2 : Permutation l1 l2 -> sorted l1 = sorted l2.
Proof.
  intros Hp. apply strongly_sorted_unique; try apply sorted_sorted.
  rewrite !sorted_perm. exact Hp.
Qed.

(** *** The items of the dictionary, sorted *)

Lemma insert_item_keys x l : map fst (insert_item x l) = insert_sorted (fst x) (map fst l).
Proof.
  induction l as [|y l IH]; simpl; [reflexivity|].
  destruct (String.ltb (fst x) (fst y)); simpl; [reflexivity|]. now rewrite IH.
Qed.

Lemma sorted_items_keys l : map fst (sorted_items l) = sorted (map fst l).
Proof.
  unfold sorted_items, sorted. induction l as [|x l IH]; simpl; [reflexivity|].
  now rewrite insert_item_keys, IH.
Qed.

Lemma insert_item_in x y l : In x (insert_item y l) <-> x = y \/ In x l.
Proof.
  induction l as [|z l IH]; simpl.
  - intuition.
  - destruct (String.ltb (fst y) (fst z)); simpl; rewrite ?IH; intuition.
Qed.

Lemma sorted_items_in x l : In x (sorted_items l) <-> In x l.
Proof.
  unfold sorted_items. induction l as [|y l IH]; simpl; [tauto|].
  rewrite insert_item_in, IH. intuition.
Qed.

(** *** The dictionary [by_type] *)

Lemma group_add_keys v d k :
  In k (map fst (group_add v d)) <-> In k (map fst d) \/ k = violation_type v.
Proof.
  induction d as [|[k0 g0] d IH]; simpl.
  - intuition.
  - destruct (String.eqb_spec k0 (violation_type v)) as [E|E]; simpl.
    + subst. intuition.
    + rewrite IH. intuition.
Qed.

Lemma group_add_nodup v d : NoDup (map fst d) -> NoDup (map fst (group_add v d)).
Proof.
  induction d as [|[k0 g0] d IH]; simpl; intros Hnd.
  - constructor; [tauto|constructor].
  - inversion Hnd as [|? ? Hnot Hnd']; subst.
    destruct (String.eqb_spec k0 (violation_type v)) as [E|E]; simpl.
    + constructor; assumption.
    + constructor; [|now apply IH].
      rewrite group_add_keys. intros [H|H]; [contradiction|congruence].
Qed.

Lemma filter_kind_snoc k vs v :
  filter (kind_is k) (vs ++ [v])
  = filter (kind_is k) vs ++ (if String.eqb (violation_type v) k then [v] else []).
Proof. rewrite filter_app. reflexivity. Qed.

Lemma group_add_groups v vs d :
  NoDup (map fst d) ->
  (forall k g, In (k, g) d -> g = filter (kind_is k) vs) ->
  (~ In (violation_type v) (map fst d) -> filter (kind_is (violation_type v)) vs = []) ->
  forall k g, In (k, g) (group_add v d) -> g = filter (kind_is k) (vs ++ [v]).
Proof.
  induction d as [|[k0 g0] d IH]; simpl; intros Hnd Hd Hnew k g.
  - intros [H|[]]. inversion H; subst.
    rewrite filter_kind_snoc, String.eqb_refl, Hnew by tauto. reflexivity.
  - inversion Hnd as [|? ? Hnot Hnd']; subst.
    destruct (String.eqb_spec k0 (violation_type v)) as [E|E]; simpl.
    + intros [H|H].
      * inversion H; subst. rewrite filter_kind_snoc, String.eqb_refl.
        f_equal. apply Hd. now left.
      * rewrite filter_kind_snoc.
        destruct (String.eqb_spec (violation_type v) k) as [Ek|Ek].
        -- exfalso. apply Hnot. apply in_map_iff. exists (k, g). split; [simpl; congruence|exact H].
        -- rewrite app_nil_r. apply Hd. now right.
    + intros [H|H].
      * inversion H; subst. rewrite filter_kind_snoc.
        destruct (String.eqb_spec (violation_type v) k) as [Ek|Ek]; [congruence|].
        rewrite app_nil_r. apply Hd. now left.
      * apply IH; auto.
        intros Hn. apply Hnew. intros [Hk|Hk]; [congruence|contradiction].
Qed.

Lemma grouped_nil : grouped [] [].
Proof.
  split; [constructor|]. split.
  - intros k. simpl. split; [tauto|]. intros [v [[] _]].
  - intros k g [].
Qed.

Lemma grouped_step vs d v : grouped vs d -> grouped (vs ++ [v]) (group_add v d).
Proof.
  intros [Hnd [Hkeys Hgroups]]. split; [now apply group_add_nodup|]. split.
  - intros k. rewrite group_add_keys, Hkeys. split.
    + intros [[w [Hw E]]|E].
      * exists w. rewrite in_app_iff. tauto.
      * exists v. rewrite in_app_iff. simpl. auto.
    + intros [w [Hw E]]. rewrite in_app_iff in Hw. destruct Hw as [Hw|[Hw|[]]].
      * left. eauto.
      * right. congruence.
  - apply group_add_groups; auto.
    intros Hn. apply TestImports.filter_none. intros w Hw. unfold kind_is.
    destruct (String.eqb_spec (violation_type w) (violation_type v)) as [E|E]; [|reflexivity].
    exfalso. apply Hn. apply Hkeys. eauto.
Qed.

Lemma grouped_fold vs : forall done d,
  grouped done d -> grouped (done ++ vs) (fold_left (fun by_type v => group_add v by_type) vs d).
Proof.
  induction vs as [|v vs IH]; intros done d H; simpl.
  - now rewrite app_nil_r.
  - replace (done ++ v :: vs) with ((done ++ [v]) ++ vs) by (now rewrite <- app_assoc).
    apply IH. now apply grouped_step.
Qed.

Lemma group_by_type_grouped vs : grouped vs (group_by_type vs).
Proof. apply (grouped_fold vs [] []). apply grouped_nil. Qed.

Lemma filter_permutation {A : Type} (f : A -> bool) (l1 l2 : list A) :
  Permutation l1 l2 -> Permutation (filter f l1) (filter f l2).
Proof.
  induction 1 as [|x l1 l2 H IH|x y l|l1 l2 l3 H1 IH1 H2 IH2]; simpl.
  - constructor.
  - destruct (f x); [now constructor|assumption].
  - destruct (f x), (f y); try reflexivity. apply perm_swap.
  - now transitivity (filter f l2).
Qed.

(** The kinds of the groups are the same whatever the order in which the
    violations were accumulated. *)
Lemma group_keys_permutation vs1 vs2 :
  Permutation vs1 vs2 ->
  Permutation (map fst (group_by_type vs1)) (map fst (group_by_type vs2)).
Proof.
  intros Hp.
  destruct (group_by_type_grouped vs1) as [Hn1 [Hk1 _]].
  destruct (group_by_type_grouped vs2) as [Hn2 [Hk2 _]].
  apply NoDup_Permutation; auto.
  intros k. rewrite Hk1, Hk2. split; intros [v [Hv E]]; exists v; split; auto.
  - eapply Permutation_in; eauto.
  - eapply Permutation_in; [apply Permutation_sym|]; eauto.
Qed.


(** *** What the report prints *)

Lemma print_group_push item st : print_group item st = (tt, push st [] (render_group item)).
Proof.
  destruct item as [k g]. unfold print_group, render_group, bind. cbn [fst snd].
  rewrite print_push.
  assert (H : forall st0,
             for_each g
               (fun v =>
                  print ("    " ++ file_path v ++ ":" ++ str_of_nat (line_number v)) ;;
                  print ("      → " ++ details v)) st0
             = (tt, push st0 []
                      (flat_map
                         (fun v =>
                            [("    " ++ file_path v ++ ":" ++ str_of_nat (line_number v))%string;
                             ("      → " ++ details v)%string]) g))).
  { induction g as [|v g IH]; intros st0; simpl.
    - unfold ret. now rewrite push_nil.
    - unfold bind. rewrite !print_push, IH, !push_push. reflexivity. }
  rewrite H, print_push, !push_push. reflexivity.
Qed.

Lemma print_groups_push items st :
  for_each items print_group st = (tt, push st [] (flat_map render_group items)).
Proof.
  revert st. induction items as [|item items IH]; intros st; simpl.
  - unfold ret. now rewrite push_nil.
  - unfold bind. rewrite print_group_push, IH, push_push. reflexivity.
Qed.

Lemma ends_with_refl {A : Type} (x : list A) : exists h, x = h ++ x.
Proof. now exists []. Qed.

Lemma ends_with_cons {A : Type} (a : A) (l x : list A) :
  (exists h, l = h ++ x) -> exists h, a :: l = h ++ x.
Proof. intros [h ->]. now exists (a :: h). Qed.

Lemma ends_with_app {A : Type} (pre l x : list A) :
  (exists h, l = h ++ x) -> exists h, pre ++ l = pre ++ h ++ x.
Proof. intros [h ->]. now exists h. Qed.

(** A failing report ends with the groups of [report_groups], rendered one
    after the other. *)
Lemma report_violations_groups st :
  gomod_config_valid (self st) && (List.length (violations (self st)) =? 0) = false ->
  exists head,
    stdout (snd (report_violations st))
    = stdout st ++ head ++ flat_map render_group (report_groups (violations (self st))).
Proof.
  intros Hfail. unfold report_violations, bind. cbn [get_self print].
  fold (report_groups (violations (self st))).
  destruct (gomod_config_valid (self st)) eqn:Eg; cbn [print].
  all: destruct (violations (self st)) as [|v vs] eqn:Ev; cbn [print].
  all: cbn [andb List.length Nat.eqb] in Hfail |- *; try discriminate Hfail.
  all: cbn [print ret]; rewrite print_groups_push; cbn [snd push stdout].
  all: rewrite <- !app_assoc; cbn [app]; apply ends_with_app;
    repeat apply ends_with_cons; apply ends_with_refl.
Qed.

(** C5, as the code has it.  The report groups the violations by kind and
    prints the groups sorted by kind; inside a group the entries stay in
    the order in which they were accumulated, they are not sorted by file
    path.  So two scans of the same files in different orders accumulate
    the same violations up to order, and their reports have the same kinds
    in the same order with the same number of entries, and the entries of
    each kind agree up to order. *)
Theorem report_groups_scan_order (fs : FileSystem) (st : St) (files1 files2 : list Path) :
  Permutation files1 files2 ->
  let vs1 := violations (self (snd (for_each files1 (validate_file fs) st))) in
  let vs2 := violations (self (snd (for_each files2 (validate_file fs) st))) in
  Permutation vs1 vs2
  /\ map fst (report_groups vs1) = map fst (report_groups vs2)
  /\ StronglySorted str_le (map fst (report_groups vs1))
  /\ NoDup (map fst (report_groups vs1))
  /\ (forall k g, In (k, g) (report_groups vs1) -> g = filter (kind_is k) vs1)
  /\ (forall k g1 g2,
        In (k, g1) (report_groups vs1) -> In (k, g2) (report_groups vs2) ->
        Permutation g1 g2 /\ List.length g1 = List.length g2).
Proof.
  intros Hp vs1 vs2.
  assert (Hvs : Permutation vs1 vs2).
  { subst vs1 vs2. rewrite !validate_files_push. cbn [snd self push add_violations violations].
    apply Permutation_app_head. now apply Permutation_flat_map. }
  assert (Hgroup : forall vs k g, In (k, g) (report_groups vs) -> g = filter (kind_is k) vs).
  { intros vs k g Hin. unfold report_groups in Hin.
    apply (proj1 (sorted_items_in _ _)) in Hin.
    destruct (group_by_type_grouped vs) as [_ [_ H]]. now apply H. }
  split; [exact Hvs|]. split; [|split; [|split; [|split]]].
  - unfold report_groups. rewrite !sorted_items_keys.
    apply sorted_permutation. now apply group_keys_permutation.
  - unfold report_groups. rewrite sorted_items_keys. apply sorted_sorted.
  - unfold report_groups. rewrite sorted_items_keys.
    eapply Permutation_NoDup; [apply Permutation_sym, sorted_perm|].
    now destruct (group_by_type_grouped vs1) as [H _].
  - apply Hgroup.
  - intros k g1 g2 H1 H2. apply Hgroup in H1. apply Hgroup in H2. subst g1 g2.
    assert (Hf : Permutation (filter (kind_is k) vs1) (filter (kind_is k) vs2))
      by now apply filter_permutation.
    split; [exact Hf | now apply Permutation_length].
Qed.


Lemma report_groups_scan_order_witness :
  let st := state_of (new_guard Samples.walk_ab Samples.root) in
  let a := fst Samples.a_go in
  let b := fst Samples.b_go in
  map fst (report_groups
             (violations (self (snd (for_each [a; b] (validate_file Samples.walk_ab) st)))))
  = map fst (report_groups
               (violations (self (snd (for_each [b; a] (validate_file Samples.walk_ab) st))))).
Proof.
  intros st a b.
  destruct (report_groups_scan_order Samples.walk_ab st [a; b] [b; a]) as [_ [H _]].
  - apply perm_swap.
  - exact H.
Defined.

(** C5 as the claim states it fails: the same tree, with the two files of
    its domain layer met in the two possible orders, gives two different
    reports, because the entries of a kind are printed in scan order. *)
Lemma scan_order_changes_report :
  new_guard Samples.walk_ab Samples.root = new_guard Samples.walk_ba Samples.root
  /\ (forall p, open_read Samples.walk_ab p = open_read Samples.walk_ba p)
  /\ Permutation
       (collect_go_files Samples.walk_ab (new_guard Samples.walk_ab Samples.root))
       (collect_go_files Samples.walk_ba (new_guard Samples.walk_ba Samples.root))
  /\ firstn 3 (skipn 29 (output Samples.walk_ab Samples.root))
     = ["  [TEST_CODE_IN_PRODUCTION] (2 violations)";
        "    /proj/domain/a.go:1";
        "      → Production code cannot import testing package: testing"]
  /\ firstn 3 (skipn 29 (output Samples.walk_ba Samples.root))
     = ["  [TEST_CODE_IN_PRODUCTION] (2 violations)";
        "    /proj/domain/b.go:1";
        "      → Production code cannot import testing package: testing"]
  /\ output Samples.walk_ab Samples.root <> output Samples.walk_ba Samples.root.
Proof.
  split; [vm_compute; reflexivity|].
  split.
  { intros p. unfold Samples.walk_ab, Samples.walk_ba, Samples.tree, open_read,
      Samples.lookup_file. cbn [find fst].
    repeat match goal with
           | |- context [Samples.path_eqb ?a p] => destruct (Samples.path_eqb a p)
           end; reflexivity. }
  split; [vm_compute; apply perm_swap|].
  split; [vm_compute; reflexivity|].
  split; [vm_compute; reflexivity|].
  intros H. apply (f_equal (fun l => nth 30 l EmptyString)) in H.
  vm_compute in H. discriminate H.
Qed.

End Report.

(** ** The import extractor *)

Module Extractor.
Import Text Regex FS Guard Run Views Effects Rules.

(** *** Stripping *)

Lemma append_assoc (a b c : string) : ((a ++ b) ++ c)%string = (a ++ b ++ c)%string.
Proof. induction a as [|x a IH]; simpl; [reflexivity|now rewrite IH]. Qed.

Lemma append_nil_r (a : string) : (a ++ "")%string = a.
Proof. induction a as [|x a IH]; simpl; [reflexivity|now rewrite IH]. Qed.

Lemma append_length (a b : string) :
  String.length (a ++ b) = String.length a + String.length b.
Proof. induction a as [|x a IH]; simpl; [reflexivity|now rewrite IH]. Qed.

Lemma lstrip_by_all p ws s :
  all_chars p ws = true -> lstrip_by p (ws ++ s) = lstrip_by p s.
Proof.
  induction ws as [|c ws IH]; simpl; [reflexivity|].
  intros H. apply andb_prop in H. destruct H as [Hc Hws]. rewrite Hc. now apply IH.
Qed.

Lemma lstrip_by_stops p s : stops p s -> lstrip_by p s = s.
Proof. destruct s as [|c s]; simpl; [reflexivity|]. now intros ->. Qed.

Lemma rstrip_by_all_nil p ws : all_chars p ws = true -> rstrip_by p ws = EmptyString.
Proof.
  induction ws as [|c ws IH]; simpl; [reflexivity|].
  intros H. apply andb_prop in H. destruct H as [Hc Hws]. now rewrite IH, Hc.
Qed.

Lemma rstrip_by_all p s ws :
  all_chars p ws = true -> rstrip_by p (s ++ ws) = rstrip_by p s.
Proof.
  intros H. induction s as [|c s IH]; simpl.
  - now apply rstrip_by_all_nil.
  - now rewrite IH.
Qed.

Lemma rstrip_by_last p s c :
  p c = false -> rstrip_by p (s ++ String c EmptyString) = (s ++ String c EmptyString)%string.
Proof.
  intros Hc. induction s as [|x s IH]; simpl.
  - now rewrite Hc.
  - rewrite IH. destruct s; reflexivity.
Qed.

(** Stripping a text that begins and ends with something else than
    whitespace, put between whitespace, gives the text back. *)
Lemma strip_between lead body c trail :
  all_chars is_space lead = true -> all_chars is_space trail = true ->
  stops is_space (body ++ String c EmptyString) -> is_space c = false ->
  strip (lead ++ (body ++ String c EmptyString) ++ trail)
  = (body ++ String c EmptyString)%string.
Proof.
  intros Hl Ht Hs Hc. unfold strip.
  rewrite lstrip_by_all by assumption.
  rewrite lstrip_by_stops.
  - rewrite rstrip_by_all by assumption. now apply rstrip_by_last.
  - destruct body; simpl in *; assumption.
Qed.

(** *** Greedy repetition *)

Lemma star_greedy {A : Type} p ws rest (k : string -> option A) r :
  all_chars p ws = true -> stops p rest -> k rest = Some r ->
  star p (ws ++ rest) k = Some r.
Proof.
  intros Hws Hstop Hk. induction ws as [|c ws IH]; simpl.
  - destruct rest as [|c rest]; simpl in *; [exact Hk|]. now rewrite Hstop.
  - simpl in Hws. apply andb_prop in Hws. destruct Hws as [Hc Hws].
    rewrite Hc, IH by assumption. reflexivity.
Qed.

Lemma plus_greedy {A : Type} p ws rest (k : string -> option A) r :
  ws <> EmptyString -> all_chars p ws = true -> stops p rest -> k rest = Some r ->
  plus p (ws ++ rest) k = Some r.
Proof.
  intros Hne Hws Hstop Hk. destruct ws as [|c ws]; [congruence|].
  simpl in *. apply andb_prop in Hws. destruct Hws as [Hc Hws].
  rewrite Hc. now apply star_greedy.
Qed.

Lemma plus_stops {A : Type} p s (k : string -> option A) :
  stops p s -> plus p s k = None.
Proof. destruct s as [|c s]; simpl; [reflexivity|]. now intros ->. Qed.

Lemma take_app a b : take (String.length a) (a ++ b) = a.
Proof. induction a as [|x a IH]; simpl; [now destruct b|now rewrite IH]. Qed.

Lemma space_not_word c : is_space c = true -> is_word c = false.
Proof.
  destruct c as [[] [] [] [] [] [] [] []]; vm_compute; congruence.
Qed.

Lemma word_not_space c : is_word c = true -> is_space c = false.
Proof.
  intros H. destruct (is_space c) eqn:E; [|reflexivity].
  apply space_not_word in E. congruence.
Qed.


(** *** The two patterns on the two forms *)

Lemma quoted_path_matches path cap :
  quotable path ->
  rx (seq_of [rquote; RGroup (RPlus not_dquote); rquote; RStar is_space; REnd])
     (dq ++ path ++ dq) cap (fun s' cap' => Some (cap', s'))
  = Some (Some path, EmptyString).
Proof.
  intros [Hne Hall]. cbn [seq_of rx rquote]. unfold dq.
  cbn [String.append strip_prefix]. rewrite Ascii.eqb_refl.
  apply plus_greedy; auto.
  - reflexivity.
  - cbn [strip_prefix]. rewrite Ascii.eqb_refl. cbn [star at_end String.eqb orb].
    rewrite append_length. cbn [String.length].
    replace (String.length path + 1 - 1) with (String.length path) by lia.
    now rewrite take_app.
Qed.

Lemma import_spec_matches alias path cap :
  alias_ok alias -> quotable path ->
  rx spec_re (import_spec alias path) cap (fun s' cap' => Some (cap', s'))
  = Some (Some path, EmptyString).
Proof.
  intros Ha Hp. unfold spec_re.
  change (seq_of [ROpt (RSeq (RPlus is_word) (RPlus is_space));
                  rquote; RGroup (RPlus not_dquote); rquote; RStar is_space; REnd])
    with (RSeq (ROpt (RSeq (RPlus is_word) (RPlus is_space)))
               (seq_of [rquote; RGroup (RPlus not_dquote); rquote; RStar is_space; REnd])).
  cbn [rx].
  destruct alias as [[a ws]|]; cbn [import_spec].
  - destruct Ha as [[Hane Haall] [Hwne Hwall]].
    erewrite plus_greedy; [reflexivity| assumption | assumption | | ].
    + destruct ws as [|c ws]; [congruence|]. cbn [String.append stops].
      simpl in Hwall. apply andb_prop in Hwall. now apply space_not_word.
    + apply plus_greedy; auto.
      * reflexivity.
      * now apply quoted_path_matches.
  - rewrite plus_stops by reflexivity. now apply quoted_path_matches.
Qed.

Lemma import_spec_stops_space alias path :
  alias_ok alias -> stops is_space (import_spec alias path).
Proof.
  destruct alias as [[a ws]|]; cbn [import_spec alias_ok].
  - intros [[Hane Haall] _]. destruct a as [|c a]; [congruence|].
    cbn [String.append stops]. simpl in Haall. apply andb_prop in Haall.
    now apply word_not_space.
  - intros _. reflexivity.
Qed.

(** The pattern of a block line finds the path of a stripped block line. *)
Lemma block_line_matches alias path :
  alias_ok alias -> quotable path ->
  match_group1 block_line_re (import_spec alias path) = Some path.
Proof.
  intros Ha Hp. unfold match_group1, re_match, block_line_re.
  change (seq_of [RStar is_space; ROpt (RSeq (RPlus is_word) (RPlus is_space));
                  rquote; RGroup (RPlus not_dquote); rquote; RStar is_space; REnd])
    with (RSeq (RStar is_space) spec_re).
  cbn [rx].
  rewrite (star_greedy is_space EmptyString (import_spec alias path) _
             (Some path, EmptyString)); auto.
  - now apply import_spec_stops_space.
  - now apply import_spec_matches.
Qed.

(** The pattern of a single-line import finds the path of a stripped
    single-line import. *)
Lemma import_line_matches ws alias path :
  blank ws -> alias_ok alias -> quotable path ->
  match_group1 import_line_re ("import" ++ ws ++ import_spec alias path) = Some path.
Proof.
  intros [Hwne Hwall] Ha Hp. unfold match_group1, re_match, import_line_re.
  change (seq_of [RStar is_space; RLit "import"; RPlus is_space;
                  ROpt (RSeq (RPlus is_word) (RPlus is_space));
                  rquote; RGroup (RPlus not_dquote); rquote; RStar is_space; REnd])
    with (RSeq (RStar is_space) (RSeq (RLit "import") (RSeq (RPlus is_space) spec_re))).
  cbn [rx]. cbn [String.append star]. 
  change (is_space "i") with false. cbn iota.
  cbn [strip_prefix Ascii.eqb Bool.eqb]. 
  rewrite (plus_greedy is_space ws (import_spec alias path) _ (Some path, EmptyString)); auto.
  - now apply import_spec_stops_space.
  - now apply import_spec_matches.
Qed.


(** *** The tests on the stripped line *)

Lemma all_chars_app q a b : all_chars q (a ++ b) = all_chars q a && all_chars q b.
Proof. induction a as [|x a IH]; simpl; [reflexivity|]. now rewrite IH, andb_assoc. Qed.

Lemma all_chars_weaken (q q' : ascii -> bool) s :
  (forall c, q c = true -> q' c = true) -> all_chars q s = true -> all_chars q' s = true.
Proof.
  intros Hq. induction s as [|c s IH]; simpl; [reflexivity|].
  intros H. apply andb_prop in H. destruct H as [Hc Hs]. now rewrite (Hq c Hc), IH.
Qed.

(** A text [p] that has a character outside the class [q] and no
    character [d] is not a prefix of a text made of characters of [q]
    followed by [d]. *)
Lemma prefix_blocked q d p : forall u rest,
  all_chars q u = true -> all_chars q p = false -> all_chars (other_than d) p = true ->
  String.prefix p (u ++ String d rest) = false.
Proof.
  induction p as [|c p IH]; intros u rest Hu Hp Hd; [discriminate Hp|].
  simpl in Hp, Hd. apply andb_prop in Hd. destruct Hd as [Hcd Hd].
  destruct u as [|x u]; simpl.
  - destruct (ascii_dec c d) as [E|E]; [|reflexivity].
    subst. unfold other_than in Hcd. now rewrite Ascii.eqb_refl in Hcd.
  - simpl in Hu. apply andb_prop in Hu. destruct Hu as [Hx Hu].
    destruct (ascii_dec c x) as [E|E]; [|reflexivity].
    subst. rewrite Hx in Hp. simpl in Hp. now apply IH.
Qed.

(** Up to the opening quote, an import has word characters and
    whitespace only. *)
Lemma import_spec_split alias path :
  alias_ok alias ->
  exists u, all_chars word_or_space u = true
            /\ import_spec alias path = (u ++ String dquote (path ++ dq))%string.
Proof.
  destruct alias as [[a ws]|]; cbn [import_spec alias_ok].
  - intros [[_ Ha] [_ Hw]]. exists (a ++ ws)%string. split.
    + rewrite all_chars_app. apply andb_true_intro. split.
      * eapply all_chars_weaken; [|exact Ha]. intros c Hc. unfold word_or_space. now rewrite Hc.
      * eapply all_chars_weaken; [|exact Hw]. intros c Hc. unfold word_or_space.
        rewrite Hc. apply orb_true_r.
    + now rewrite append_assoc.
  - intros _. exists EmptyString. split; reflexivity.
Qed.

Lemma import_spec_ends alias path :
  exists body, import_spec alias path = (body ++ String dquote EmptyString)%string.
Proof.
  destruct alias as [[a ws]|]; cbn [import_spec]; unfold dq.
  - exists (a ++ ws ++ String dquote path)%string. now rewrite !append_assoc.
  - exists (String dquote path). reflexivity.
Qed.

Lemma block_line_not_opening alias path :
  alias_ok alias -> startswith (import_spec alias path) "import (" = false.
Proof.
  intros Ha. destruct (import_spec_split alias path Ha) as [u [Hu ->]].
  unfold startswith. now apply prefix_blocked with (q := word_or_space).
Qed.

Lemma block_line_not_closing alias path :
  alias_ok alias -> String.eqb (import_spec alias path) ")" = false.
Proof.
  intros Ha. apply String.eqb_neq. intros E.
  destruct (import_spec_split alias path Ha) as [u [Hu Hs]].
  assert (H : String.prefix ")" (import_spec alias path) = true) by now rewrite E.
  rewrite Hs in H.
  rewrite (prefix_blocked word_or_space dquote ")" u _ Hu) in H by reflexivity.
  discriminate.
Qed.

Lemma import_line_not_opening ws alias path :
  blank ws -> alias_ok alias ->
  startswith ("import" ++ ws ++ import_spec alias path) "import (" = false.
Proof.
  intros [_ Hw] Ha. destruct (import_spec_split alias path Ha) as [u [Hu ->]].
  unfold startswith.
  replace ("import" ++ ws ++ u ++ String dquote (path ++ dq))%string
    with (("import" ++ ws ++ u) ++ String dquote (path ++ dq))%string
    by (now rewrite !append_assoc).
  apply prefix_blocked with (q := word_or_space); try reflexivity.
  rewrite !all_chars_app. rewrite Hu, andb_true_r.
  apply andb_true_intro. split; [reflexivity|].
  eapply all_chars_weaken; [|exact Hw]. intros c Hc. unfold word_or_space.
  rewrite Hc. apply orb_true_r.
Qed.

(** *** Stripping the two forms *)

Lemma strip_block_import lead alias path trail :
  all_chars is_space lead = true -> all_chars is_space trail = true -> alias_ok alias ->
  strip (block_import lead alias path trail) = import_spec alias path.
Proof.
  intros Hl Ht Ha. unfold block_import.
  pose proof (import_spec_stops_space alias path Ha) as Hs.
  destruct (import_spec_ends alias path) as [body E]. rewrite E in *.
  now apply strip_between.
Qed.

Lemma strip_single_line_import lead ws alias path trail :
  all_chars is_space lead = true -> all_chars is_space trail = true -> alias_ok alias ->
  strip (single_line_import lead ws alias path trail)
  = ("import" ++ ws ++ import_spec alias path)%string.
Proof.
  intros Hl Ht Ha. unfold single_line_import.
  destruct (import_spec_ends alias path) as [body E]. rewrite E.
  replace (lead ++ "import" ++ ws ++ (body ++ String dquote "") ++ trail)%string
    with (lead ++ (("import" ++ ws ++ body) ++ String dquote "") ++ trail)%string
    by (now rewrite !append_assoc).
  replace ("import" ++ ws ++ body ++ String dquote "")%string
    with (("import" ++ ws ++ body) ++ String dquote "")%string
    by (now rewrite !append_assoc).
  apply strip_between; auto; reflexivity.
Qed.

(** *** The loop over the lines *)

Lemma scan_lines_app pre : forall rest k b,
  scan_lines (pre ++ rest) k b
  = scan_lines pre k b ++ scan_lines rest (k + List.length pre) (block_state pre b).
Proof.
  induction pre as [|line pre IH]; intros rest k b; simpl.
  - now rewrite Nat.add_0_r.
  - replace (k + S (List.length pre)) with (S k + List.length pre) by lia.
    destruct (startswith (strip line) "import ("); [apply IH|].
    destruct b.
    + destruct (String.eqb (strip line) ")"); [apply IH|].
      destruct (match_group1 block_line_re (strip line)); simpl; now rewrite IH.
    + destruct (match_group1 import_line_re (strip line)); simpl; now rewrite IH.
Qed.

(** C9, as the code has it.  The extractor yields the record of a line,
    with the line's number and the quoted path, when the line, stripped of
    the whitespace around it, is the keyword import, whitespace, an
    optional alias of word characters followed by whitespace, and a
    non-empty path between double quotes with nothing after the closing
    quote, and the line is outside an import block; and when the line,
    stripped, is an optional alias of word characters followed by
    whitespace and a non-empty path between double quotes with nothing
    after the closing quote, and the line is inside an import block, that
    is after a line that begins with the keyword import, one space and an
    opening parenthesis, and before the next line that is a closing
    parenthesis. *)
Theorem extractor_recognises (fs : FileSystem) (file : Path) (st : St)
    (pre post : list string) (lead ws trail : string)
    (alias : option (string * string)) (path : string) :
  all_chars is_space lead = true -> all_chars is_space trail = true ->
  alias_ok alias -> quotable path ->
  (blank ws -> block_state pre false = false ->
   open_read fs file = ReadOk (pre ++ single_line_import lead ws alias path trail :: post) ->
   In (S (List.length pre), path) (fst (_extract_imports fs file st)))
  /\ (block_state pre false = true ->
      open_read fs file = ReadOk (pre ++ block_import lead alias path trail :: post) ->
      In (S (List.length pre), path) (fst (_extract_imports fs file st))).
Proof.
  intros Hl Ht Ha Hp. split.
  - intros Hw Hb Hr. unfold _extract_imports. rewrite Hr. cbn [ret fst].
    rewrite scan_lines_app, Hb. apply in_or_app. right. cbn [scan_lines].
    rewrite strip_single_line_import by assumption.
    rewrite import_line_not_opening, import_line_matches by assumption.
    left. reflexivity.
  - intros Hb Hr. unfold _extract_imports. rewrite Hr. cbn [ret fst].
    rewrite scan_lines_app, Hb. apply in_or_app. right. cbn [scan_lines].
    rewrite strip_block_import by assumption.
    rewrite block_line_not_opening, block_line_not_closing, block_line_matches by assumption.
    left. reflexivity.
Qed.


Lemma extractor_recognises_witness :
  In (6, "example.com/app/domain/entity")
     (fst (_extract_imports Samples.project (fst Samples.handler_go) start))
  /\ In (2, "example.com/app/bootstrap/wire")
        (fst (_extract_imports Samples.project (fst Samples.db_go) start)).
Proof.
  split.
  - destruct (extractor_recognises Samples.project (fst Samples.handler_go) start
                [Samples.ln "package handler"; nl; Samples.ln "import (";
                 Samples.block_line "fmt";
                 Samples.block_line "example.com/app/application/usecase"]
                [Samples.block_line "example.com/app/presentation/view"; Samples.ln ")"]
                Samples.tab " " nl None "example.com/app/domain/entity")
      as [_ H];
      try reflexivity; try exact I; try (split; [discriminate|reflexivity]).
    apply H; vm_compute; reflexivity.
  - destruct (extractor_recognises Samples.project (fst Samples.db_go) start
                [Samples.ln "package db"]
                [Samples.import_line "example.com/app/domain/entity"]
                EmptyString " " nl None "example.com/app/bootstrap/wire")
      as [H _];
      try reflexivity; try exact I; try (split; [discriminate|reflexivity]).
    apply H; [split; [discriminate|reflexivity] | reflexivity | vm_compute; reflexivity].
Defined.

(** C9 as the claim states it fails: Go accepts a dot import, a comment or
    a semicolon after an import, a block on one line and a block opened
    without a space, and the extractor yields no record for them; a
    presentation file that imports the domain layer with a dot import
    passes the whole check. *)
Lemma grammar_forms_missed :
  scan_lines [Samples.dot_import] 1 false = []
  /\ scan_lines [Samples.commented_import] 1 false = []
  /\ scan_lines [Samples.semicolon_import] 1 false = []
  /\ scan_lines [Samples.one_line_block] 1 false = []
  /\ scan_lines Samples.tight_block 1 false = []
  /\ scan_lines Samples.commented_block 1 false = []
  /\ fst (_extract_imports Samples.dot_tree (fst Samples.dot_handler_go) start) = []
  /\ violations (final_guard Samples.dot_tree Samples.root) = []
  /\ exit_code Samples.dot_tree Samples.root = 0.
Proof. vm_compute. repeat split. Qed.

End Extractor.

(** * Further properties of the guard *)

(** ** The rule cascade and the table *)

Module Cascade.
Import Text Regex FS Guard Run Views Effects Rules.

Lemma get_layer_is_layer g p dep :
  _get_layer_from_import g p = Some dep -> is_layer dep = true.
Proof.
  unfold _get_layer_from_import.
  destruct (negb (startswith p (module_path g))); [discriminate|].
  destruct (split "/" _) as [|p0 ps]; [discriminate|].
  destruct (is_layer p0) eqn:E; [|discriminate]. congruence.
Qed.

Lemma is_layer_cases L :
  is_layer L = true ->
  L = "domain" \/ L = "application" \/ L = "infrastructure"
  \/ L = "presentation" \/ L = "bootstrap".
Proof.
  unfold is_layer, mem. rewrite existsb_exists. simpl.
  intros [x [Hx E]]. apply String.eqb_eq in E. subst x.
  destruct Hx as [H|[H|[H|[H|[H|[]]]]]]; symmetry in H; tauto.
Qed.

(** A string is one of the five layer names or none of them. *)
Lemma layer_or_other cur :
  is_layer cur = true
  \/ (allowed_deps_of cur = []
      /\ String.eqb cur "presentation" = false
      /\ String.eqb cur "infrastructure" = false
      /\ forall dep, is_layer dep = true -> String.eqb dep cur = false).
Proof.
  destruct (is_layer cur) eqn:E; [now left|right].
  unfold is_layer, mem, LAYER_RULES in E. cbn [map fst existsb] in E.
  repeat (apply orb_false_elim in E; destruct E as [? E]).
  split; [|split; [|split]].
  - unfold allowed_deps_of, LAYER_RULES. cbn [find fst].
    rewrite !(String.eqb_sym _ cur).
    repeat match goal with H : String.eqb cur _ = false |- _ => rewrite H; clear H end.
    reflexivity.
  - assumption.
  - assumption.
  - intros dep Hd. apply is_layer_cases in Hd. rewrite String.eqb_sym.
    destruct Hd as [-> | [-> | [-> | [-> | ->]]]]; assumption.
Qed.

(** X1.  Whether the cascade flags an import is decided by the table
    alone: an import whose target is a present layer is flagged exactly
    when the target is another layer than the file's and is not among the
    allowed dependencies of the file's layer.  The special rules for
    bootstrap, for the lateral pair and for presentation and domain change
    the kind of the violation, never whether there is one. *)
Theorem cascade_agrees_with_table (g : ArchitectureGuard) (file : Path) (cur : string)
    (line : nat) (import_path dep : string) :
  _get_layer_from_import g import_path = Some dep ->
  mem dep (layers_present g) = true ->
  (check_import g file cur (allowed_deps_of cur) (line, import_path) = None
   <-> dep = cur \/ mem dep (allowed_deps_of cur) = true).
Proof.
  intros Hd Hm. pose proof (get_layer_is_layer _ _ _ Hd) as Hl.
  unfold check_import. rewrite Hd, Hm. cbn [negb].
  destruct (layer_or_other cur) as [Hc|[Ha [Hp [Hi Hne]]]].
  - apply is_layer_cases in Hc. apply is_layer_cases in Hl.
    destruct Hc as [-> | [-> | [-> | [-> | ->]]]];
      destruct Hl as [-> | [-> | [-> | [-> | ->]]]];
      vm_compute; split; intros H;
      solve [ discriminate H | reflexivity | left; reflexivity | right; reflexivity
            | destruct H as [H|H]; discriminate H ].
  - rewrite Ha, (Hne dep Hl), Hp, Hi. cbn [andb mem existsb negb].
    split.
    + destruct (String.eqb dep FORBIDDEN_DEPENDENCY); discriminate.
    + intros [H|H]; [|discriminate H].
      subst. specialize (Hne cur Hl). now rewrite String.eqb_refl in Hne.
Qed.

Lemma cascade_agrees_with_table_witness :
  check_import Samples.project_guard (fst Samples.db_go) "infrastructure"
    (allowed_deps_of "infrastructure") (3, "example.com/app/domain/entity") = None.
Proof.
  apply (cascade_agrees_with_table Samples.project_guard (fst Samples.db_go)
           "infrastructure" 3 "example.com/app/domain/entity" "domain");
    [vm_compute; reflexivity | vm_compute; reflexivity | right; reflexivity].
Defined.


(** X2.  A presentation file that imports the infrastructure layer, and an
    infrastructure file that imports the presentation layer, both layers
    being present, get exactly one violation at the line of the import,
    of kind FORBIDDEN_LATERAL_DEPENDENCY; its text names the two layers in
    the order of the dependency. *)
Theorem lateral_dependency_forbidden (fs : FileSystem) (st : St) (file : Path)
    (cur dep : string) (line : nat) (import_path : string) :
  (cur = "presentation" /\ dep = "infrastructure")
  \/ (cur = "infrastructure" /\ dep = "presentation") ->
  _get_file_layer (self st) file = Some cur ->
  mem cur (layers_present (self st)) = true ->
  mem dep (layers_present (self st)) = true ->
  In (line, import_path) (fst (_extract_imports fs file st)) ->
  _get_layer_from_import (self st) import_path = Some dep ->
  exists v new,
    violations (self (snd (validate_file fs file st))) = violations (self st) ++ new
    /\ filter (fun w => line_number w =? line) new = [v]
    /\ violation_type v = "FORBIDDEN_LATERAL_DEPENDENCY"
    /\ file_path v = path_str file
    /\ line_number v = line
    /\ details v
       = ((if String.eqb cur "presentation"
           then "Presentation cannot depend on Infrastructure (import: "
           else "Infrastructure cannot depend on Presentation (import: ")
          ++ import_path ++ ")")%string.
Proof.
  intros Hpair Hcur Hpres Hdep Hin Hd.
  rewrite extract_imports_push in Hin. cbn [fst] in Hin.
  pose proof (checked_layer_some _ _ _ Hcur Hpres) as Hc.
  assert (Hv : exists v,
             check_import (self st) file cur (allowed_deps_of cur) (line, import_path) = Some v
             /\ violation_type v = "FORBIDDEN_LATERAL_DEPENDENCY"
             /\ file_path v = path_str file /\ line_number v = line
             /\ details v
                = ((if String.eqb cur "presentation"
                    then "Presentation cannot depend on Infrastructure (import: "
                    else "Infrastructure cannot depend on Presentation (import: ")
                   ++ import_path ++ ")")%string).
  { unfold check_import. rewrite Hd, Hdep.
    destruct Hpair as [[-> ->]|[-> ->]]; eexists; (split; [reflexivity|]); repeat split. }
  destruct Hv as [v [Hv [Hk [Hf [Hl Hdet]]]]].
  exists v, (file_violations fs (self st) file).
  rewrite validate_file_push. cbn [snd self push add_violations violations].
  split; [reflexivity|]. split.
  - rewrite (LayerRules.file_violations_at_line _ _ _ _ _ _ _ Hc Hin Hd), Hv. reflexivity.
  - repeat (split; [assumption|]). assumption.
Qed.

Lemma lateral_dependency_forbidden_witness :
  exists v,
    filter (fun w => line_number w =? 2)
      (violations (self (snd (validate_file Samples.lateral_tree (fst Samples.view_go)
                                (state_of Samples.lateral_guard)))))
    = [v]
    /\ violation_type v = "FORBIDDEN_LATERAL_DEPENDENCY".
Proof.
  destruct (lateral_dependency_forbidden Samples.lateral_tree
              (state_of Samples.lateral_guard)
              (fst Samples.view_go) "presentation" "infrastructure" 2
              "example.com/app/infrastructure/db")
    as [v [new [E [Hone [Hk _]]]]];
    try (vm_compute; auto 10; fail).
  exists v. rewrite E. split; [exact Hone | exact Hk].
Defined.

(** X3.  An import of a package outside the module, other than the testing
    package, and an import of a layer that has no directory in the tree,
    are never flagged: [validate_file] appends no violation at their
    line, whatever the layer of the file and whatever the layer named,
    bootstrap included. *)
Theorem unclassified_import_silent (fs : FileSystem) (st : St) (file : Path)
    (line : nat) (import_path : string) :
  In (line, import_path) (fst (_extract_imports fs file st)) ->
  (_get_layer_from_import (self st) import_path = None /\ import_path <> "testing")
  \/ (exists dep, _get_layer_from_import (self st) import_path = Some dep
                  /\ mem dep (layers_present (self st)) = false) ->
  exists new,
    violations (self (snd (validate_file fs file st))) = violations (self st) ++ new
    /\ forall w, In w new -> line_number w <> line.
Proof.
  intros Hin Hcase. rewrite extract_imports_push in Hin. cbn [fst] in Hin.
  exists (file_violations fs (self st) file).
  rewrite validate_file_push. cbn [snd self push add_violations violations].
  split; [reflexivity|].
  assert (Hnone : forall cur allowed,
             check_import (self st) file cur allowed (line, import_path) = None).
  { intros cur allowed. unfold check_import.
    destruct Hcase as [[Hd _]|[dep [Hd Hm]]]; rewrite Hd; [reflexivity|].
    now rewrite Hm. }
  assert (Hnt : import_path <> "testing").
  { destruct Hcase as [[_ H]|[dep [Hd _]]]; [exact H|].
    now apply layer_import_not_testing in Hd. }
  intros w Hw Hl. apply file_violations_inv in Hw.
  destruct Hw as [[_ [[n' p'] [Hi' Hw]]] | [cur' [[n' p'] [Hc' [Hi' Hw]]]]].
  - apply test_import_violation_inv in Hw. destruct Hw as [Hp [Hn _]].
    assert (E : n' = line) by congruence. rewrite E in Hi'.
    pose proof (imports_unique _ _ _ _ _ Hi' Hin) as Ep. congruence.
  - pose proof (LayerRules.check_import_line _ _ _ _ _ _ _ Hw) as Hn.
    assert (E : n' = line) by congruence. rewrite E in Hi', Hw.
    pose proof (imports_unique _ _ _ _ _ Hi' Hin) as Ep. rewrite Ep in Hw.
    rewrite Hnone in Hw. discriminate.
Qed.

Lemma unclassified_import_silent_witness :
  exists new,
    violations (self (snd (validate_file Samples.lateral_tree (fst Samples.view_go)
                             (state_of Samples.lateral_guard))))
    = violations (self (state_of Samples.lateral_guard)) ++ new
    /\ forall w, In w new -> line_number w <> 3.
Proof.
  apply (unclassified_import_silent Samples.lateral_tree (state_of Samples.lateral_guard)
           (fst Samples.view_go) 3 "example.com/app/bootstrap/wire").
  - vm_compute. auto 10.
  - right. exists "bootstrap". split; vm_compute; reflexivity.
Defined.

End Cascade.

(** ** Classifying import paths and files *)

Module Classification.
Import Text Regex FS Guard Run Views Effects Rules.

Lemma prefix_app m x : String.prefix m (m ++ x) = true.
Proof.
  induction m as [|c m IH]; simpl; [now destruct x|].
  destruct (ascii_dec c c) as [_|N]; [exact IH|congruence].
Qed.

Lemma drop_app m x : drop (String.length m) (m ++ x) = x.
Proof. induction m as [|c m IH]; simpl; [now destruct x|exact IH]. Qed.

Lemma lstrip_slashes k y : lstrip_slash (repeat_char "/" k ++ y) = lstrip_slash y.
Proof. induction k as [|k IH]; simpl; [reflexivity|exact IH]. Qed.

(** X4.  An import path made of the module path, any number of slashes,
    none included, and a layer name, alone or followed by a slash and
    more, is classified as that layer; so the module path counts as a
    prefix even where it does not end a path segment.  Conversely the
    classification only ever answers with a key of the table, and only
    for a path that starts with the module path. *)
Theorem import_path_classified (g : ArchitectureGuard) (L : string) (k : nat)
    (rest : string) :
  is_layer L = true ->
  _get_layer_from_import g (module_path g ++ repeat_char "/" k ++ L) = Some L
  /\ _get_layer_from_import g (module_path g ++ repeat_char "/" k ++ L ++ "/" ++ rest)
     = Some L
  /\ (forall p dep,
        _get_layer_from_import g p = Some dep ->
        is_layer dep = true /\ startswith p (module_path g) = true).
Proof.
  intros HL. split; [|split].
  - unfold _get_layer_from_import, startswith.
    rewrite prefix_app, drop_app, lstrip_slashes. cbn [negb].
    apply Cascade.is_layer_cases in HL.
    destruct HL as [-> | [-> | [-> | [-> | ->]]]]; reflexivity.
  - unfold _get_layer_from_import, startswith.
    rewrite prefix_app, drop_app, lstrip_slashes. cbn [negb].
    apply Cascade.is_layer_cases in HL.
    destruct HL as [-> | [-> | [-> | [-> | ->]]]]; reflexivity.
  - intros p dep H. split; [now apply (Cascade.get_layer_is_layer g p)|].
    unfold _get_layer_from_import in H.
    destruct (startswith p (module_path g)); [reflexivity|discriminate].
Qed.

Lemma import_path_classified_witness :
  _get_layer_from_import Samples.app_guard
    (module_path Samples.app_guard ++ repeat_char "/" 0 ++ "domain" ++ "/" ++ "entity")
  = Some "domain"
  /\ _get_layer_from_import Samples.app_guard
       (module_path Samples.app_guard ++ repeat_char "/" 2 ++ "domain")
     = Some "domain".
Proof.
  destruct (import_path_classified Samples.app_guard "domain" 0 "entity") as [_ [H0 _]];
    [vm_compute; reflexivity|].
  destruct (import_path_classified Samples.app_guard "domain" 2 "entity") as [H2 _];
    [vm_compute; reflexivity|].
  split; [exact H0 | exact H2].
Defined.

End Classification.

(** ** Constructing the guard *)

Module Construction.
Import Text Regex FS Guard Run Views Effects Rules.

Lemma mem_false_not_in x l : mem x l = false -> ~ In x l.
Proof.
  unfold mem. intros H Hin.
  assert (E : existsb (String.eqb x) l = true).
  { apply existsb_exists. exists x. now rewrite String.eqb_refl. }
  congruence.
Qed.

Lemma not_in_mem_false x l : ~ In x l -> mem x l = false.
Proof.
  unfold mem. intros H. apply not_true_is_false. intros E.
  apply existsb_exists in E. destruct E as [y [Hy E]].
  apply String.eqb_eq in E. now subst.
Qed.

Lemma mem_true_in x l : mem x l = true <-> In x l.
Proof.
  unfold mem. rewrite existsb_exists. split.
  - intros [y [Hy E]]. apply String.eqb_eq in E. now subst.
  - intros H. exists x. now rewrite String.eqb_refl.
Qed.

(** The loop of [_detect_layers] keeps the layers whose directory is
    present, in the order of the loop. *)
Lemma detect_loop fs root l : forall acc st,
  NoDup l -> (forall x, In x l -> ~ In x acc) ->
  fst (fold_each l acc
         (fun layer layers =>
            let layer_dir := child root layer in
            if path_exists fs layer_dir && is_dir fs layer_dir then
              print ("  ✓ " ++ ljust15 layer ++ " - present") ;;
              ret (set_add layer layers)
            else
              print ("  ○ " ++ ljust15 layer ++ " - not present (skipped)") ;;
              ret layers) st)
  = acc ++ filter (layer_dir_present fs root) l.
Proof.
  induction l as [|x l IH]; intros acc st Hnd Hfresh; simpl.
  - now rewrite app_nil_r.
  - inversion Hnd as [|? ? Hx Hnd']; subst.
    unfold bind at 1. unfold layer_dir_present at 1.
    destruct (path_exists fs (child root x) && is_dir fs (child root x));
      unfold bind at 1; cbn [print ret].
    + rewrite IH; auto.
      * unfold set_add. rewrite not_in_mem_false by (apply Hfresh; now left).
        now rewrite <- app_assoc.
      * intros y Hy. unfold set_add.
        rewrite not_in_mem_false by (apply Hfresh; now left).
        rewrite in_app_iff. intros [H|[H|[]]].
        -- apply (Hfresh y); [now right|exact H].
        -- subst. contradiction.
    + rewrite IH; auto. intros y Hy. apply Hfresh. now right.
Qed.

Lemma detect_layers_result fs st :
  fst (_detect_layers fs st)
  = if path_exists fs (project_root (self st))
    then filter (layer_dir_present fs (project_root (self st))) sorted_layers
    else [].
Proof.
  unfold _detect_layers, bind at 1. cbn [get_self].
  destruct (path_exists fs (project_root (self st))); cbn [negb].
  - unfold bind at 1. cbn [print].
    change (sorted (map fst LAYER_RULES)) with sorted_layers.
    rewrite detect_loop; [reflexivity| |intros x _ []].
    unfold sorted_layers.
    repeat (constructor; [simpl; intros H; repeat (destruct H as [H|H]; [discriminate H|]); exact H|]).
    constructor.
  - reflexivity.
Qed.

(** The fields of a constructed guard. *)
Lemma new_guard_fields fs root :
  exists s0 s1,
    project_root (self s0) = root /\ project_root (self s1) = root
    /\ new_guard fs root
       = {| project_root := root;
            violations := [];
            layers_present := fst (_detect_layers fs s0);
            gomod_config_valid := false;
            module_path := fst (_get_module_path fs s1) |}.
Proof.
  unfold new_guard, __init__, bind at 1.
  cbn [modify_self].
  unfold bind at 1.
  match goal with
  | |- context [_detect_layers fs ?s] =>
      exists s; pose proof (keeps_detect_layers fs s) as Hk;
      destruct (_detect_layers fs s) as [layers s1]
  end.
  cbn [snd self fst] in *.
  unfold bind at 1. cbn [set_layers_present modify_self].
  unfold bind at 1. cbn [set_gomod_config_valid modify_self].
  unfold bind at 1.
  match goal with
  | |- context [_get_module_path fs ?s] =>
      exists s; pose proof (keeps_get_module_path fs s) as Hm;
      destruct (_get_module_path fs s) as [m s2]
  end.
  cbn [snd self fst] in *. cbn [set_module_path modify_self snd self project_root].
  rewrite Hm, Hk. cbn [project_root violations layers_present gomod_config_valid].
  repeat split.
Qed.

Lemma new_guard_root fs root : project_root (new_guard fs root) = root.
Proof. destruct (new_guard_fields fs root) as [s0 [s1 [_ [_ ->]]]]. reflexivity. Qed.

Lemma new_guard_gomod fs root : gomod_config_valid (new_guard fs root) = false.
Proof. destruct (new_guard_fields fs root) as [s0 [s1 [_ [_ ->]]]]. reflexivity. Qed.

Lemma new_guard_detected fs root :
  layers_present (new_guard fs root)
  = if path_exists fs root then filter (layer_dir_present fs root) sorted_layers else [].
Proof.
  destruct (new_guard_fields fs root) as [s0 [s1 [H0 [_ ->]]]].
  cbn [layers_present]. now rewrite detect_layers_result, H0.
Qed.

(** X5.  A name is among the layers a constructed guard holds as present
    exactly when the project root exists, the name is a key of LAYER_RULES
    and a directory of that name exists below the project root.  In
    particular no layer is present when the project root does not exist. *)
Theorem detected_layers (fs : FileSystem) (root : Path) (layer : string) :
  In layer (layers_present (new_guard fs root)) <->
  path_exists fs root = true /\ is_layer layer = true
  /\ path_exists fs (child root layer) = true /\ is_dir fs (child root layer) = true.
Proof.
  rewrite new_guard_detected. destruct (path_exists fs root).
  - rewrite filter_In. unfold layer_dir_present. rewrite andb_true_iff. split.
    + intros [Hin [H1 H2]]. repeat split; auto.
      unfold sorted_layers in Hin. simpl in Hin.
      repeat (destruct Hin as [Hin|Hin]; [subst; reflexivity|]). contradiction.
    + intros [_ [Hl [H1 H2]]]. split; [|auto].
      apply Cascade.is_layer_cases in Hl. unfold sorted_layers.
      destruct Hl as [-> | [-> | [-> | [-> | ->]]]]; simpl; tauto.
  - simpl. split; [tauto|]. intros [H _]. discriminate.
Qed.

Lemma detected_layers_witness :
  In "presentation" (layers_present (new_guard Samples.lateral_tree Samples.root))
  /\ is_dir Samples.lateral_tree (child Samples.root "presentation") = true.
Proof.
  assert (Hin : In "presentation"
                  (layers_present (new_guard Samples.lateral_tree Samples.root)))
    by (vm_compute; auto).
  split; [exact Hin|].
  exact (proj2 (proj2 (proj2
           (proj1 (detected_layers Samples.lateral_tree Samples.root "presentation") Hin)))).
Defined.

End Construction.

(** ** The files a run scans *)

Module Scan.
Import Text Regex FS Guard Run Views Effects Rules.

Lemma insert_by_rank_in rank x y l : In x (insert_by_rank rank y l) <-> x = y \/ In x l.
Proof.
  induction l as [|z l IH]; simpl.
  - intuition.
  - destruct (rank y <? rank z); simpl; rewrite ?IH; intuition.
Qed.

Lemma set_iter_in fs x l : In x (set_iter fs l) <-> In x l.
Proof.
  unfold set_iter. induction l as [|y l IH]; simpl; [tauto|].
  rewrite insert_by_rank_in, IH. intuition.
Qed.

Lemma relative_to_app root : forall rel, relative_to (root ++ rel) root = Some rel.
Proof.
  induction root as [|r root IH]; intros rel; simpl.
  - now destruct rel.
  - now rewrite String.eqb_refl.
Qed.

Lemma mem_app x a b : mem x (a ++ b) = mem x a || mem x b.
Proof. unfold mem. apply existsb_app. Qed.

(** The files of the list [go_files] of [validate_all]. *)
Lemma collect_go_files_in fs g file :
  In file (collect_go_files fs g) <->
  exists L rel,
    In L (layers_present g)
    /\ In rel (rglob_go fs (child (project_root g) L))
    /\ file = project_root g ++ L :: rel
    /\ mem "vendor" file = false.
Proof.
  unfold collect_go_files. rewrite in_flat_map. split.
  - intros [L [HL Hf]]. apply set_iter_in in HL.
    apply filter_In in Hf. destruct Hf as [Hf Hv].
    apply in_map_iff in Hf. destruct Hf as [rel [E Hrel]].
    exists L, rel. unfold child in *. rewrite <- app_assoc in E. simpl in E.
    repeat split; auto. now destruct (mem "vendor" file).
  - intros [L [rel [HL [Hrel [E Hv]]]]]. exists L. split; [now apply set_iter_in|].
    apply filter_In. split.
    + apply in_map_iff. exists rel. split; [|exact Hrel].
      unfold child. rewrite <- app_assoc. simpl. now symmetry.
    + now rewrite Hv.
Qed.

(** X6.  Every file a run scans lies below the directory of a present
    layer, is classified by [_get_file_layer] as a file of that layer,
    and has no part named vendor: for the files of a run, the layer of a
    file is always a present layer. *)
Theorem scanned_files_classified (fs : FileSystem) (root : Path) (file : Path) :
  In file (collect_go_files fs (new_guard fs root)) ->
  exists L rel,
    file = root ++ L :: rel
    /\ In rel (rglob_go fs (child root L))
    /\ _get_file_layer (new_guard fs root) file = Some L
    /\ mem L (layers_present (new_guard fs root)) = true
    /\ mem "vendor" file = false.
Proof.
  intros Hin. apply collect_go_files_in in Hin.
  destruct Hin as [L [rel [HL [Hrel [E Hv]]]]].
  rewrite Construction.new_guard_root in *.
  exists L, rel. split; [exact E|]. split; [exact Hrel|]. split; [|split].
  - unfold _get_file_layer. rewrite Construction.new_guard_root, E, relative_to_app.
    now rewrite (GoMod.new_guard_layers_known fs root L HL).
  - now apply Construction.mem_true_in.
  - exact Hv.
Qed.

Lemma scanned_files_classified_witness :
  exists L rel,
    fst Samples.db_go = Samples.root ++ L :: rel
    /\ In rel (rglob_go Samples.project (child Samples.root L))
    /\ _get_file_layer (new_guard Samples.project Samples.root) (fst Samples.db_go) = Some L
    /\ mem L (layers_present (new_guard Samples.project Samples.root)) = true
    /\ mem "vendor" (fst Samples.db_go) = false.
Proof.
  apply (scanned_files_classified Samples.project Samples.root (fst Samples.db_go)).
  vm_compute. auto 10.
Defined.

Lemma final_guard_violations_nil fs root :
  (path_exists fs root = false \/ layers_present (new_guard fs root) = []) ->
  violations (final_guard fs root) = [].
Proof.
  intros H. destruct (path_exists fs root) eqn:He.
  - destruct H as [H|H]; [discriminate|].
    unfold final_guard. rewrite (ExitCode.main_ready _ _ He), ExitCode.self_ready, H.
    unfold bind. cbn [print ret snd self]. rewrite ExitCode.self_ready.
    apply ExitCode.new_guard_violations.
  - unfold final_guard, main, bind. cbn [print]. rewrite He. reflexivity.
Qed.

(** X7.  When the path of the project root itself has a part named vendor,
    every Go file of every layer is skipped: the run scans nothing and
    records no violation, whatever the files import. *)
Theorem vendor_root_scans_nothing (fs : FileSystem) (root : Path) :
  mem "vendor" root = true ->
  collect_go_files fs (new_guard fs root) = []
  /\ violations (final_guard fs root) = [].
Proof.
  intros Hv.
  assert (Hnone : collect_go_files fs (new_guard fs root) = []).
  { destruct (collect_go_files fs (new_guard fs root)) as [|f l] eqn:E; [reflexivity|].
    assert (Hin : In f (collect_go_files fs (new_guard fs root))) by (rewrite E; now left).
    apply collect_go_files_in in Hin.
    destruct Hin as [L [rel [_ [_ [Ef Hf]]]]].
    rewrite Construction.new_guard_root in Ef. subst f.
    rewrite mem_app, Hv in Hf. discriminate. }
  split; [exact Hnone|].
  destruct (path_exists fs root) eqn:He; [|apply final_guard_violations_nil; now left].
  destruct (layers_present (new_guard fs root)) as [|l ls] eqn:El;
    [apply final_guard_violations_nil; now right|].
  rewrite ExitCode.final_guard_with_layers by (auto; rewrite El; discriminate).
  rewrite Hnone. cbn [flat_map add_violations violations with_gomod].
  rewrite ExitCode.new_guard_violations. reflexivity.
Qed.

Lemma vendor_root_scans_nothing_witness :
  collect_go_files Samples.vendored_project
    (new_guard Samples.vendored_project Samples.vendored_root) = []
  /\ violations (final_guard Samples.vendored_project Samples.vendored_root) = [].
Proof.
  apply (vendor_root_scans_nothing Samples.vendored_project Samples.vendored_root).
  vm_compute. reflexivity.
Defined.

End Scan.

(** ** The module path *)

Module ModulePath.
Import Text Regex FS Guard Run Views Effects Rules.

Lemma get_module_path_result fs st :
  fst (_get_module_path fs st)
  = if path_exists fs (child (project_root (self st)) "go.mod")
    then match first_module_line
                 (lines_read (open_read fs (child (project_root (self st)) "go.mod"))) with
         | Some m => m
         | None => default_module_path
         end
    else default_module_path.
Proof.
  unfold _get_module_path, bind at 1. cbn [get_self].
  destruct (path_exists fs _); [|reflexivity].
  destruct (open_read fs _) as [lines|lines e]; cbn [lines_read];
    destruct (first_module_line lines); reflexivity.
Qed.

Lemma new_guard_module_path fs root :
  module_path (new_guard fs root)
  = if path_exists fs (child root "go.mod")
    then match first_module_line (lines_read (open_read fs (child root "go.mod"))) with
         | Some m => m
         | None => default_module_path
         end
    else default_module_path.
Proof.
  destruct (Construction.new_guard_fields fs root) as [s0 [s1 [_ [H1 ->]]]].
  cbn [module_path]. now rewrite get_module_path_result, H1.
Qed.

Lemma first_module_line_none lines :
  (forall l, In l lines -> match_group1 module_re l = None) ->
  first_module_line lines = None.
Proof.
  induction lines as [|l lines IH]; intros H; simpl; [reflexivity|].
  rewrite (H l) by now left. apply IH. intros l' Hl. apply H. now right.
Qed.

Lemma first_module_line_app pre l post :
  (forall l', In l' pre -> match_group1 module_re l' = None) ->
  first_module_line (pre ++ l :: post)
  = match match_group1 module_re l with
    | Some g => Some (strip g)
    | None => first_module_line post
    end.
Proof.
  induction pre as [|x pre IH]; intros H; simpl; [reflexivity|].
  rewrite (H x) by now left. apply IH. intros l' Hl. apply H. now right.
Qed.

(** The pattern of the module line finds the text after the keyword, up
    to the end of the line. *)
Lemma module_line_matches lead ws name sp e :
  all_chars is_space lead = true -> blank ws ->
  name <> EmptyString -> stops is_space name -> all_chars is_dot name = true ->
  all_chars is_space sp = true -> all_chars is_dot sp = true ->
  e = EmptyString \/ e = nl ->
  match_group1 module_re (module_line lead ws name sp e) = Some (name ++ sp)%string.
Proof.
  intros Hlead [Hwne Hws] Hne Hstop Hdot Hsp Hspdot He.
  unfold match_group1, re_match, module_re, module_line.
  change (seq_of [RStar is_space; RLit "module"; RPlus is_space;
                  RGroup (RPlus is_dot); RStar is_space; REnd])
    with (RSeq (RStar is_space)
            (RSeq (RLit "module")
               (RSeq (RPlus is_space)
                  (RSeq (RGroup (RPlus is_dot)) (RSeq (RStar is_space) REnd))))).
  cbn [rx].
  assert (Hcap : forall X,
             take (String.length (X ++ e) - String.length e) (X ++ e) = X).
  { intros X. rewrite Extractor.append_length.
    replace (String.length X + String.length e - String.length e) with (String.length X) by lia.
    apply Extractor.take_app. }
  rewrite (Extractor.star_greedy is_space lead _ _ (Some (name ++ sp)%string, EmptyString));
    [reflexivity | exact Hlead | reflexivity |].
  cbn [String.append strip_prefix Ascii.eqb Bool.eqb].
  apply Extractor.plus_greedy; auto.
  { destruct name as [|c name]; [congruence|exact Hstop]. }
  rewrite <- Extractor.append_assoc.
  apply Extractor.plus_greedy.
  - destruct name; [congruence|discriminate].
  - rewrite Extractor.all_chars_app, Hdot, Hspdot. reflexivity.
  - destruct He as [-> | ->]; reflexivity.
  - rewrite Hcap. destruct He as [-> | ->]; reflexivity.
Qed.

(** X8.  The module path of a constructed guard is read from the go.mod at
    the project root: it is the text that follows the keyword module on
    the first line of that form, without the whitespace around it.  The
    built-in default, github.com/abitofhelp/hybrid_app_go, is used when
    the root go.mod does not exist and when no line that could be read
    has that form. *)
Theorem module_path_read (fs : FileSystem) (root : Path) :
  (path_exists fs (child root "go.mod") = false ->
   module_path (new_guard fs root) = "github.com/abitofhelp/hybrid_app_go")
  /\ (path_exists fs (child root "go.mod") = true ->
      (forall l, In l (lines_read (open_read fs (child root "go.mod"))) ->
                 match_group1 module_re l = None) ->
      module_path (new_guard fs root) = "github.com/abitofhelp/hybrid_app_go")
  /\ (forall pre post lead ws body c sp e,
        path_exists fs (child root "go.mod") = true ->
        lines_read (open_read fs (child root "go.mod"))
        = pre ++ module_line lead ws (body ++ String c EmptyString) sp e :: post ->
        (forall l, In l pre -> match_group1 module_re l = None) ->
        all_chars is_space lead = true -> blank ws ->
        stops is_space (body ++ String c EmptyString) -> is_space c = false ->
        all_chars is_dot (body ++ String c EmptyString) = true ->
        all_chars is_space sp = true -> all_chars is_dot sp = true ->
        e = EmptyString \/ e = nl ->
        module_path (new_guard fs root) = (body ++ String c EmptyString)%string).
Proof.
  rewrite new_guard_module_path. split; [|split].
  - intros ->. reflexivity.
  - intros -> Hnone. now rewrite first_module_line_none.
  - intros pre post lead ws body c sp e -> Hlines Hpre Hlead Hws Hstop Hc Hdot Hsp Hspdot He.
    rewrite Hlines, first_module_line_app by assumption.
    rewrite module_line_matches; auto; [|destruct body; discriminate].
    apply (Extractor.strip_between EmptyString body c sp); auto.
Qed.

Lemma module_path_read_witness :
  module_path (new_guard Samples.project Samples.root) = "example.com/app".
Proof.
  destruct (module_path_read Samples.project Samples.root) as [_ [_ H]].
  apply (H [] [nl; Samples.ln "go 1.23"] EmptyString " " "example.com/ap" "p"%char
           EmptyString nl);
    try (vm_compute; reflexivity); try (intros l []).
  - split; [discriminate | reflexivity].
  - right. reflexivity.
Defined.

End ModulePath.

(** ** The verdict of the report *)

Module Verdict.
Import Text Regex FS Guard Run Views Effects Rules.

Lemma last_app_nonempty {A : Type} (l1 l2 : list A) (d : A) :
  l2 <> [] -> last (l1 ++ l2) d = last l2 d.
Proof.
  intros H. induction l1 as [|x l1 IH]; [reflexivity|].
  simpl. rewrite IH. destruct (l1 ++ l2) eqn:E; [|reflexivity].
  apply app_eq_nil in E. destruct E as [_ E]. contradiction.
Qed.

Lemma render_group_last item d : last (render_group item) d = EmptyString.
Proof.
  unfold render_group. rewrite app_assoc.
  rewrite last_app_nonempty by discriminate. reflexivity.
Qed.

Lemma render_group_nonempty item : render_group item <> [].
Proof. unfold render_group. discriminate. Qed.

Lemma render_groups_last items d :
  items <> [] -> last (flat_map render_group items) d = EmptyString.
Proof.
  induction items as [|x items IH]; [congruence|]. intros _.
  change (flat_map render_group (x :: items))
    with (render_group x ++ flat_map render_group items).
  destruct items as [|y items].
  - cbn [flat_map]. rewrite app_nil_r. apply render_group_last.
  - rewrite last_app_nonempty.
    + apply IH. discriminate.
    + change (flat_map render_group (y :: items))
        with (render_group y ++ flat_map render_group items).
      intros E. apply app_eq_nil in E. destruct E as [E _].
      now apply render_group_nonempty in E.
Qed.

Lemma report_groups_nonempty v vs : report_groups (v :: vs) <> [].
Proof.
  destruct (Report.group_by_type_grouped (v :: vs)) as [_ [Hk _]].
  assert (Hin : In (violation_type v) (map fst (group_by_type (v :: vs)))).
  { apply Hk. exists v. split; [now left|reflexivity]. }
  apply in_map_iff in Hin. destruct Hin as [item [_ Hin]].
  apply (proj2 (Report.sorted_items_in _ _)) in Hin.
  unfold report_groups. intros E. rewrite E in Hin. contradiction.
Qed.

(** The last line [report_violations] prints. *)
Lemma report_last st :
  last (stdout (snd (report_violations st))) EmptyString
  = if gomod_config_valid (self st) && (List.length (violations (self st)) =? 0)
    then passed_line
    else match violations (self st) with
         | [] => failed_line
         | _ :: _ => EmptyString
         end.
Proof.
  unfold report_violations, bind. cbn [get_self print].
  fold (report_groups (violations (self st))).
  destruct (gomod_config_valid (self st)) eqn:Eg; cbn [print].
  all: destruct (violations (self st)) as [|v vs] eqn:Ev; cbn [print].
  all: cbn [andb List.length Nat.eqb print ret snd stdout].
  all: try rewrite Report.print_groups_push; cbn [snd push stdout].
  all: rewrite <- ?app_assoc; cbn [app].
  - rewrite last_app_nonempty by discriminate. reflexivity.
  - rewrite last_app_nonempty by discriminate.
    match goal with
    | |- last (?a :: ?b :: ?c :: ?d :: ?e :: ?f :: ?g :: ?rest) _ = _ =>
        change (a :: b :: c :: d :: e :: f :: g :: rest)
          with ([a; b; c; d; e; f; g] ++ rest)
    end.
    rewrite last_app_nonempty.
    + apply render_groups_last, report_groups_nonempty.
    + intros E. apply (f_equal (@List.length string)) in E.
      pose proof (render_groups_last (report_groups (v :: vs)) "x"
                    (report_groups_nonempty v vs)) as Hl.
      rewrite (proj1 (length_zero_iff_nil _) E) in Hl. discriminate Hl.
  - rewrite last_app_nonempty by discriminate. reflexivity.
  - rewrite last_app_nonempty by discriminate.
    match goal with
    | |- last (?a :: ?b :: ?c :: ?d :: ?e :: ?f :: ?g :: ?rest) _ = _ =>
        change (a :: b :: c :: d :: e :: f :: g :: rest)
          with ([a; b; c; d; e; f; g] ++ rest)
    end.
    rewrite last_app_nonempty.
    + apply render_groups_last, report_groups_nonempty.
    + intros E. apply (f_equal (@List.length string)) in E.
      pose proof (render_groups_last (report_groups (v :: vs)) "x"
                    (report_groups_nonempty v vs)) as Hl.
      rewrite (proj1 (length_zero_iff_nil _) E) in Hl. discriminate Hl.
Qed.


(** X9.  The exit code and the report agree: a run exits with 0 exactly
    when the last line it prints is the line that announces that the
    validation passed. *)
Theorem exit_code_matches_report (fs : FileSystem) (root : Path) :
  exit_code fs root = 0
  <-> last (output fs root) EmptyString
      = (nl ++ "✅ Architecture validation PASSED - All rules satisfied!")%string.
Proof.
  fold passed_line.
  destruct (path_exists fs root) eqn:He.
  - unfold exit_code, output. rewrite (ExitCode.main_ready _ _ He).
    destruct (layers_present (self (ready fs root))) as [|l ls] eqn:El.
    + unfold bind. cbn [print ret fst snd stdout].
      rewrite last_app_nonempty by discriminate. cbn [last].
      split; intros H; discriminate H.
    + unfold bind.
      pose proof (ExitCode.validate_all_result fs (ready fs root)) as Hres.
      rewrite El in Hres. specialize (Hres ltac:(discriminate)).
      destruct (validate_all fs (ready fs root)) as [is_valid s1].
      cbn [fst snd] in Hres.
      pose proof (report_last s1) as Hlast.
      destruct (report_violations s1) as [u s2]. cbn [fst snd ret] in *.
      rewrite Hlast, <- Hres.
      destruct is_valid.
      * split; reflexivity.
      * destruct (violations (self s1)); split; intros H; discriminate H.
  - rewrite (ExitCode.exit_code_missing_root _ _ He).
    unfold output, main, bind. cbn [print]. rewrite He. cbn [negb print ret snd stdout app last].
    split; intros H; discriminate H.
Qed.

(** X10.  On a constructed guard that found no layer, [validate_all]
    returns True and leaves the guard as it is; the go.mod verdict of the
    guard keeps its initial value False, so that [report_violations],
    called next, ends with the line that announces a failure. *)
Theorem no_layers_true_but_reported_failed (fs : FileSystem) (root : Path) :
  layers_present (new_guard fs root) = [] ->
  let st := state_of (new_guard fs root) in
  fst (validate_all fs st) = true
  /\ self (snd (validate_all fs st)) = new_guard fs root
  /\ last (stdout (snd (report_violations (snd (validate_all fs st))))) EmptyString
     = (nl ++ "❌ Architecture validation FAILED")%string.
Proof.
  intros Hl st. subst st. unfold validate_all, bind. cbn [get_self state_of self].
  rewrite Hl. cbn [print ret fst snd self].
  split; [reflexivity|]. split; [reflexivity|].
  rewrite report_last. unfold state_of. cbn [self].
  now rewrite Construction.new_guard_gomod, ExitCode.new_guard_violations.
Qed.

Lemma no_layers_true_but_reported_failed_witness :
  fst (validate_all Samples.no_layers
         (state_of (new_guard Samples.no_layers Samples.root))) = true.
Proof.
  apply (no_layers_true_but_reported_failed Samples.no_layers Samples.root).
  vm_compute. reflexivity.
Defined.

Lemma exit_code_matches_report_witness :
  last (output Samples.missing_gomod Samples.root) EmptyString
  = (nl ++ "✅ Architecture validation PASSED - All rules satisfied!")%string.
Proof.
  apply (exit_code_matches_report Samples.missing_gomod Samples.root).
  vm_compute. reflexivity.
Defined.
End Verdict.

(** ** What the report holds *)

Module ReportContent.
Import Text Regex FS Guard Run Views Effects Rules.

Lemma group_add_concat v d :
  Permutation (flat_map snd (group_add v d)) (v :: flat_map snd d).
Proof.
  induction d as [|[k0 g0] d IH]; simpl.
  - reflexivity.
  - destruct (String.eqb k0 (violation_type v)); simpl.
    + rewrite <- app_assoc. simpl. symmetry. apply Permutation_middle.
    + rewrite IH. symmetry. apply Permutation_middle.
Qed.

Lemma group_fold_concat vs : forall d,
  Permutation (flat_map snd (fold_left (fun by_type v => group_add v by_type) vs d))
              (flat_map snd d ++ vs).
Proof.
  induction vs as [|v vs IH]; intros d; simpl.
  - now rewrite app_nil_r.
  - rewrite IH, group_add_concat. simpl. apply Permutation_middle.
Qed.

Lemma insert_item_perm x l : Permutation (insert_item x l) (x :: l).
Proof.
  induction l as [|y l IH]; simpl; [reflexivity|].
  destruct (String.ltb (fst x) (fst y)); [reflexivity|].
  rewrite IH. apply perm_swap.
Qed.

Lemma sorted_items_perm l : Permutation (sorted_items l) l.
Proof.
  unfold sorted_items. induction l as [|x l IH]; simpl; [reflexivity|].
  rewrite insert_item_perm. now constructor.
Qed.

(** X11.  The report drops nothing and repeats nothing: the entries of its
    groups, taken together, are the recorded violations, each one once.
    No group is empty, the entries of a group all have the kind of the
    group, and no two groups have the same kind. *)
Theorem report_lists_each_violation_once (vs : list ArchitectureViolation) :
  Permutation (flat_map snd (report_groups vs)) vs
  /\ NoDup (map fst (report_groups vs))
  /\ (forall k g, In (k, g) (report_groups vs) ->
        g <> [] /\ forall v, In v g -> In v vs /\ violation_type v = k).
Proof.
  split; [|split].
  - unfold report_groups. rewrite sorted_items_perm. unfold group_by_type.
    now rewrite group_fold_concat.
  - unfold report_groups. rewrite Report.sorted_items_keys.
    eapply Permutation_NoDup; [apply Permutation_sym, Report.sorted_perm|].
    now destruct (Report.group_by_type_grouped vs) as [H _].
  - intros k g Hin. unfold report_groups in Hin.
    apply (proj1 (Report.sorted_items_in _ _)) in Hin.
    destruct (Report.group_by_type_grouped vs) as [_ [Hk Hg]].
    pose proof (Hg k g Hin) as ->. split.
    + assert (Hkey : In k (map fst (group_by_type vs))).
      { apply in_map_iff. exists (k, filter (kind_is k) vs). auto. }
      apply Hk in Hkey. destruct Hkey as [v [Hv E]].
      assert (Hf : In v (filter (kind_is k) vs)).
      { apply filter_In. split; [exact Hv|]. unfold kind_is. now rewrite E, String.eqb_refl. }
      intros E'. rewrite E' in Hf. contradiction.
    + intros v Hv. apply filter_In in Hv. destruct Hv as [Hv E].
      split; [exact Hv|]. unfold kind_is in E. now apply String.eqb_eq in E.
Qed.

Lemma report_lists_each_violation_once_witness :
  Permutation (flat_map snd (report_groups Samples.two_violations)) Samples.two_violations
  /\ In ("TEST_CODE_IN_PRODUCTION", [Samples.testing_in_service])
        (report_groups Samples.two_violations).
Proof.
  destruct (report_lists_each_violation_once Samples.two_violations) as [H _].
  split; [exact H | vm_compute; auto].
Defined.

End ReportContent.

(** ** Running the validation again *)

Module Rerun.
Import Text Regex FS Guard Run Views Effects Rules.

(** X12.  [validate_all] does not reset the guard: called a second time on
    the same object and the same tree, it appends the violations of the
    files once more, so that every violation is then recorded twice, and
    the second call returns False as soon as the first recorded
    anything. *)
Theorem validate_all_twice (fs : FileSystem) (st : St) :
  layers_present (self st) <> [] ->
  let once := snd (validate_all fs st) in
  let twice := snd (validate_all fs once) in
  exists new,
    violations (self once) = violations (self st) ++ new
    /\ violations (self twice) = violations (self st) ++ new ++ new
    /\ (new <> [] -> fst (validate_all fs once) = false).
Proof.
  intros Hl once twice.
  exists (flat_map (file_violations fs (self st)) (collect_go_files fs (self st))).
  assert (H1 : self once
               = add_violations
                   (with_gomod (self st) (fst (_validate_gomod_config fs (state_of (self st)))))
                   (flat_map (file_violations fs (self st)) (collect_go_files fs (self st)))).
  { subst once. now apply ExitCode.validate_all_effect. }
  assert (Hl1 : layers_present (self once) <> []) by now rewrite H1.
  split; [now rewrite H1|]. split.
  - subst twice. rewrite (ExitCode.validate_all_effect fs once Hl1). rewrite H1.
    cbn [add_violations with_gomod violations]. now rewrite app_assoc.
  - intros Hnew. rewrite (ExitCode.validate_all_result fs once Hl1).
    fold twice.
    assert (H2 : violations (self twice) <> []).
    { subst twice. rewrite (ExitCode.validate_all_effect fs once Hl1), H1.
      cbn [add_violations with_gomod violations].
      intros E. apply app_eq_nil in E. destruct E as [_ E]. contradiction. }
    destruct (violations (self twice)); [congruence|].
    cbn [List.length Nat.eqb]. apply andb_false_r.
Qed.

Lemma validate_all_twice_witness :
  exists new,
    violations (self (snd (validate_all Samples.lateral_tree (state_of Samples.lateral_guard))))
    = violations (self (state_of Samples.lateral_guard)) ++ new
    /\ violations
         (self (snd (validate_all Samples.lateral_tree
                       (snd (validate_all Samples.lateral_tree
                               (state_of Samples.lateral_guard))))))
       = violations (self (state_of Samples.lateral_guard)) ++ new ++ new
    /\ (new <> [] ->
        fst (validate_all Samples.lateral_tree
               (snd (validate_all Samples.lateral_tree (state_of Samples.lateral_guard))))
        = false).
Proof.
  apply (validate_all_twice Samples.lateral_tree (state_of Samples.lateral_guard)).
  discriminate.
Defined.

End Rerun.

(** ** More on the go.mod check *)

Module GoModSelf.
Import Text Regex FS Guard Run Views Effects Rules.

(** X13.  The go.mod check has no exemption for a layer's own modules: a
    present layer whose go.mod can be read and names, after a require, a
    module of the layer itself or of the bootstrap layer, makes the
    configuration invalid. *)
Theorem gomod_self_requirement_invalid (fs : FileSystem) (st : St)
    (layer dep : string) (lines : list string) :
  In layer (layers_present (self st)) ->
  is_layer layer = true ->
  path_exists fs (gomod_path (self st) layer) = true ->
  open_read fs (gomod_path (self st) layer) = ReadOk lines ->
  In dep (gomod_layer_deps (self st) (String.concat EmptyString lines)) ->
  dep = layer \/ dep = "bootstrap" ->
  fst (_validate_gomod_config fs st) = false.
Proof.
  intros Hin Hl He Hr Hdep Hcase.
  rewrite GoMod.validate_gomod_config_result.
  apply not_true_is_false. rewrite forallb_forall. intros H.
  specialize (H layer (proj2 (GoMod.sorted_in _ _) Hin)).
  unfold gomod_layer_ok in H. rewrite He, Hr in H. cbn [negb] in H.
  assert (Hmem : mem dep (allowed_deps_of layer) = false).
  { apply Cascade.is_layer_cases in Hl.
    destruct Hl as [-> | [-> | [-> | [-> | ->]]]]; destruct Hcase as [-> | ->]; reflexivity. }
  assert (Hf : In dep (set_diff (gomod_layer_deps (self st) (String.concat EmptyString lines))
                         (allowed_deps_of layer))).
  { unfold set_diff. apply filter_In. split; [exact Hdep|]. now rewrite Hmem. }
  destruct (set_diff _ _); [contradiction|discriminate].
Qed.

Lemma gomod_self_requirement_invalid_witness :
  fst (_validate_gomod_config Samples.self_gomod (state_of Samples.domain_guard)) = false.
Proof.
  apply (gomod_self_requirement_invalid Samples.self_gomod (state_of Samples.domain_guard)
           "domain" "domain" Samples.self_gomod_lines);
    try (vm_compute; auto; fail).
Defined.

End GoModSelf.

(** ** Warnings *)

Module Warnings.
Import Text Regex FS Guard Run Views Effects Rules.

(** X14.  A file of a present layer, not named as a test file, whose read
    fails is read twice by [validate_file], once for each of its two
    checks: the same warning is printed twice, and nothing else. *)
Theorem unreadable_file_warned_twice (fs : FileSystem) (st : St) (file : Path)
    (cur : string) (lines : list string) (err : string) :
  open_read fs file = ReadError lines err ->
  endswith (name file) "_test.go" = false ->
  _get_file_layer (self st) file = Some cur ->
  mem cur (layers_present (self st)) = true ->
  stdout (snd (validate_file fs file st))
  = stdout st
    ++ [("Warning: Could not read " ++ path_str file ++ ": " ++ err)%string;
        ("Warning: Could not read " ++ path_str file ++ ": " ++ err)%string].
Proof.
  intros Hr Ht Hcur Hm. rewrite validate_file_push. cbn [snd push stdout].
  unfold file_warnings, read_warning.
  rewrite Ht, (checked_layer_some _ _ _ Hcur Hm), Hr. reflexivity.
Qed.

Lemma unreadable_file_warned_twice_witness :
  List.length (stdout (snd (validate_file Samples.broken_tree (fst Samples.broken_go)
                              (state_of Samples.domain_guard)))) = 2.
Proof.
  rewrite (unreadable_file_warned_twice Samples.broken_tree (state_of Samples.domain_guard)
             (fst Samples.broken_go) "domain" [Samples.import_line "testing"]
             Samples.decode_error);
    try (vm_compute; reflexivity).
Defined.

End Warnings.

(** ** The records of a file and the violations of a run *)

Module Records.
Import Text Regex FS Guard Run Views Effects Rules.

Lemma scan_lines_lt lines : forall k b n p,
  In (n, p) (scan_lines lines k b) -> n < k + List.length lines.
Proof.
  induction lines as [|line rest IH]; intros k b n p; simpl; [tauto|].
  destruct (startswith (strip line) "import (").
  - intros H. apply IH in H. lia.
  - destruct b.
    + destruct (String.eqb (strip line) ")").
      * intros H. apply IH in H. lia.
      * destruct (match_group1 block_line_re (strip line)); simpl.
        -- intros [H|H]; [inversion H; lia | apply IH in H; lia].
        -- intros H. apply IH in H. lia.
    + destruct (match_group1 import_line_re (strip line)); simpl.
      * intros [H|H]; [inversion H; lia | apply IH in H; lia].
      * intros H. apply IH in H. lia.
Qed.

Lemma scan_lines_sorted lines : forall k b,
  StronglySorted lt (map fst (scan_lines lines k b)).
Proof.
  induction lines as [|line rest IH]; intros k b; simpl; [constructor|].
  assert (Hhd : forall b', Forall (lt k) (map fst (scan_lines rest (S k) b'))).
  { intros b'. apply Forall_forall. intros n Hn. apply in_map_iff in Hn.
    destruct Hn as [[n' p] [E Hn]]. simpl in E. subst n'.
    apply scan_lines_ge in Hn. lia. }
  destruct (startswith (strip line) "import ("); [apply IH|].
  destruct b.
  - destruct (String.eqb (strip line) ")"); [apply IH|].
    destruct (match_group1 block_line_re (strip line)); [|apply IH].
    simpl. constructor; [apply IH | apply Hhd].
  - destruct (match_group1 import_line_re (strip line)); [|apply IH].
    simpl. constructor; [apply IH | apply Hhd].
Qed.

Lemma imports_bounds fs file n p :
  In (n, p) (imports_of fs file) ->
  1 <= n <= List.length (lines_read (open_read fs file)).
Proof.
  unfold imports_of. intros H. split.
  - now apply scan_lines_ge in H.
  - apply scan_lines_lt in H. lia.
Qed.

(** X15.  The records the extractor returns for a file come in the order
    of the lines, with strictly increasing line numbers, and every line
    number is the number of a line that was read, counted from 1. *)
Theorem records_in_line_order (fs : FileSystem) (file : Path) (st : St) :
  StronglySorted lt (map fst (fst (_extract_imports fs file st)))
  /\ forall n p,
       In (n, p) (fst (_extract_imports fs file st)) ->
       1 <= n <= List.length (lines_read (open_read fs file)).
Proof.
  rewrite extract_imports_push. cbn [fst]. split.
  - apply scan_lines_sorted.
  - apply imports_bounds.
Qed.

Lemma records_in_line_order_witness :
  1 <= 6 <= List.length (lines_read (open_read Samples.project (fst Samples.handler_go))).
Proof.
  destruct (records_in_line_order Samples.project (fst Samples.handler_go) start) as [_ H].
  apply (H 6 "example.com/app/domain/entity"). vm_compute. auto 10.
Defined.

(** X16.  Every violation a run records names a file the run scanned,
    carries the number of a line that was read in that file, and has one
    of the five kinds of the tool. *)
Theorem recorded_violations_well_formed (fs : FileSystem) (root : Path)
    (v : ArchitectureViolation) :
  In v (violations (final_guard fs root)) ->
  exists file,
    In file (collect_go_files fs (new_guard fs root))
    /\ file_path v = path_str file
    /\ 1 <= line_number v <= List.length (lines_read (open_read fs file))
    /\ In (violation_type v)
          ["TEST_CODE_IN_PRODUCTION"; "FORBIDDEN_BOOTSTRAP_DEPENDENCY";
           "FORBIDDEN_LATERAL_DEPENDENCY"; "PRESENTATION_IMPORTS_DOMAIN";
           "ILLEGAL_LAYER_DEPENDENCY"].
Proof.
  intros Hv.
  destruct (path_exists fs root) eqn:He;
    [|rewrite Scan.final_guard_violations_nil in Hv by (now left); contradiction].
  destruct (layers_present (new_guard fs root)) as [|l ls] eqn:El;
    [rewrite Scan.final_guard_violations_nil in Hv by (now right); contradiction|].
  rewrite ExitCode.final_guard_with_layers in Hv by (auto; rewrite El; discriminate).
  cbn [add_violations with_gomod violations] in Hv.
  rewrite ExitCode.new_guard_violations in Hv. cbn [app] in Hv.
  apply in_flat_map in Hv. destruct Hv as [file [Hfile Hv]].
  exists file. split; [exact Hfile|].
  apply file_violations_inv in Hv.
  destruct Hv as [[_ [[n p] [Hi Hw]]] | [cur [[n p] [_ [Hi Hw]]]]].
  - apply test_import_violation_inv in Hw. destruct Hw as [_ [Hn [Hf Hk]]].
    split; [exact Hf|]. split; [rewrite Hn; now apply (imports_bounds fs file n p)|].
    rewrite Hk. simpl. tauto.
  - apply check_import_inv in Hw. destruct Hw as [Hn [Hf [Hk _]]].
    split; [exact Hf|]. split; [rewrite Hn; now apply (imports_bounds fs file n p)|].
    unfold layer_kinds in Hk. simpl in Hk |- *. tauto.
Qed.

Lemma recorded_violations_well_formed_witness :
  exists file,
    In file (collect_go_files Samples.project (new_guard Samples.project Samples.root))
    /\ file_path Samples.bootstrap_in_db = path_str file.
Proof.
  destruct (recorded_violations_well_formed Samples.project Samples.root
              Samples.bootstrap_in_db) as [file [H1 [H2 _]]].
  - vm_compute. auto 10.
  - exists file. split; assumption.
Defined.

End Records.

(** ** What the extractor accepts *)

Module ExtractorSound.
Import Text Regex FS Guard Run Views Effects Rules.

Lemma star_inv {A : Type} p s (k : string -> option A) r :
  star p s k = Some r ->
  exists pre s', s = (pre ++ s')%string /\ all_chars p pre = true /\ k s' = Some r.
Proof.
  induction s as [|c s IH]; simpl; intros H.
  - exists EmptyString, EmptyString. auto.
  - destruct (p c) eqn:Hc.
    + destruct (star p s k) as [r'|] eqn:Hs.
      * destruct (IH H) as [pre [s' [E [Hall Hk]]]].
        exists (String c pre), s'. simpl. rewrite Hc, Hall, <- E.
        repeat split. exact Hk.
      * exists EmptyString, (String c s). auto.
    + exists EmptyString, (String c s). auto.
Qed.

Lemma plus_inv {A : Type} p s (k : string -> option A) r :
  plus p s k = Some r ->
  exists pre s', s = (pre ++ s')%string /\ pre <> EmptyString
                 /\ all_chars p pre = true /\ k s' = Some r.
Proof.
  destruct s as [|c s]; simpl; [discriminate|].
  destruct (p c) eqn:Hc; [|discriminate].
  intros H. apply star_inv in H. destruct H as [pre [s' [E [Hall Hk]]]].
  exists (String c pre), s'. simpl. rewrite Hc, Hall, E.
  repeat split; [discriminate | exact Hk].
Qed.

Lemma strip_prefix_inv l : forall s s',
  strip_prefix l s = Some s' -> s = (l ++ s')%string.
Proof.
  induction l as [|a l IH]; intros s s'; simpl.
  - congruence.
  - destruct s as [|b s]; [discriminate|].
    destruct (Ascii.eqb_spec a b) as [->|N]; [|discriminate].
    intros H. apply IH in H. now rewrite H.
Qed.

Lemma at_end_space e : at_end e = true -> all_chars is_space e = true.
Proof.
  unfold at_end. intros H. apply orb_prop in H.
  destruct H as [H|H]; apply String.eqb_eq in H; subst; reflexivity.
Qed.

(** The end of both patterns, read backwards: what it matches is a quoted
    path followed by whitespace, and the group is the path. *)
Lemma quoted_path_inv t cap c rest :
  rx (seq_of [rquote; RGroup (RPlus not_dquote); rquote; RStar is_space; REnd])
     t cap (fun s' cap' => Some (cap', s')) = Some (c, rest) ->
  exists g trail,
    t = (dq ++ g ++ dq ++ trail)%string /\ quotable g
    /\ all_chars is_space trail = true /\ c = Some g.
Proof.
  cbn [seq_of rx rquote]. intros H.
  destruct (strip_prefix (String dquote "") t) as [t1|] eqn:E1; [|discriminate].
  apply strip_prefix_inv in E1.
  apply plus_inv in H. destruct H as [g [t2 [E2 [Hne [Hall H]]]]].
  destruct (strip_prefix (String dquote "") t2) as [t3|] eqn:E3; [|discriminate].
  apply strip_prefix_inv in E3.
  apply star_inv in H. destruct H as [trail [t4 [E4 [Htrail H]]]].
  destruct (at_end t4) eqn:Hend; [|discriminate].
  inversion H; subst c rest. clear H.
  exists g, (trail ++ t4)%string. split; [|split; [|split]].
  - rewrite E1, E2, E3, E4. reflexivity.
  - split; assumption.
  - rewrite Extractor.all_chars_app, Htrail. now apply at_end_space.
  - f_equal. rewrite E2, Extractor.append_length.
    replace (String.length g + String.length t2 - String.length t2) with (String.length g) by lia.
    apply Extractor.take_app.
Qed.

Lemma import_spec_inv s cap c rest :
  rx spec_re s cap (fun s' cap' => Some (cap', s')) = Some (c, rest) ->
  exists alias g trail,
    s = (import_spec alias g ++ trail)%string /\ alias_ok alias /\ quotable g
    /\ all_chars is_space trail = true /\ c = Some g.
Proof.
  unfold spec_re.
  change (seq_of [ROpt (RSeq (RPlus is_word) (RPlus is_space));
                  rquote; RGroup (RPlus not_dquote); rquote; RStar is_space; REnd])
    with (RSeq (ROpt (RSeq (RPlus is_word) (RPlus is_space)))
               (seq_of [rquote; RGroup (RPlus not_dquote); rquote; RStar is_space; REnd])).
  cbn [rx]. intros H.
  match type of H with
  | match ?m with _ => _ end = _ => destruct m as [x|] eqn:Ealias
  end.
  - inversion H; subst x. clear H.
    apply plus_inv in Ealias. destruct Ealias as [a [s1 [E1 [Hane [Haall H]]]]].
    apply plus_inv in H. destruct H as [ws [s2 [E2 [Hwne [Hwall H]]]]].
    apply quoted_path_inv in H. destruct H as [g [trail [E3 [Hq [Ht Hc]]]]].
    exists (Some (a, ws)), g, trail. cbn [import_spec alias_ok].
    split; [|unfold word, blank; auto 10].
    rewrite E1, E2, E3. now rewrite !Extractor.append_assoc.
  - apply quoted_path_inv in H. destruct H as [g [trail [E3 [Hq [Ht Hc]]]]].
    exists None, g, trail. cbn [import_spec alias_ok].
    split; [|auto 10].
    rewrite E3. now rewrite !Extractor.append_assoc.
Qed.

(** What the pattern of a block line accepts. *)
Lemma block_line_inv s p :
  match_group1 block_line_re s = Some p ->
  exists lead alias trail,
    s = block_import lead alias p trail
    /\ all_chars is_space lead = true /\ alias_ok alias /\ quotable p
    /\ all_chars is_space trail = true.
Proof.
  unfold match_group1, re_match, block_line_re.
  change (seq_of [RStar is_space; ROpt (RSeq (RPlus is_word) (RPlus is_space));
                  rquote; RGroup (RPlus not_dquote); rquote; RStar is_space; REnd])
    with (RSeq (RStar is_space) spec_re).
  cbn [rx]. intros H.
  match type of H with
  | match ?m with _ => _ end = _ => destruct m as [[c rest]|] eqn:E
  end; [|discriminate].
  apply star_inv in E. destruct E as [lead [s1 [E1 [Hlead E]]]].
  apply import_spec_inv in E. destruct E as [alias [g [trail [E2 [Ha [Hq [Ht Hc]]]]]]].
  subst c. inversion H; subst g. clear H.
  exists lead, alias, trail. unfold block_import. rewrite E1, E2.
  split; [reflexivity | auto 10].
Qed.

(** What the pattern of a single-line import accepts. *)
Lemma import_line_inv s p :
  match_group1 import_line_re s = Some p ->
  exists lead ws alias trail,
    s = single_line_import lead ws alias p trail
    /\ all_chars is_space lead = true /\ blank ws /\ alias_ok alias /\ quotable p
    /\ all_chars is_space trail = true.
Proof.
  unfold match_group1, re_match, import_line_re.
  change (seq_of [RStar is_space; RLit "import"; RPlus is_space;
                  ROpt (RSeq (RPlus is_word) (RPlus is_space));
                  rquote; RGroup (RPlus not_dquote); rquote; RStar is_space; REnd])
    with (RSeq (RStar is_space) (RSeq (RLit "import") (RSeq (RPlus is_space) spec_re))).
  cbn [rx]. intros H.
  match type of H with
  | match ?m with _ => _ end = _ => destruct m as [[c rest]|] eqn:E
  end; [|discriminate].
  apply star_inv in E. destruct E as [lead [s1 [E1 [Hlead E]]]].
  destruct (strip_prefix "import" s1) as [s2|] eqn:E2; [|discriminate].
  apply strip_prefix_inv in E2.
  apply plus_inv in E. destruct E as [ws [s3 [E3 [Hwne [Hwall E]]]]].
  apply import_spec_inv in E. destruct E as [alias [g [trail [E4 [Ha [Hq [Ht Hc]]]]]]].
  subst c. inversion H; subst g. clear H.
  exists lead, ws, alias, trail. unfold single_line_import. rewrite E1, E2, E3, E4.
  split; [reflexivity | unfold blank; auto 10].
Qed.


(** Where a record of the loop comes from. *)
Lemma scan_lines_inv lines : forall k b n p,
  In (n, p) (scan_lines lines k b) ->
  exists i line,
    nth_error lines i = Some line /\ n = k + i
    /\ ((block_state (firstn i lines) b = false
         /\ match_group1 import_line_re (strip line) = Some p)
        \/ (block_state (firstn i lines) b = true
            /\ match_group1 block_line_re (strip line) = Some p)).
Proof.
  induction lines as [|line rest IH]; intros k b n p; simpl; [tauto|].
  assert (Hrest : forall b',
             (if startswith (strip line) "import (" then block_state [] true
              else if b then if String.eqb (strip line) ")" then false else true
                   else false) = b' ->
             In (n, p) (scan_lines rest (S k) b') ->
             exists i line0,
               nth_error (line :: rest) i = Some line0 /\ n = k + i
               /\ ((block_state (firstn i (line :: rest)) b = false
                    /\ match_group1 import_line_re (strip line0) = Some p)
                   \/ (block_state (firstn i (line :: rest)) b = true
                       /\ match_group1 block_line_re (strip line0) = Some p))).
  { intros b' Hb' Hin. destruct (IH _ _ _ _ Hin) as [i [line0 [Hn [En Hcase]]]].
    exists (S i), line0. split; [exact Hn|]. split; [lia|].
    cbn [firstn block_state].
    replace (if startswith (strip line) "import (" then block_state (firstn i rest) true
             else if b
                  then if String.eqb (strip line) ")" then block_state (firstn i rest) false
                       else block_state (firstn i rest) true
                  else block_state (firstn i rest) false)
      with (block_state (firstn i rest) b'); [exact Hcase|].
    subst b'. destruct (startswith (strip line) "import ("); [reflexivity|].
    destruct b; [|reflexivity]. destruct (String.eqb (strip line) ")"); reflexivity. }
  destruct (startswith (strip line) "import (") eqn:Hs.
  - intros Hin. refine (Hrest _ _ Hin). reflexivity.
  - destruct b.
    + destruct (String.eqb (strip line) ")") eqn:Hc.
      * intros Hin. refine (Hrest _ _ Hin). reflexivity.
      * destruct (match_group1 block_line_re (strip line)) as [q|] eqn:Hm.
        -- simpl. intros [H|H]; [|refine (Hrest _ _ H); reflexivity].
           inversion H; subst. exists 0, line. cbn [nth_error firstn block_state].
           split; [reflexivity|]. split; [lia|]. right. auto.
        -- intros Hin. refine (Hrest _ _ Hin). reflexivity.
    + destruct (match_group1 import_line_re (strip line)) as [q|] eqn:Hm.
      * simpl. intros [H|H]; [|refine (Hrest _ _ H); reflexivity].
        inversion H; subst. exists 0, line. cbn [nth_error firstn block_state].
        split; [reflexivity|]. split; [lia|]. left. auto.
      * intros Hin. refine (Hrest _ _ Hin). reflexivity.
Qed.

(** X17.  The extractor yields a record only for an import of one of its
    two forms.  A record with line number [n] and path [p] comes from the
    line [n] that was read; [p] is not empty and has no double quote; and
    the line, stripped of the whitespace around it, is a single-line
    import of [p] when the line is outside an import block, and a block
    line of [p] when it is inside one. *)
Theorem extractor_yields_only_imports (fs : FileSystem) (file : Path) (st : St)
    (n : nat) (p : string) :
  In (n, p) (fst (_extract_imports fs file st)) ->
  exists line,
    nth_error (lines_read (open_read fs file)) (n - 1) = Some line
    /\ quotable p
    /\ ((block_state (firstn (n - 1) (lines_read (open_read fs file))) false = false
         /\ exists lead ws alias trail,
              strip line = single_line_import lead ws alias p trail
              /\ all_chars is_space lead = true /\ blank ws /\ alias_ok alias
              /\ all_chars is_space trail = true)
        \/ (block_state (firstn (n - 1) (lines_read (open_read fs file))) false = true
            /\ exists lead alias trail,
                 strip line = block_import lead alias p trail
                 /\ all_chars is_space lead = true /\ alias_ok alias
                 /\ all_chars is_space trail = true)).
Proof.
  rewrite extract_imports_push. cbn [fst]. unfold imports_of. intros Hin.
  apply scan_lines_inv in Hin. destruct Hin as [i [line [Hn [En Hcase]]]].
  replace (n - 1) with i by lia.
  exists line. split; [exact Hn|].
  destruct Hcase as [[Hb Hm]|[Hb Hm]].
  - apply import_line_inv in Hm.
    destruct Hm as [lead [ws [alias [trail [E [Hl [Hw [Ha [Hq Ht]]]]]]]]].
    split; [exact Hq|]. left. split; [exact Hb|].
    exists lead, ws, alias, trail. auto.
  - apply block_line_inv in Hm.
    destruct Hm as [lead [alias [trail [E [Hl [Ha [Hq Ht]]]]]]].
    split; [exact Hq|]. right. split; [exact Hb|].
    exists lead, alias, trail. auto.
Qed.

Lemma extractor_yields_only_imports_witness :
  exists line,
    nth_error (lines_read (open_read Samples.project (fst Samples.db_go))) (2 - 1) = Some line
    /\ quotable "example.com/app/bootstrap/wire".
Proof.
  destruct (extractor_yields_only_imports Samples.project (fst Samples.db_go) start
              2 "example.com/app/bootstrap/wire") as [line [H1 [H2 _]]].
  - vm_compute. auto 10.
  - exists line. split; assumption.
Defined.
End ExtractorSound.

(** ** The exit code of a run *)

Module ExitContract.
Import Text Regex FS Guard Run Views Effects Rules.

Lemma forallb_false {A : Type} (f : A -> bool) (l : list A) :
  forallb f l = false <-> exists x, In x l /\ f x = false.
Proof.
  induction l as [|y l IH]; simpl.
  - split; [discriminate | intros [x [[] _]]].
  - rewrite andb_false_iff, IH. split.
    + intros [H | [x [Hin Hx]]]; [exists y | exists x]; auto.
    + intros [x [[<- | Hin] Hx]]; [now left | right; now exists x].
Qed.

(** The verdict of the go.mod check that a run with some layer leaves in
    the guard: every present layer passes [gomod_layer_ok]. *)
Lemma final_guard_gomod fs root :
  path_exists fs root = true -> layers_present (new_guard fs root) <> [] ->
  gomod_config_valid (final_guard fs root)
  = forallb (gomod_layer_ok fs (new_guard fs root))
            (sorted (layers_present (new_guard fs root))).
Proof.
  intros He Hl. rewrite (ExitCode.final_guard_with_layers fs root He Hl).
  cbn [add_violations with_gomod gomod_config_valid].
  now rewrite GoMod.validate_gomod_config_result.
Qed.

(** C1, as the code has it.  A run exits with 2 when the project root is
    missing and also when no layer directory is present under it: never
    with 0.  For every run, the exit code is 1 exactly when a violation was
    recorded or the go.mod configuration is invalid for some present layer,
    that is, the go.mod of that layer exists and either cannot be read or
    declares a dependency outside the allowed set ([gomod_layer_ok]).  The
    exit code is 0 exactly when the root exists, some layer is present,
    no violation was recorded and every present layer passes the go.mod
    check. *)
Theorem exit_code_contract (fs : FileSystem) (root : Path) :
  (path_exists fs root = false \/ layers_present (new_guard fs root) = [] ->
   exit_code fs root = 2)
  /\ (exit_code fs root = 1 <->
        violations (final_guard fs root) <> []
        \/ exists layer,
             In layer (layers_present (new_guard fs root))
             /\ gomod_layer_ok fs (new_guard fs root) layer = false)
  /\ (exit_code fs root = 0 <->
        path_exists fs root = true
        /\ layers_present (new_guard fs root) <> []
        /\ violations (final_guard fs root) = []
        /\ forall layer,
             In layer (layers_present (new_guard fs root)) ->
             gomod_layer_ok fs (new_guard fs root) layer = true).
Proof.
  assert (Htwo : path_exists fs root = false \/ layers_present (new_guard fs root) = [] ->
                 exit_code fs root = 2).
  { intros [He|Hl].
    - now apply ExitCode.exit_code_missing_root.
    - destruct (path_exists fs root) eqn:He.
      + now apply ExitCode.exit_code_no_layers.
      + now apply ExitCode.exit_code_missing_root. }
  split; [exact Htwo|].
  assert (Hnone : path_exists fs root = false \/ layers_present (new_guard fs root) = [] ->
                  layers_present (new_guard fs root) = []).
  { intros [He|Hl]; [|exact Hl].
    rewrite Construction.new_guard_detected, He. reflexivity. }
  destruct (path_exists fs root) eqn:He.
  - destruct (layers_present (new_guard fs root)) as [|l ls] eqn:El.
    + rewrite (Htwo (or_intror eq_refl)).
      rewrite (Scan.final_guard_violations_nil fs root)
        by (right; exact El).
      split; split.
      * discriminate.
      * intros [H | [layer [[] _]]]. now elim H.
      * discriminate.
      * intros [_ [H _]]. now elim H.
    + assert (Hl : layers_present (new_guard fs root) <> [])
        by (rewrite El; discriminate).
      pose proof (final_guard_gomod fs root He Hl) as Hg.
      destruct (ExitCode.run_with_layers fs root He Hl) as [Hcode Hfinal].
      rewrite ExitCode.validate_all_result in Hcode
        by (rewrite ExitCode.self_ready; exact Hl).
      rewrite <- Hfinal in Hcode. rewrite Hcode. rewrite El in Hg.
      destruct (gomod_config_valid (final_guard fs root)) eqn:Ev.
      * symmetry in Hg. rewrite forallb_forall in Hg.
        assert (Hall : forall layer, In layer (l :: ls) ->
                         gomod_layer_ok fs (new_guard fs root) layer = true).
        { intros layer Hin. apply Hg, GoMod.sorted_in, Hin. }
        destruct (violations (final_guard fs root)) as [|v vs]; simpl; split; split.
        -- discriminate.
        -- intros [H | [layer [Hin Hbad]]]; [now elim H|].
           rewrite (Hall layer Hin) in Hbad. discriminate.
        -- intros _. repeat split; auto. discriminate.
        -- reflexivity.
        -- intros _. left. discriminate.
        -- reflexivity.
        -- discriminate.
        -- intros [_ [_ [H _]]]. discriminate.
      * symmetry in Hg. apply forallb_false in Hg.
        destruct Hg as [layer [Hin Hbad]].
        apply (proj1 (GoMod.sorted_in _ _)) in Hin.
        simpl. split; split.
        -- intros _. right. exists layer. split; [exact Hin | exact Hbad].
        -- reflexivity.
        -- discriminate.
        -- intros [_ [_ [_ H]]]. rewrite (H layer Hin) in Hbad. discriminate.
  - rewrite (Htwo (or_introl eq_refl)).
    rewrite (Hnone (or_introl eq_refl)).
    rewrite (Scan.final_guard_violations_nil fs root) by (now left).
    split; split.
    + discriminate.
    + intros [H | [layer [[] _]]]. now elim H.
    + discriminate.
    + intros [H _]. discriminate.
Qed.

Lemma exit_code_contract_witness :
  exit_code Samples.no_layers Samples.root = 2
  /\ exit_code Samples.unreadable_gomod Samples.root = 1.
Proof.
  split.
  - apply (proj1 (exit_code_contract Samples.no_layers Samples.root)).
    right. vm_compute. reflexivity.
  - apply (proj2 (proj1 (proj2 (exit_code_contract Samples.unreadable_gomod Samples.root)))).
    right. exists "domain". split; vm_compute; auto.
Defined.

End ExitContract.
